(** * BrainDrive Library plugin: the capture panel and its services

    A shallow embedding of the capture orchestrator
    ([components/LibraryCapture]), the prompt/streaming client
    ([services/libraryCaptureService]), the page-defaults writer
    ([services/libraryPageDefaultsService]) and the file service
    ([services/libraryEditorService]), followed by the properties
    established about them.

    Conventions of the embedding.
    - A JavaScript string is a [string]: a sequence of code units, here
      restricted to the 8-bit range, so that the white space removed by
      [trim] is U+0009..U+000D, U+0020 and U+00A0 and [toLowerCase] acts
      on A-Z and on the Latin-1 capitals.
    - A value that came out of [JSON.parse] (or out of the HTTP layer) is
      a [json] tree; [undefined] is the [None] of [option json].
    - [JSON.parse] belongs to the runtime.  Functions that call it take
      the parser as an argument [JSON_parse : string -> option json]
      ([None] when it throws); the general theorems hold for every
      parser, and [Json.parse] is a concrete one used to run the code on
      sample inputs.
    - Asynchronous code is run to completion, one operation at a time;
      [setState] updates are applied in program order. *)

From Stdlib Require Import String Ascii List Bool Arith Lia ZArith.
From Stdlib Require Import DecimalString.
Import ListNotations.
Open Scope list_scope.
Open Scope string_scope.
Open Scope nat_scope.

(** ** String.prototype, as far as the plugin uses it *)

Module JsString.

Definition is_whitespace (c : ascii) : bool :=
  let n := nat_of_ascii c in
  ((9 <=? n) && (n <=? 13)) || (n =? 32) || (n =? 160).

Definition is_slash (c : ascii) : bool := Ascii.eqb c "/".
Definition is_backslash (c : ascii) : bool := Ascii.eqb c "\".
Definition is_hyphen (c : ascii) : bool := Ascii.eqb c "-".

(** The character class [[a-z0-9]]. *)
Definition is_lower_alnum (c : ascii) : bool :=
  let n := nat_of_ascii c in
  ((97 <=? n) && (n <=? 122)) || ((48 <=? n) && (n <=? 57)).

Fixpoint drop_while (f : ascii -> bool) (s : string) : string :=
  match s with
  | EmptyString => EmptyString
  | String c s' => if f c then drop_while f s' else s
  end.

Fixpoint drop_while_end (f : ascii -> bool) (s : string) : string :=
  match s with
  | EmptyString => EmptyString
  | String c s' =>
      match drop_while_end f s' with
      | EmptyString => if f c then EmptyString else String c EmptyString
      | r => String c r
      end
  end.

(** [s.trim()] *)
Definition trim (s : string) : string :=
  drop_while_end is_whitespace (drop_while is_whitespace s).

Definition lower_char (c : ascii) : ascii :=
  let n := nat_of_ascii c in
  if ((65 <=? n) && (n <=? 90))
     || ((192 <=? n) && (n <=? 222) && negb (n =? 215))
  then ascii_of_nat (n + 32) else c.

(** [s.toLowerCase()] *)
Fixpoint toLowerCase (s : string) : string :=
  match s with
  | EmptyString => EmptyString
  | String c s' => String (lower_char c) (toLowerCase s')
  end.

(** [s.replace(/[class]+/g, by)]: every maximal run of characters of
    the class is replaced by [by]; [in_run] tells that the previous
    character belonged to the class. *)
Fixpoint replace_runs (f : ascii -> bool) (by_ : string) (in_run : bool)
         (s : string) : string :=
  match s with
  | EmptyString => EmptyString
  | String c s' =>
      if f c
      then if in_run then replace_runs f by_ true s'
           else by_ ++ replace_runs f by_ true s'
      else String c (replace_runs f by_ false s')
  end.

(** [s.replace(/c/g, empty)] for a single character class. *)
Fixpoint remove_all (f : ascii -> bool) (s : string) : string :=
  match s with
  | EmptyString => EmptyString
  | String c s' => if f c then remove_all f s' else String c (remove_all f s')
  end.

(** [s.startsWith(p)] *)
Definition startsWith (p s : string) : bool := String.prefix p s.

(** [s.includes(p)] *)
Definition includes (p s : string) : bool :=
  match String.index 0 p s with Some _ => true | None => false end.

(** [s.indexOf(p, from)], [-1] when there is no occurrence. *)
Definition indexOf (p s : string) (from : Z) : Z :=
  match String.index (Z.to_nat from) p s with
  | Some i => Z.of_nat i
  | None => (-1)%Z
  end.

(** [s.slice(n)] for [0 <= n]. *)
Fixpoint drop (n : nat) (s : string) : string :=
  match n, s with
  | O, _ => s
  | S _, EmptyString => EmptyString
  | S n', String _ s' => drop n' s'
  end.

(** [s.slice(0, n)] for [0 <= n]. *)
Fixpoint take (n : nat) (s : string) : string :=
  match n, s with
  | O, _ => EmptyString
  | S _, EmptyString => EmptyString
  | S n', String c s' => String c (take n' s')
  end.

(** [s.slice(a, b)] for non-negative bounds. *)
Definition slice (a b : Z) (s : string) : string :=
  take (Z.to_nat b - Z.to_nat a) (drop (Z.to_nat a) s).

(** [s.split(sep)] for a one-character separator. *)
Fixpoint split (sep : ascii) (s : string) : list string :=
  match s with
  | EmptyString => [EmptyString]
  | String c s' =>
      if Ascii.eqb c sep then EmptyString :: split sep s'
      else match split sep s' with
           | h :: t => String c h :: t
           | [] => [String c EmptyString]
           end
  end.

(** [parts.join(sep)] *)
Fixpoint join (sep : string) (parts : list string) : string :=
  match parts with
  | [] => EmptyString
  | [p] => p
  | p :: rest => p ++ sep ++ join sep rest
  end.

(** No character of [s] belongs to the class. *)
Fixpoint none_of (f : ascii -> bool) (s : string) : bool :=
  match s with
  | EmptyString => true
  | String c s' => negb (f c) && none_of f s'
  end.

(** The shape of a slug: characters of [[a-z0-9]] and hyphens, no
    hyphen next to a hyphen and, when [after_hyphen] is set, no hyphen
    in front. *)
Fixpoint slug_like (after_hyphen : bool) (s : string) : bool :=
  match s with
  | EmptyString => true
  | String c s' =>
      if is_hyphen c then negb after_hyphen && slug_like true s'
      else is_lower_alnum c && slug_like false s'
  end.

Definition is_colon (c : ascii) : bool := Ascii.eqb c ":".

Definition is_empty (s : string) : bool :=
  match s with EmptyString => true | _ => false end.

(** [a || b] on strings: the empty string is falsy. *)
Definition or_else (a b : string) : string := if is_empty a then b else a.

Definition nl : ascii := ascii_of_nat 10.
Definition newline : string := String nl EmptyString.

(** Decimal rendering of an array index. *)
Definition of_nat (n : nat) : string := NilZero.string_of_uint (Nat.to_uint n).

Fixpoint repeat (c : ascii) (n : nat) : string :=
  match n with O => EmptyString | S n' => String c (repeat c n') end.

End JsString.

Import JsString.

(** ** JSON values and the runtime operations on them *)

Module Json.

#[warnings="-register-all"] Inductive json : Type :=
| JNull
| JBool (b : bool)
| JNumber (repr : string)
| JString (s : string)
| JArray (items : list json)
| JObject (fields : list (string * json)).

(** A number is kept as its canonical rendering ([Number::toString]):
    the code observes numbers only through truthiness and [String(_)]. *)

Fixpoint assoc (k : string) (fs : list (string * json)) : option json :=
  match fs with
  | [] => None
  | (k', v) :: rest => if String.eqb k k' then Some v else assoc k rest
  end.

(** Property read [v.k] (or [v?.k]): [undefined] on everything but an
    object that has the key.  The keys read by the plugin are never
    array indices nor [length]. *)
Definition get (v : option json) (k : string) : option json :=
  match v with
  | Some (JObject fs) => assoc k fs
  | _ => None
  end.

Definition truthy (v : option json) : bool :=
  match v with
  | None | Some JNull => false
  | Some (JBool b) => b
  | Some (JNumber r) => negb (String.eqb r "0") && negb (String.eqb r "NaN")
  | Some (JString s) => negb (is_empty s)
  | Some (JArray _) | Some (JObject _) => true
  end.

(** [a || b] *)
Definition or (a b : option json) : option json := if truthy a then a else b.

(** [typeof v === "string"] *)
Definition as_string (v : option json) : option string :=
  match v with Some (JString s) => Some s | _ => None end.

(** [typeof v === "object"] (which [null] and arrays satisfy). *)
Definition typeof_object (v : option json) : bool :=
  match v with
  | Some JNull | Some (JArray _) | Some (JObject _) => true
  | _ => false
  end.

(** [v && typeof v === "object"] *)
Definition is_objectlike (v : option json) : bool :=
  match v with
  | Some (JArray _) | Some (JObject _) => true
  | _ => false
  end.

(** [String(v)] on a defined value. *)
Fixpoint to_string (v : json) : string :=
  match v with
  | JNull => "null"
  | JBool true => "true"
  | JBool false => "false"
  | JNumber r => r
  | JString s => s
  | JArray items =>
      join ","
        (map (fun x => match x with JNull => EmptyString | _ => to_string x end)
             items)
  | JObject _ => "[object Object]"
  end.

(** [String(v)] *)
Definition ToString (v : option json) : string :=
  match v with None => "undefined" | Some j => to_string j end.

Fixpoint indexed {A : Type} (i : nat) (l : list A) : list (string * A) :=
  match l with
  | [] => []
  | x :: rest => (JsString.of_nat i, x) :: indexed (S i) rest
  end.

Fixpoint chars (s : string) : list json :=
  match s with
  | EmptyString => []
  | String c s' => JString (String c EmptyString) :: chars s'
  end.

(** Own enumerable properties, as [Object.entries] and object spread
    see them.  (Insertion order is kept; JavaScript lists integer-like
    keys first, which no lookup depends on.) *)
Definition entries (v : option json) : list (string * json) :=
  match v with
  | Some (JObject fs) => fs
  | Some (JArray items) => indexed 0 items
  | Some (JString s) => indexed 0 (chars s)
  | _ => []
  end.

(** [obj[k] = v]: an existing key keeps its place. *)
Fixpoint set_field (k : string) (v : json) (fs : list (string * json))
  : list (string * json) :=
  match fs with
  | [] => [(k, v)]
  | (k', v') :: rest =>
      if String.eqb k k' then (k, v) :: rest else (k', v') :: set_field k v rest
  end.

(** [{...a, ...b}] on property lists. *)
Definition spread (a b : list (string * json)) : list (string * json) :=
  fold_left (fun acc kv => set_field (fst kv) (snd kv) acc) b
    (fold_left (fun acc kv => set_field (fst kv) (snd kv) acc) a []).

Definition dquote : ascii := ascii_of_nat 34.

(** *** JSON.stringify *)

Definition hex_digit (n : nat) : ascii :=
  if n <? 10 then ascii_of_nat (48 + n) else ascii_of_nat (87 + n).

Definition escape_char (c : ascii) : string :=
  let n := nat_of_ascii c in
  if n =? 34 then "\" ++ String dquote EmptyString
  else if n =? 92 then "\\"
  else if n =? 8 then "\b"
  else if n =? 12 then "\f"
  else if n =? 10 then "\n"
  else if n =? 13 then "\r"
  else if n =? 9 then "\t"
  else if n <? 32
       then "\u00" ++ String (hex_digit (n / 16)) (String (hex_digit (n mod 16)) EmptyString)
       else String c EmptyString.

Fixpoint escape (s : string) : string :=
  match s with
  | EmptyString => EmptyString
  | String c s' => escape_char c ++ escape s'
  end.

Definition quote (s : string) : string :=
  String dquote (escape s ++ String dquote EmptyString).

Fixpoint stringify (v : json) : string :=
  match v with
  | JNull => "null"
  | JBool true => "true"
  | JBool false => "false"
  | JNumber r => r
  | JString s => quote s
  | JArray items => "[" ++ join "," (map stringify items) ++ "]"
  | JObject fields =>
      "{" ++ join "," (map (fun kv => quote (fst kv) ++ ":" ++ stringify (snd kv)) fields)
          ++ "}"
  end.

(** *** A JSON parser

    Recursive descent on the text, as [JSON.parse] reads it.  Two
    restrictions keep it inside the embedding: a number literal must be
    an integer of at most fifteen digits (so that it is its own
    canonical rendering) and a [\u] escape must denote a code unit
    below 256; other texts are reported as unparsable. *)

Definition is_json_ws (c : ascii) : bool :=
  let n := nat_of_ascii c in
  (n =? 32) || (n =? 9) || (n =? 10) || (n =? 13).

Definition skip_ws (s : string) : string := drop_while is_json_ws s.

Definition is_digit (c : ascii) : bool :=
  let n := nat_of_ascii c in (48 <=? n) && (n <=? 57).

Definition hex_value (c : ascii) : option nat :=
  let n := nat_of_ascii c in
  if (48 <=? n) && (n <=? 57) then Some (n - 48)
  else if (97 <=? n) && (n <=? 102) then Some (n - 87)
  else if (65 <=? n) && (n <=? 70) then Some (n - 55)
  else None.

Definition unescape (c : ascii) : option ascii :=
  let n := nat_of_ascii c in
  if n =? 34 then Some c
  else if n =? 92 then Some c
  else if n =? 47 then Some c
  else if n =? 98 then Some (ascii_of_nat 8)
  else if n =? 102 then Some (ascii_of_nat 12)
  else if n =? 110 then Some (ascii_of_nat 10)
  else if n =? 114 then Some (ascii_of_nat 13)
  else if n =? 116 then Some (ascii_of_nat 9)
  else None.

(** The characters of a string literal after its opening quote, and the
    text after its closing quote. *)
Fixpoint parse_chars (s : string) : option (string * string) :=
  match s with
  | EmptyString => None
  | String c rest =>
      if Ascii.eqb c dquote then Some (EmptyString, rest)
      else if Ascii.eqb c "\" then
        match rest with
        | String e rest1 =>
            match unescape e with
            | Some ch =>
                match parse_chars rest1 with
                | Some (str, r) => Some (String ch str, r)
                | None => None
                end
            | None =>
                match rest1 with
                | String h1 (String h2 (String h3 (String h4 rest5))) =>
                    if Ascii.eqb e "u" then
                      match hex_value h1, hex_value h2, hex_value h3, hex_value h4 with
                      | Some 0, Some 0, Some a, Some b =>
                          match parse_chars rest5 with
                          | Some (str, r) => Some (String (ascii_of_nat (16 * a + b)) str, r)
                          | None => None
                          end
                      | _, _, _, _ => None
                      end
                    else None
                | _ => None
                end
            end
        | EmptyString => None
        end
      else if nat_of_ascii c <? 32 then None
      else match parse_chars rest with
           | Some (str, r) => Some (String c str, r)
           | None => None
           end
  end.

Fixpoint take_digits (s : string) : string * string :=
  match s with
  | String c rest =>
      if is_digit c
      then let '(ds, r) := take_digits rest in (String c ds, r)
      else (EmptyString, s)
  | EmptyString => (EmptyString, EmptyString)
  end.

Definition number_continues (s : string) : bool :=
  match s with
  | String c _ => Ascii.eqb c "." || Ascii.eqb c "e" || Ascii.eqb c "E"
  | EmptyString => false
  end.

Definition parse_number (s : string) : option (json * string) :=
  let '(neg, body) :=
    match s with
    | String c rest => if Ascii.eqb c "-" then (true, rest) else (false, s)
    | EmptyString => (false, s)
    end in
  let '(ds, r) := take_digits body in
  match ds with
  | EmptyString => None
  | String d more =>
      if (Ascii.eqb d "0" && negb (is_empty more)) || number_continues r
         || (15 <? String.length ds)
      then None
      else if String.eqb ds "0" then Some (JNumber "0", r)
      else Some (JNumber (if neg then "-" ++ ds else ds), r)
  end.

Definition expect (lit : string) (v : json) (s : string) : option (json * string) :=
  if String.prefix lit s then Some (v, drop (String.length lit) s) else None.

Fixpoint parse_value (fuel : nat) (s : string) : option (json * string) :=
  match fuel with
  | O => None
  | S fuel' =>
      match skip_ws s with
      | EmptyString => None
      | String c rest as t =>
          if Ascii.eqb c "{" then
            match skip_ws rest with
            | String c1 rest1 as t1 =>
                if Ascii.eqb c1 "}" then Some (JObject [], rest1)
                else match parse_members fuel' t1 with
                     | Some (fs, r) => Some (JObject fs, r)
                     | None => None
                     end
            | EmptyString => None
            end
          else if Ascii.eqb c "[" then
            match skip_ws rest with
            | String c1 rest1 as t1 =>
                if Ascii.eqb c1 "]" then Some (JArray [], rest1)
                else match parse_elements fuel' t1 with
                     | Some (items, r) => Some (JArray items, r)
                     | None => None
                     end
            | EmptyString => None
            end
          else if Ascii.eqb c dquote then
            match parse_chars rest with
            | Some (str, r) => Some (JString str, r)
            | None => None
            end
          else if Ascii.eqb c "t" then expect "true" (JBool true) t
          else if Ascii.eqb c "f" then expect "false" (JBool false) t
          else if Ascii.eqb c "n" then expect "null" JNull t
          else parse_number t
      end
  end

with parse_elements (fuel : nat) (s : string) : option (list json * string) :=
  match fuel with
  | O => None
  | S fuel' =>
      match parse_value fuel' s with
      | Some (v, r) =>
          match skip_ws r with
          | String c rest =>
              if Ascii.eqb c "]" then Some ([v], rest)
              else if Ascii.eqb c "," then
                match parse_elements fuel' rest with
                | Some (vs, r') => Some (v :: vs, r')
                | None => None
                end
              else None
          | EmptyString => None
          end
      | None => None
      end
  end

with parse_members (fuel : nat) (s : string)
  : option (list (string * json) * string) :=
  match fuel with
  | O => None
  | S fuel' =>
      match skip_ws s with
      | String c rest =>
          if Ascii.eqb c dquote then
            match parse_chars rest with
            | Some (k, r) =>
                match skip_ws r with
                | String c1 r1 =>
                    if Ascii.eqb c1 ":" then
                      match parse_value fuel' r1 with
                      | Some (v, r2) =>
                          match skip_ws r2 with
                          | String c2 r3 =>
                              if Ascii.eqb c2 "}" then Some ([(k, v)], r3)
                              else if Ascii.eqb c2 "," then
                                match parse_members fuel' r3 with
                                | Some (fs, r4) => Some ((k, v) :: fs, r4)
                                | None => None
                                end
                              else None
                          | EmptyString => None
                          end
                      | None => None
                      end
                    else None
                | EmptyString => None
                end
            | None => None
            end
          else None
      | EmptyString => None
      end
  end.

(** A later duplicate of a key overrides the value of the first. *)
Fixpoint dedup (v : json) : json :=
  match v with
  | JArray items => JArray (map dedup items)
  | JObject fields =>
      JObject (fold_left (fun acc kv => set_field (fst kv) (dedup (snd kv)) acc)
                         fields [])
  | _ => v
  end.

(** [JSON.parse(text)], [None] for a [SyntaxError]. *)
Definition parse (text : string) : option json :=
  match parse_value (2 * String.length text + 2) text with
  | Some (v, rest) => if is_empty (skip_ws rest) then Some (dedup v) else None
  | None => None
  end.

(** Sample texts are written with apostrophes for the double quotes. *)
Fixpoint dq (s : string) : string :=
  match s with
  | EmptyString => EmptyString
  | String c s' => String (if Ascii.eqb c "'" then dquote else c) (dq s')
  end.

End Json.

Import Json.

(** ** Shared types ([types.ts]) *)

Record ModelInfo := {
  name : string;
  provider : string;
  providerId : string;
  serverName : string;
  serverId : string
}.

Inductive ScopeRoot := Projects | Life.

Record ScopeOption := {
  scope_name : string;
  slug : string;
  lifecycle : string;
  path : string;
  scope_root : option ScopeRoot;
  has_agent_md : bool;
  has_spec : bool;
  has_build_plan : bool;
  has_decisions : bool
}.

(** What a promise settles to, and what a [throw] carries. *)
Inductive exn :=
| ErrorObj (message : string)      (* an instance of [Error] *)
| Thrown (v : option json).        (* any other thrown value *)

Inductive result (A : Type) :=
| Resolved (a : A)
| Rejected (e : exn).
Arguments Resolved {A} a.
Arguments Rejected {A} e.

Definition bind {A B : Type} (r : result A) (k : A -> result B) : result B :=
  match r with
  | Resolved a => k a
  | Rejected e => Rejected e
  end.

Notation "x <- r ;; k" := (bind r (fun x => k))
  (at level 61, r at next level, right associativity).

(** The message of an [Error], as the engine words its own errors. *)
Definition syntax_error : exn := ErrorObj "Unexpected token in JSON".
Definition type_error : exn :=
  ErrorObj "Cannot read properties of undefined".

Record File := { file_name : string }.

Inductive body :=
| BodyJson (j : json)
| BodyForm (file : File).

(** The host's HTTP service.  Every method but [get] is optional.  A
    streaming post hands the frames it received to its chunk handler and
    then settles. *)
Record ApiService := {
  api_get : string -> result (option json);
  api_post : option (string -> body -> result (option json));
  api_put : option (string -> body -> result (option json));
  api_postStreaming :
    option (string -> body -> list string * result (option json))
}.

(** The requests a call has issued, in order. *)
Inductive request :=
| Get (url : string)
| Post (url : string) (b : body)
| Put (url : string) (b : body)
| PostStreaming (url : string) (b : body).

Definition is_put (r : request) : bool :=
  match r with Put _ _ => true | _ => false end.

(** ** The prompt/streaming client ([LibraryCaptureService]) *)

Module CaptureService.

Definition extractTextFromData (data : option json) : string :=
  if negb (truthy data) then EmptyString
  else
    match data with
    | Some (JString s) => s
    | Some (JArray _) | Some (JObject _) =>
        match as_string (get data "text") with
        | Some t => t
        | None =>
            let from_choices :=
              match get data "choices" with
              | Some (JArray (choice :: _)) =>
                  let c := Some choice in
                  if truthy (get (get c "delta") "content")
                  then Some (ToString (get (get c "delta") "content"))
                  else if truthy (get (get c "message") "content")
                  then Some (ToString (get (get c "message") "content"))
                  else if truthy (get c "text")
                  then Some (ToString (get c "text"))
                  else None
              | _ => None
              end in
            match from_choices with
            | Some t => t
            | None =>
                let fix scan (fields : list string) : option string :=
                  match fields with
                  | [] => None
                  | field :: rest =>
                      match as_string (get data field) with
                      | Some t => Some t
                      | None =>
                          match as_string (get (get data field) "content") with
                          | Some t => Some t
                          | None => scan rest
                          end
                      end
                  end in
                match scan ["content"; "message"; "response"; "output"; "result"; "answer"] with
                | Some t => t
                | None =>
                    match as_string (get (get data "delta") "content") with
                    | Some t => t
                    | None => EmptyString
                    end
                end
            end
        end
    | _ => EmptyString
    end.

Definition normalizeApiPayload (response : option json) : option json :=
  if negb (truthy response) || negb (typeof_object response) then response
  else match get response "data" with
       | Some d => Some d
       | None => response
       end.

(** [normalizeScopePath] has the body of the component's [normalizePath]. *)
Definition normalizeScopePath (value : string) : string :=
  drop_while_end is_slash
    (drop_while is_slash
       (replace_runs is_backslash "/" false (trim value))).

Record SendCapturePromptOptions := {
  prompt : string;
  selectedModel : ModelInfo;
  conversationId : option string;
  conversationType : string;
  pageContext : option json;
  useStreaming : bool;
  mcpParams : list (string * json);
  approvalDecision : option json
}.

(** The three callbacks of [SendCapturePromptOptions], acting on the
    caller's state: a callback completes with the next state or throws. *)
Record Callbacks (S : Type) := {
  onChunk : string -> S -> result S;
  onConversationId : string -> S -> result S;
  onMetadataEvent : json -> S -> result S
}.
Arguments onChunk {S} _ _ _.
Arguments onConversationId {S} _ _ _.
Arguments onMetadataEvent {S} _ _ _.

(** Callbacks that always complete. *)
Definition never_throw {S : Type} (cb : Callbacks S) : Prop :=
  (forall text st, exists st', onChunk cb text st = Resolved st')
  /\ (forall id st, exists st', onConversationId cb id st = Resolved st')
  /\ (forall event st, exists st', onMetadataEvent cb event st = Resolved st').

(** Callbacks that only record their invocations. *)
Inductive Invocation :=
| ChunkCall (text : string)
| ConversationIdCall (id : string)
| MetadataEventCall (event : json).

Definition recorder : Callbacks (list Invocation) :=
  {| onChunk := fun text log => Resolved (log ++ [ChunkCall text])%list;
     onConversationId := fun id log => Resolved (log ++ [ConversationIdCall id])%list;
     onMetadataEvent := fun event log => Resolved (log ++ [MetadataEventCall event])%list |}.

Definition is_id_call (i : Invocation) : bool :=
  match i with ConversationIdCall _ => true | _ => false end.

Definition metadata_event_types : list string :=
  [ "project_scope_suggested"; "project_scope_selected"; "tooling_state";
    "tool_call"; "tool_result"; "auto_continue"; "approval_request";
    "approval_required"; "approval_resolution"; "orchestration_context_error" ].

Definition is_metadata_type (t : string) : bool :=
  existsb (String.eqb t) metadata_event_types.

(** [parsed && typeof parsed === "object" && typeof parsed.type === "string"
    && (parsed.type === ... || ...)] *)
Definition is_metadata_event (parsed : json) : bool :=
  match as_string (get (Some parsed) "type") with
  | Some t => is_metadata_type t
  | None => false
  end.

(** [!id] for a nullable string: [null] and the empty string are falsy. *)
Definition absent (id : option string) : bool :=
  match id with
  | None => true
  | Some s => is_empty s
  end.

(** A property of the caller's state that no callback destroys. *)
Definition preserved_by {S : Type} (cb : Callbacks S) (Q : S -> Prop) : Prop :=
  (forall text st st', Q st -> onChunk cb text st = Resolved st' -> Q st')
  /\ (forall id st st', Q st -> onConversationId cb id st = Resolved st' -> Q st')
  /\ (forall event st st', Q st -> onMetadataEvent cb event st = Resolved st' -> Q st').

(** What is sent and what comes back from one call of [sendPrompt]. *)
Record Sent (S : Type) := {
  requests : list request;
  state_after : S;
  outcome : result bool;
  userId_after : option string
}.
Arguments requests {S} _.
Arguments state_after {S} _.
Arguments outcome {S} _.
Arguments userId_after {S} _.

Definition chat_url : string := "/api/v1/ai/providers/chat".

(** [line.startsWith("data: ") ? line.slice(6) : line] *)
Definition payload_of (line : string) : string :=
  if startsWith "data: " line then drop 6 line else line.

(** [content.split(newline).filter((line) => line.trim().length > 0)] *)
Definition lines_of (chunk : string) : list string :=
  filter (fun line => negb (is_empty (trim line))) (split nl chunk).

Section WithParser.

Variable JSON_parse : string -> option json.

Section WithCallbacks.

Context {S : Type}.
Variable cb : Callbacks S.

(** The body of the [for (const line of lines)] loop; the [try]
    block swallows whatever is thrown inside it. *)
Definition on_line (conversationId : option string) (line : string) (st : S) : S :=
  let payloadLine := payload_of line in
  if is_empty payloadLine || String.eqb payloadLine "[DONE]" then st
  else
    match JSON_parse payloadLine with
    | None => st
    | Some parsed =>
        let cid := get (Some parsed) "conversation_id" in
        let after_id :=
          if truthy cid && absent conversationId
          then onConversationId cb (ToString cid) st
          else Resolved st in
        match after_id with
        | Rejected _ => st
        | Resolved st1 =>
            if is_metadata_event parsed then
              match onMetadataEvent cb parsed st1 with
              | Resolved st2 => st2
              | Rejected _ => st1
              end
            else
              let text := extractTextFromData (Some parsed) in
              if is_empty text then st1
              else match onChunk cb text st1 with
                   | Resolved st2 => st2
                   | Rejected _ => st1
                   end
        end
    end.

(** The chunk handler passed to [api.postStreaming]. *)
Definition on_frame (conversationId : option string) (chunk : string) (st : S) : S :=
  fold_left (fun acc line => on_line conversationId line acc) (lines_of chunk) st.

Definition on_frames (conversationId : option string) (frames : list string) (st : S) : S :=
  fold_left (fun acc frame => on_frame conversationId frame acc) frames st.

(** The single-shot branch, from the normalised response payload on. *)
Definition on_response (conversationId : option string) (payload : option json) (st : S)
  : S * result bool :=
  let cid := get payload "conversation_id" in
  let step1 :=
    if truthy cid && absent conversationId
    then onConversationId cb (ToString cid) st else Resolved st in
  match step1 with
  | Rejected e => (st, Rejected e)
  | Resolved st1 =>
      let step2 :=
        if truthy (get payload "tooling_state")
        then onMetadataEvent cb
               (JObject (spread [("type", JString "tooling_state")]
                                (entries (get payload "tooling_state")))) st1
        else Resolved st1 in
      match step2 with
      | Rejected e => (st1, Rejected e)
      | Resolved st2 =>
          let step3 :=
            if truthy (get payload "approval_required")
               && truthy (get payload "approval_request")
            then match get payload "approval_request" with
                 | Some request =>
                     onMetadataEvent cb
                       (JObject [("type", JString "approval_required");
                                 ("approval_request", request)]) st2
                 | None => Resolved st2
                 end
            else Resolved st2 in
          match step3 with
          | Rejected e => (st2, Rejected e)
          | Resolved st3 =>
              let step4 :=
                if truthy (get payload "approval_resolution")
                then onMetadataEvent cb
                       (JObject (spread [("type", JString "approval_resolution")]
                                        (entries (get payload "approval_resolution")))) st3
                else Resolved st3 in
              match step4 with
              | Rejected e => (st3, Rejected e)
              | Resolved st4 =>
                  let text := extractTextFromData payload in
                  let step5 :=
                    if is_empty text then Resolved st4 else onChunk cb text st4 in
                  match step5 with
                  | Rejected e => (st4, Rejected e)
                  | Resolved st5 =>
                      if is_empty text
                         && negb (truthy (get payload "approval_required"))
                         && negb (truthy (get payload "approval_resolution"))
                      then (st5, Rejected (ErrorObj "No response text received."))
                      else (st5, Resolved true)
                  end
              end
          end
      end
  end.

Definition ensureApi (api : option ApiService) : result ApiService :=
  match api with
  | Some a => Resolved a
  | None => Rejected (ErrorObj "API service is not available.")
  end.

(** [initializeUserId]: the requests issued and the cached user id. *)
Definition initializeUserId (api : ApiService) (currentUserId : option string)
  : list request * option string :=
  if negb (absent currentUserId) then ([], currentUserId)
  else
    match api_get api "/api/v1/auth/me" with
    | Resolved response =>
        let payload := normalizeApiPayload response in
        let userId :=
          Json.or (Json.or (get payload "id") (get payload "user_id")) (Some JNull) in
        ([Get "/api/v1/auth/me"], as_string userId)
    | Rejected _ => ([Get "/api/v1/auth/me"], None)
    end.

Definition page_context_fields (ctx : option json) : list (string * json) :=
  let field k :=
    match get ctx k with Some v => [(k, v)] | None => [] end in
  (field "pageName" ++ field "pageRoute" ++ field "isStudioPage")%list.

Definition requestPayload (options : SendCapturePromptOptions)
           (currentUserId : option string) : json :=
  let prompt := or_else (trim (prompt options)) "Continue." in
  let params :=
    spread [("temperature", JNumber "0.3"); ("max_tokens", JNumber "2048")]
           (mcpParams options) in
  let params :=
    match approvalDecision options with
    | Some decision => set_field "mcp_approval" decision params
    | None => params
    end in
  let base :=
    [ ("provider", JString (provider (selectedModel options)));
      ("settings_id", JString (providerId (selectedModel options)));
      ("server_id", JString (serverId (selectedModel options)));
      ("model", JString (name (selectedModel options)));
      ("messages",
       JArray [JObject [("role", JString "user"); ("content", JString prompt)]]);
      ("params", JObject params);
      ("stream", JBool (useStreaming options));
      ("user_id",
       JString (match currentUserId with
                | Some u => or_else u "current"
                | None => "current"
                end));
      ("conversation_id",
       match conversationId options with
       | Some c => JString c
       | None => JNull
       end);
      ("conversation_type", JString (conversationType options)) ] in
  match as_string (get (pageContext options) "pageId") with
  | Some pageId =>
      JObject
        (base ++
         [ ("page_id", JString pageId);
           ("page_context",
            JString (stringify (JObject (page_context_fields (pageContext options))))) ])%list
  | None => JObject base
  end.

(** [sendPrompt] of the service. *)
Definition sendPrompt (api : option ApiService) (currentUserId : option string)
           (options : SendCapturePromptOptions) (st : S) : Sent S :=
  match ensureApi api with
  | Rejected e =>
      {| requests := []; state_after := st; outcome := Rejected e;
         userId_after := currentUserId |}
  | Resolved api =>
      let '(reqs0, uid) := initializeUserId api currentUserId in
      match api_post api with
      | None =>
          {| requests := reqs0; state_after := st;
             outcome := Rejected (ErrorObj "API service does not support POST requests.");
             userId_after := uid |}
      | Some post =>
          let payload := BodyJson (requestPayload options uid) in
          match (if useStreaming options then api_postStreaming api else None) with
          | Some postStreaming =>
              let '(frames, settled) := postStreaming chat_url payload in
              let st' := on_frames (conversationId options) frames st in
              {| requests := (reqs0 ++ [PostStreaming chat_url payload])%list;
                 state_after := st';
                 outcome := (_ <- settled ;; Resolved true);
                 userId_after := uid |}
          | None =>
              match post chat_url payload with
              | Rejected e =>
                  {| requests := (reqs0 ++ [Post chat_url payload])%list;
                     state_after := st; outcome := Rejected e;
                     userId_after := uid |}
              | Resolved response =>
                  let '(st', out) :=
                    on_response (conversationId options)
                                (normalizeApiPayload response) st in
                  {| requests := (reqs0 ++ [Post chat_url payload])%list;
                     state_after := st'; outcome := out;
                     userId_after := uid |}
              end
          end
      end
  end.

End WithCallbacks.

(** The conversation id a record carries, if it parses and the id is
    truthy. *)
Definition carried_id (line : string) : option string :=
  let payloadLine := payload_of line in
  if is_empty payloadLine || String.eqb payloadLine "[DONE]" then None
  else
    match JSON_parse payloadLine with
    | Some parsed =>
        if truthy (get (Some parsed) "conversation_id")
        then Some (ToString (get (Some parsed) "conversation_id"))
        else None
    | None => None
    end.

Fixpoint somes {A : Type} (l : list (option A)) : list A :=
  match l with
  | [] => []
  | Some a :: rest => a :: somes rest
  | None :: rest => somes rest
  end.

(** The ids carried by the records of a stream, in arrival order. *)
Definition carried_ids (frames : list string) : list string :=
  somes (map carried_id (flat_map lines_of frames)).

End WithParser.

(** [processDocument]: the upload of a transcript for text extraction. *)
Definition processDocument (api : option ApiService) (file : File)
  : list request * result json :=
  match api with
  | None => ([], Rejected (ErrorObj "API service is not available."))
  | Some api =>
      match api_post api with
      | None => ([], Rejected (ErrorObj "API service does not support document uploads."))
      | Some post =>
          let reqs := [Post "/api/v1/documents/process" (BodyForm file)] in
          match post "/api/v1/documents/process" (BodyForm file) with
          | Rejected e => (reqs, Rejected e)
          | Resolved response =>
              let payload := normalizeApiPayload response in
              match payload, get payload "processing_success",
                    as_string (get payload "extracted_text") with
              | Some p, Some (JBool true), Some _ => (reqs, Resolved p)
              | _, _, _ =>
                  (reqs,
                   Rejected
                     (ErrorObj
                        (ToString (Json.or (get payload "error")
                                           (Some (JString "Failed to process transcript file."))))))
              end
          end
      end
  end.

(** *** The catalogue loaders *)

Definition LIBRARY_PROJECT_ENDPOINT : string :=
  "/api/v1/plugin-api/braindrive-library/library/projects?lifecycle=active".

Definition LIBRARY_LIFE_ENDPOINT_CANDIDATES : list string :=
  [ "/api/v1/plugin-api/braindrive-library/library/life";
    "/api/v1/plugin-api/braindrive-library/library/projects?path=life";
    "/api/v1/plugin-api/braindrive-library/library/projects?scope=life" ].

(** The first of the candidates that is an array. *)
Fixpoint first_array (candidates : list (option json)) : list json :=
  match candidates with
  | [] => []
  | Some (JArray items) :: _ => items
  | _ :: rest => first_array rest
  end.

Definition parseListPayload (payload : option json) : list json :=
  if negb (truthy payload) || negb (typeof_object payload) then []
  else
    first_array
      [ get payload "projects"; get payload "items"; get payload "life";
        get payload "topics"; get payload "scopes"; get payload "data" ].

(** [slugify]: trim, lower the case, turn every run of characters
    outside [[a-z0-9]] into one hyphen, drop the hyphens at both ends and
    collapse the runs of two or more hyphens (a run of one hyphen is
    replaced by itself). *)
Definition slugify (value : string) : string :=
  replace_runs is_hyphen "-" false
    (drop_while_end is_hyphen
       (drop_while is_hyphen
          (replace_runs (fun c => negb (is_lower_alnum c)) "-" false
             (toLowerCase (trim value))))).

(** [String(v || fallback)] *)
Definition text_or (v : option json) (fallback : string) : string :=
  ToString (Json.or v (Some (JString fallback))).

(** [Boolean(v)] *)
Definition to_bool (v : option json) : bool := truthy v.

Definition scope_prefix (root : ScopeRoot) : string :=
  match root with
  | Life => "life/"
  | Projects => "projects/active/"
  end.

(** [parts.pop()] of [s.split(sep)]: the text after the last separator. *)
Definition last_part (sep : ascii) (s : string) : string :=
  List.last (split sep s) EmptyString.

Definition normalizeScopeOption (raw : option json) (root : ScopeRoot) : option ScopeOption :=
  match raw with
  | Some (JString text) =>
      let optionSlug := slugify text in
      if is_empty optionSlug then None
      else
        Some {| scope_name := or_else (trim text) optionSlug;
                slug := optionSlug;
                lifecycle := "active";
                path := scope_prefix root ++ optionSlug;
                scope_root := Some root;
                has_agent_md := false; has_spec := false;
                has_build_plan := false; has_decisions := false |}
  | _ =>
      if negb (is_objectlike raw) then None
      else
        let candidatePath :=
          normalizeScopePath
            (text_or (Json.or (get raw "path") (get raw "scope_path")) EmptyString) in
        let candidateSlug :=
          slugify
            (text_or
               (Json.or (Json.or (Json.or (get raw "slug") (get raw "topic")) (get raw "name"))
                        (Some (JString (if is_empty candidatePath then EmptyString
                                        else last_part "/" candidatePath))))
               EmptyString) in
        if is_empty candidateSlug then None
        else
          let normalizedPath :=
            if is_empty candidatePath then scope_prefix root ++ candidateSlug
            else candidatePath in
          let normalizedPath :=
            match root with
            | Life =>
                if negb (startsWith "life/" normalizedPath)
                then "life/" ++ candidateSlug else normalizedPath
            | Projects =>
                if negb (startsWith "projects/" normalizedPath)
                then "projects/active/" ++ candidateSlug else normalizedPath
            end in
          Some {| scope_name :=
                    or_else
                      (trim (text_or (Json.or (get raw "name") (get raw "topic")) candidateSlug))
                      candidateSlug;
                  slug := candidateSlug;
                  lifecycle := text_or (get raw "lifecycle") "active";
                  path := normalizedPath;
                  scope_root := Some root;
                  has_agent_md := to_bool (get raw "has_agent_md");
                  has_spec := to_bool (get raw "has_spec");
                  has_build_plan := to_bool (get raw "has_build_plan");
                  has_decisions := to_bool (get raw "has_decisions") |}
  end.

(** [values.map((entry) => normalizeScopeOption(entry, root)).filter(Boolean)] *)
Definition scope_options (values : list json) (root : ScopeRoot) : list ScopeOption :=
  somes (map (fun entry => normalizeScopeOption (Some entry) root) values).

Definition loadProjectScopes (api : option ApiService)
  : list request * result (list ScopeOption) :=
  match api with
  | None => ([], Rejected (ErrorObj "API service is not available."))
  | Some api =>
      ([Get LIBRARY_PROJECT_ENDPOINT],
       response <- api_get api LIBRARY_PROJECT_ENDPOINT ;;
       Resolved (scope_options (parseListPayload (normalizeApiPayload response)) Projects))
  end.

(** The list an endpoint answers with; a failed request counts as an
    empty list, as the [catch] of [loadLifeScopes] has it. *)
Definition endpoint_values (api : ApiService) (endpoint : string) : list json :=
  match api_get api endpoint with
  | Resolved response => parseListPayload (normalizeApiPayload response)
  | Rejected _ => []
  end.

(** The loop of [loadLifeScopes] over the endpoints still to try. *)
Fixpoint try_life_endpoints (api : ApiService) (endpoints : list string)
  : list request * list ScopeOption :=
  match endpoints with
  | [] => ([], [])
  | endpoint :: rest =>
      let values := endpoint_values api endpoint in
      match values with
      | _ :: _ => ([Get endpoint], scope_options values Life)
      | [] =>
          let '(reqs, found) := try_life_endpoints api rest in
          (Get endpoint :: reqs, found)
      end
  end.

Definition loadLifeScopes (api : option ApiService)
  : list request * result (list ScopeOption) :=
  match api with
  | None => ([], Rejected (ErrorObj "API service is not available."))
  | Some api =>
      let '(reqs, found) := try_life_endpoints api LIBRARY_LIFE_ENDPOINT_CANDIDATES in
      (reqs, Resolved found)
  end.

(** What a read of [PROVIDER_SETTINGS_ID_MAP[key]] finds: a settings id
    of the table, a property every object inherits (for the two
    lower-case names among them), or nothing. *)
Inductive TableEntry :=
| OwnEntry (settingsId : string)
| InheritedEntry
| NoEntry.

Definition PROVIDER_SETTINGS_ID_MAP (key : string) : TableEntry :=
  if String.eqb key "ollama" then OwnEntry "ollama_servers_settings"
  else if String.eqb key "openai" then OwnEntry "openai_api_keys_settings"
  else if String.eqb key "openrouter" then OwnEntry "openrouter_api_keys_settings"
  else if String.eqb key "claude" then OwnEntry "claude_api_keys_settings"
  else if String.eqb key "anthropic" then OwnEntry "claude_api_keys_settings"
  else if String.eqb key "groq" then OwnEntry "groq_api_keys_settings"
  else if String.eqb key "constructor" || String.eqb key "__proto__" then InheritedEntry
  else NoEntry.

(** The [providerId] of a mapped model: a string, or the inherited
    property the table read came back with. *)
Inductive ProviderId :=
| SettingsId (id : string)
| InheritedProperty.

Record MappedModel := {
  mapped_name : string;
  mapped_provider : string;
  mapped_providerId : ProviderId;
  mapped_serverId : string;
  mapped_serverName : string
}.

(** The callback of [rawModels.map] in [loadModels]. *)
Definition map_model (entry : json) : option MappedModel :=
  let e := Some entry in
  let provider := or_else (trim (text_or (get e "provider") "ollama")) "ollama" in
  let name := trim (text_or (Json.or (get e "name") (get e "id")) EmptyString) in
  if is_empty name then None
  else
    let modelNameLower := toLowerCase name in
    if includes "embed" modelNameLower || includes "embedding" modelNameLower then None
    else
      let providerId :=
        match PROVIDER_SETTINGS_ID_MAP (toLowerCase provider) with
        | OwnEntry settingsId => SettingsId settingsId
        | InheritedEntry => InheritedProperty
        | NoEntry =>
            SettingsId
              (or_else
                 (trim (text_or (Json.or (get e "provider_id") (get e "providerId")) provider))
                 provider)
        end in
      let serverId :=
        or_else (trim (text_or (Json.or (get e "server_id") (get e "serverId")) "unknown"))
                "unknown" in
      let serverName :=
        or_else
          (trim (text_or (Json.or (get e "server_name") (get e "serverName")) "Unknown Server"))
          "Unknown Server" in
      Some {| mapped_name := name; mapped_provider := provider;
              mapped_providerId := providerId; mapped_serverId := serverId;
              mapped_serverName := serverName |}.

(** [(payload && Array.isArray(payload.models) ? payload.models : null)
    || (Array.isArray(payload) ? payload : [])] *)
Definition raw_models (payload : option json) : list json :=
  match get payload "models" with
  | Some (JArray models) => models
  | _ => match payload with
         | Some (JArray entries) => entries
         | _ => []
         end
  end.

Definition loadModels (api : option ApiService) : list request * result (list MappedModel) :=
  match api with
  | None => ([], Rejected (ErrorObj "API service is not available."))
  | Some api =>
      ([Get "/api/v1/ai/providers/all-models"],
       response <- api_get api "/api/v1/ai/providers/all-models" ;;
       Resolved (somes (map map_model (raw_models (normalizeApiPayload response)))))
  end.

(** A mapped model as a [ModelInfo], when its [providerId] is a string. *)
Definition as_ModelInfo (m : MappedModel) : option ModelInfo :=
  match mapped_providerId m with
  | SettingsId id =>
      Some {| name := mapped_name m; provider := mapped_provider m; providerId := id;
              serverName := mapped_serverName m; serverId := mapped_serverId m |}
  | InheritedProperty => None
  end.

End CaptureService.

(** ** The capture orchestrator ([LibraryCapture]) *)

Module Capture.

Inductive Sender := user | ai | system.

(** [timestamp] is the reading of the clock the message was made at;
    an absent [isStreaming] or [isError] reads as [false]. *)
Record CaptureMessage := {
  id : string;
  sender : Sender;
  content : string;
  timestamp : nat;
  isStreaming : bool;
  isError : bool
}.

Inductive MCPApprovalStatus := pending | approved | rejected.

Record MCPApprovalRequest := {
  request_id : option string;
  tool : string;
  summary : string;
  arguments : option json;
  status : MCPApprovalStatus
}.

Inductive ApprovalAction := approve | reject.

Record MCPApprovalDecision := {
  action : ApprovalAction;
  decision_request_id : option string;
  decision_tool : string;
  decision_arguments : option json
}.

(** The component's configuration: the props read by the operations
    below, the bound API service and what the page-context service
    answers ([None] also when the service is missing or throws). *)
Record Props := {
  moduleId : option string;
  conversationType : option string;
  conversation_type : option string;
  enableStreaming : option bool;
  enable_streaming : option bool;
  defaultModelKey : option string;
  default_model_key : option string;
  defaultModelProvider : option string;
  default_model_provider : option string;
  defaultModelServerId : option string;
  default_model_server_id : option string;
  defaultModelName : option string;
  default_model_name : option string;
  defaultLibraryScopeEnabled : option bool;
  default_library_scope_enabled : option bool;
  defaultProjectSlug : option string;
  default_project_slug : option string;
  defaultScopeRoot : option string;
  default_scope_root : option string;
  defaultScopePath : option string;
  default_scope_path : option string;
  defaultTranscriptSource : option string;
  default_transcript_source : option string;
  initialGreeting : option string;
  initial_greeting : option string;
  api : option ApiService;
  currentPageContext : option json
}.

(** The React state of the component, without the fields that only
    rendering reads (theme, loading flags, the default-model toast),
    together with two instance fields: the user id cached by the
    capture service and the clock that [generateId] and the timestamps
    draw on. *)
Record LibraryCaptureState := {
  models : list ModelInfo;
  selectedModel : option ModelInfo;
  scopeOptions : list ScopeOption;
  scopeEnabled : bool;
  selectedScopePath : option string;
  conversationId : option string;
  messages : list CaptureMessage;
  inputText : string;
  isSubmitting : bool;
  isProcessingTranscript : bool;
  error : option string;
  transcriptError : option string;
  pendingApproval : option MCPApprovalRequest;
  activityStatus : option string;
  currentUserId : option string;
  clock : nat
}.

Definition set_models (v : list ModelInfo) (st : LibraryCaptureState)
  : LibraryCaptureState :=
  {| models := v; selectedModel := selectedModel st; scopeOptions := scopeOptions st;
     scopeEnabled := scopeEnabled st; selectedScopePath := selectedScopePath st;
     conversationId := conversationId st; messages := messages st;
     inputText := inputText st; isSubmitting := isSubmitting st;
     isProcessingTranscript := isProcessingTranscript st; error := error st;
     transcriptError := transcriptError st; pendingApproval := pendingApproval st;
     activityStatus := activityStatus st; currentUserId := currentUserId st;
     clock := clock st |}.

Definition set_selectedModel (v : option ModelInfo) (st : LibraryCaptureState)
  : LibraryCaptureState :=
  {| models := models st; selectedModel := v; scopeOptions := scopeOptions st;
     scopeEnabled := scopeEnabled st; selectedScopePath := selectedScopePath st;
     conversationId := conversationId st; messages := messages st;
     inputText := inputText st; isSubmitting := isSubmitting st;
     isProcessingTranscript := isProcessingTranscript st; error := error st;
     transcriptError := transcriptError st; pendingApproval := pendingApproval st;
     activityStatus := activityStatus st; currentUserId := currentUserId st;
     clock := clock st |}.

Definition set_scopeOptions (v : list ScopeOption) (st : LibraryCaptureState)
  : LibraryCaptureState :=
  {| models := models st; selectedModel := selectedModel st; scopeOptions := v;
     scopeEnabled := scopeEnabled st; selectedScopePath := selectedScopePath st;
     conversationId := conversationId st; messages := messages st;
     inputText := inputText st; isSubmitting := isSubmitting st;
     isProcessingTranscript := isProcessingTranscript st; error := error st;
     transcriptError := transcriptError st; pendingApproval := pendingApproval st;
     activityStatus := activityStatus st; currentUserId := currentUserId st;
     clock := clock st |}.

Definition set_scopeEnabled (v : bool) (st : LibraryCaptureState)
  : LibraryCaptureState :=
  {| models := models st; selectedModel := selectedModel st;
     scopeOptions := scopeOptions st; scopeEnabled := v;
     selectedScopePath := selectedScopePath st; conversationId := conversationId st;
     messages := messages st; inputText := inputText st;
     isSubmitting := isSubmitting st;
     isProcessingTranscript := isProcessingTranscript st; error := error st;
     transcriptError := transcriptError st; pendingApproval := pendingApproval st;
     activityStatus := activityStatus st; currentUserId := currentUserId st;
     clock := clock st |}.

Definition set_selectedScopePath (v : option string) (st : LibraryCaptureState)
  : LibraryCaptureState :=
  {| models := models st; selectedModel := selectedModel st;
     scopeOptions := scopeOptions st; scopeEnabled := scopeEnabled st;
     selectedScopePath := v; conversationId := conversationId st;
     messages := messages st; inputText := inputText st;
     isSubmitting := isSubmitting st;
     isProcessingTranscript := isProcessingTranscript st; error := error st;
     transcriptError := transcriptError st; pendingApproval := pendingApproval st;
     activityStatus := activityStatus st; currentUserId := currentUserId st;
     clock := clock st |}.

Definition set_conversationId (v : option string) (st : LibraryCaptureState)
  : LibraryCaptureState :=
  {| models := models st; selectedModel := selectedModel st;
     scopeOptions := scopeOptions st; scopeEnabled := scopeEnabled st;
     selectedScopePath := selectedScopePath st; conversationId := v;
     messages := messages st; inputText := inputText st;
     isSubmitting := isSubmitting st;
     isProcessingTranscript := isProcessingTranscript st; error := error st;
     transcriptError := transcriptError st; pendingApproval := pendingApproval st;
     activityStatus := activityStatus st; currentUserId := currentUserId st;
     clock := clock st |}.

Definition set_messages (v : list CaptureMessage) (st : LibraryCaptureState)
  : LibraryCaptureState :=
  {| models := models st; selectedModel := selectedModel st;
     scopeOptions := scopeOptions st; scopeEnabled := scopeEnabled st;
     selectedScopePath := selectedScopePath st; conversationId := conversationId st;
     messages := v; inputText := inputText st; isSubmitting := isSubmitting st;
     isProcessingTranscript := isProcessingTranscript st; error := error st;
     transcriptError := transcriptError st; pendingApproval := pendingApproval st;
     activityStatus := activityStatus st; currentUserId := currentUserId st;
     clock := clock st |}.

Definition set_inputText (v : string) (st : LibraryCaptureState)
  : LibraryCaptureState :=
  {| models := models st; selectedModel := selectedModel st;
     scopeOptions := scopeOptions st; scopeEnabled := scopeEnabled st;
     selectedScopePath := selectedScopePath st; conversationId := conversationId st;
     messages := messages st; inputText := v; isSubmitting := isSubmitting st;
     isProcessingTranscript := isProcessingTranscript st; error := error st;
     transcriptError := transcriptError st; pendingApproval := pendingApproval st;
     activityStatus := activityStatus st; currentUserId := currentUserId st;
     clock := clock st |}.

Definition set_isSubmitting (v : bool) (st : LibraryCaptureState)
  : LibraryCaptureState :=
  {| models := models st; selectedModel := selectedModel st;
     scopeOptions := scopeOptions st; scopeEnabled := scopeEnabled st;
     selectedScopePath := selectedScopePath st; conversationId := conversationId st;
     messages := messages st; inputText := inputText st; isSubmitting := v;
     isProcessingTranscript := isProcessingTranscript st; error := error st;
     transcriptError := transcriptError st; pendingApproval := pendingApproval st;
     activityStatus := activityStatus st; currentUserId := currentUserId st;
     clock := clock st |}.

Definition set_isProcessingTranscript (v : bool) (st : LibraryCaptureState)
  : LibraryCaptureState :=
  {| models := models st; selectedModel := selectedModel st;
     scopeOptions := scopeOptions st; scopeEnabled := scopeEnabled st;
     selectedScopePath := selectedScopePath st; conversationId := conversationId st;
     messages := messages st; inputText := inputText st;
     isSubmitting := isSubmitting st; isProcessingTranscript := v; error := error st;
     transcriptError := transcriptError st; pendingApproval := pendingApproval st;
     activityStatus := activityStatus st; currentUserId := currentUserId st;
     clock := clock st |}.

Definition set_error (v : option string) (st : LibraryCaptureState)
  : LibraryCaptureState :=
  {| models := models st; selectedModel := selectedModel st;
     scopeOptions := scopeOptions st; scopeEnabled := scopeEnabled st;
     selectedScopePath := selectedScopePath st; conversationId := conversationId st;
     messages := messages st; inputText := inputText st;
     isSubmitting := isSubmitting st;
     isProcessingTranscript := isProcessingTranscript st; error := v;
     transcriptError := transcriptError st; pendingApproval := pendingApproval st;
     activityStatus := activityStatus st; currentUserId := currentUserId st;
     clock := clock st |}.

Definition set_transcriptError (v : option string) (st : LibraryCaptureState)
  : LibraryCaptureState :=
  {| models := models st; selectedModel := selectedModel st;
     scopeOptions := scopeOptions st; scopeEnabled := scopeEnabled st;
     selectedScopePath := selectedScopePath st; conversationId := conversationId st;
     messages := messages st; inputText := inputText st;
     isSubmitting := isSubmitting st;
     isProcessingTranscript := isProcessingTranscript st; error := error st;
     transcriptError := v; pendingApproval := pendingApproval st;
     activityStatus := activityStatus st; currentUserId := currentUserId st;
     clock := clock st |}.

Definition set_pendingApproval (v : option MCPApprovalRequest) (st : LibraryCaptureState)
  : LibraryCaptureState :=
  {| models := models st; selectedModel := selectedModel st;
     scopeOptions := scopeOptions st; scopeEnabled := scopeEnabled st;
     selectedScopePath := selectedScopePath st; conversationId := conversationId st;
     messages := messages st; inputText := inputText st;
     isSubmitting := isSubmitting st;
     isProcessingTranscript := isProcessingTranscript st; error := error st;
     transcriptError := transcriptError st; pendingApproval := v;
     activityStatus := activityStatus st; currentUserId := currentUserId st;
     clock := clock st |}.

Definition set_activityStatus (v : option string) (st : LibraryCaptureState)
  : LibraryCaptureState :=
  {| models := models st; selectedModel := selectedModel st;
     scopeOptions := scopeOptions st; scopeEnabled := scopeEnabled st;
     selectedScopePath := selectedScopePath st; conversationId := conversationId st;
     messages := messages st; inputText := inputText st;
     isSubmitting := isSubmitting st;
     isProcessingTranscript := isProcessingTranscript st; error := error st;
     transcriptError := transcriptError st; pendingApproval := pendingApproval st;
     activityStatus := v; currentUserId := currentUserId st; clock := clock st |}.

Definition set_currentUserId (v : option string) (st : LibraryCaptureState)
  : LibraryCaptureState :=
  {| models := models st; selectedModel := selectedModel st;
     scopeOptions := scopeOptions st; scopeEnabled := scopeEnabled st;
     selectedScopePath := selectedScopePath st; conversationId := conversationId st;
     messages := messages st; inputText := inputText st;
     isSubmitting := isSubmitting st;
     isProcessingTranscript := isProcessingTranscript st; error := error st;
     transcriptError := transcriptError st; pendingApproval := pendingApproval st;
     activityStatus := activityStatus st; currentUserId := v; clock := clock st |}.

Definition set_clock (v : nat) (st : LibraryCaptureState)
  : LibraryCaptureState :=
  {| models := models st; selectedModel := selectedModel st;
     scopeOptions := scopeOptions st; scopeEnabled := scopeEnabled st;
     selectedScopePath := selectedScopePath st; conversationId := conversationId st;
     messages := messages st; inputText := inputText st;
     isSubmitting := isSubmitting st;
     isProcessingTranscript := isProcessingTranscript st; error := error st;
     transcriptError := transcriptError st; pendingApproval := pendingApproval st;
     activityStatus := activityStatus st; currentUserId := currentUserId st; clock := v |}.

(** [normalizePath]: trim, turn every run of backslashes into one
    slash, then drop the leading and the trailing slashes. *)
Definition normalizePath (value : string) : string :=
  drop_while_end is_slash
    (drop_while is_slash
       (replace_runs is_backslash "/" false (trim value))).

(** *** Construction *)

Definition getConfiguredStringValue (primaryValue fallbackValue : option string) : string :=
  let normalizedPrimary :=
    match primaryValue with Some v => trim v | None => EmptyString end in
  if negb (is_empty normalizedPrimary) then normalizedPrimary
  else match fallbackValue with Some v => trim v | None => EmptyString end.

Definition getConfiguredBooleanValue (primaryValue fallbackValue : option bool)
  : option bool :=
  match primaryValue with
  | Some b => Some b
  | None => fallbackValue
  end.

(** [generateId(prefix)] reads the time and a random number; the
    embedding reads the clock, which every use advances, so that ids
    are fresh. *)
Definition generateId (prefix : string) (st : LibraryCaptureState) : string :=
  prefix ++ "_" ++ JsString.of_nat (clock st).

Definition tick (st : LibraryCaptureState) : LibraryCaptureState :=
  set_clock (S (clock st)) st.

Definition default_greeting : string :=
  "Capture is ready. Add a note, decision, task, completion update, or upload a transcript.".

Definition initial_state (P : Props) : LibraryCaptureState :=
  {| models := []; selectedModel := None;
     scopeOptions := []; scopeEnabled := false; selectedScopePath := None;
     conversationId := None;
     messages :=
       [ {| id := "greeting_0"; sender := ai;
            content := or_else (getConfiguredStringValue (initialGreeting P) (initial_greeting P))
                               default_greeting;
            timestamp := 0; isStreaming := false; isError := false |} ];
     inputText := EmptyString; isSubmitting := false; isProcessingTranscript := false;
     error := None; transcriptError := None; pendingApproval := None;
     activityStatus := None; currentUserId := None; clock := 1 |}.

(** *** Configuration readers *)

Definition getEffectiveConversationType (P : Props) : string :=
  or_else (getConfiguredStringValue (conversationType P) (conversation_type P)) "capture".

Definition getDefaultTranscriptSource (P : Props) : string :=
  or_else (getConfiguredStringValue (defaultTranscriptSource P) (default_transcript_source P))
          "capture-upload".

(** [getCurrentPageContext]: the context when it is an object. *)
Definition getCurrentPageContext (P : Props) : option json :=
  if is_objectlike (currentPageContext P) then currentPageContext P else None.

Record ParsedModelKey := {
  key_provider : string;
  key_serverId : option string;
  key_modelName : string
}.

Definition parseConfiguredDefaultModelKey (P : Props) : option ParsedModelKey :=
  let rawModelKey := getConfiguredStringValue (defaultModelKey P) (default_model_key P) in
  let from_key :=
    if negb (is_empty rawModelKey) then
      let firstDelimiter := indexOf "::" rawModelKey 0 in
      let secondDelimiter := indexOf "::" rawModelKey (firstDelimiter + 2) in
      if ((0 <? firstDelimiter) && (firstDelimiter + 2 <? secondDelimiter))%Z then
        let provider := trim (slice 0 firstDelimiter rawModelKey) in
        let serverId := trim (slice (firstDelimiter + 2) secondDelimiter rawModelKey) in
        let modelName := trim (drop (Z.to_nat (secondDelimiter + 2)) rawModelKey) in
        if negb (is_empty provider) && negb (is_empty serverId) && negb (is_empty modelName)
        then Some {| key_provider := provider; key_serverId := Some serverId;
                     key_modelName := modelName |}
        else None
      else None
    else None in
  match from_key with
  | Some k => Some k
  | None =>
      let provider :=
        getConfiguredStringValue (defaultModelProvider P) (default_model_provider P) in
      let modelName :=
        getConfiguredStringValue (defaultModelName P) (default_model_name P) in
      let serverId :=
        getConfiguredStringValue (defaultModelServerId P) (default_model_server_id P) in
      if is_empty provider || is_empty modelName then None
      else Some {| key_provider := provider;
                   key_serverId := if is_empty serverId then None else Some serverId;
                   key_modelName := modelName |}
  end.

Definition getModelOptionValue (model : ModelInfo) : string :=
  provider model ++ "::" ++ serverId model ++ "::" ++ name model.

(** The [normalize] helper of the model matchers. *)
Definition normalize (value : string) : string := toLowerCase (trim value).

(** The predicate given to [models.find] in [applyConfiguredModelDefault]. *)
Definition model_matches (parsedModelKey : ParsedModelKey) (model : ModelInfo) : bool :=
  if negb (String.eqb (normalize (provider model)) (normalize (key_provider parsedModelKey)))
     || negb (String.eqb (normalize (name model)) (normalize (key_modelName parsedModelKey)))
  then false
  else
    match key_serverId parsedModelKey with
    | Some sid =>
        if is_empty sid then true
        else String.eqb (normalize (serverId model)) (normalize sid)
    | None => true
    end.

(** Two strings are the same up to surrounding white space and case. *)
Definition same_ignoring_case (a b : string) : Prop :=
  toLowerCase (trim a) = toLowerCase (trim b).

(** A catalogue entry answers a configured default: provider and model
    name are the same up to case, and so is the server id when the
    default names one. *)
Definition answers (key : ParsedModelKey) (model : ModelInfo) : Prop :=
  same_ignoring_case (provider model) (key_provider key)
  /\ same_ignoring_case (name model) (key_modelName key)
  /\ (forall sid, key_serverId key = Some sid -> sid <> EmptyString ->
                  same_ignoring_case (serverId model) sid).

Definition applyConfiguredModelDefault (P : Props) (st : LibraryCaptureState)
  : LibraryCaptureState :=
  match models st with
  | [] => set_selectedModel None st
  | first :: _ =>
      match parseConfiguredDefaultModelKey P with
      | None =>
          set_selectedModel
            (match selectedModel st with Some m => Some m | None => Some first end) st
      | Some parsedModelKey =>
          let matched := find (model_matches parsedModelKey) (models st) in
          set_selectedModel
            (Some (match matched with Some m => m | None => first end)) st
      end
  end.

Definition handleModelSelection (value : string) (st : LibraryCaptureState)
  : LibraryCaptureState :=
  set_selectedModel
    (find (fun model => String.eqb (getModelOptionValue model) value) (models st)) st.

(** *** Scope defaults *)

Definition getNormalizedDefaultScopePath (P : Props) : option string :=
  let configuredPath :=
    getConfiguredStringValue (defaultScopePath P) (default_scope_path P) in
  let normalized := normalizePath configuredPath in
  if is_empty normalized then None
  else if String.eqb normalized "capture" then Some "capture"
  else if startsWith "life/" normalized || startsWith "projects/" normalized
  then Some normalized
  else Some ("projects/active/" ++ normalized).

Definition getNormalizedDefaultScopeRoot (P : Props) : option ScopeRoot :=
  let raw :=
    toLowerCase (getConfiguredStringValue (defaultScopeRoot P) (default_scope_root P)) in
  if String.eqb raw "life" then Some Life
  else if String.eqb raw "projects" then Some Projects
  else None.

Definition getNormalizedDefaultProjectSlug (P : Props) : option string :=
  let raw := getConfiguredStringValue (defaultProjectSlug P) (default_project_slug P) in
  let normalized := normalizePath raw in
  if is_empty normalized then None
  else
    let parts := filter (fun part => negb (is_empty part)) (split "/" normalized) in
    match rev parts with
    | last :: _ => Some last
    | [] => None
    end.

Definition same_root (a : ScopeRoot) (b : option ScopeRoot) : bool :=
  match a, b with
  | Projects, Some Projects | Life, Some Life => true
  | _, _ => false
  end.

Definition path_is (needle : string) (entry : ScopeOption) : bool :=
  String.eqb (toLowerCase (normalizePath (path entry))) (toLowerCase needle).

Definition applyConfiguredScopeDefault (P : Props) (st : LibraryCaptureState)
  : LibraryCaptureState :=
  let disabled := set_selectedScopePath None (set_scopeEnabled false st) in
  match getConfiguredBooleanValue (defaultLibraryScopeEnabled P)
                                  (default_library_scope_enabled P) with
  | Some true =>
      match scopeOptions st with
      | [] => disabled
      | _ :: _ =>
          let options := scopeOptions st in
          let by_path :=
            match getNormalizedDefaultScopePath P with
            | Some configuredPath => find (path_is configuredPath) options
            | None => None
            end in
          let matched :=
            match by_path, getNormalizedDefaultProjectSlug P with
            | Some m, _ => Some m
            | None, Some configuredSlug =>
                find (fun entry =>
                        match getNormalizedDefaultScopeRoot P with
                        | Some configuredRoot =>
                            if negb (same_root configuredRoot (scope_root entry)) then false
                            else String.eqb (toLowerCase (trim (slug entry)))
                                            (toLowerCase configuredSlug)
                        | None =>
                            String.eqb (toLowerCase (trim (slug entry)))
                                       (toLowerCase configuredSlug)
                        end) options
            | None, None => None
            end in
          match matched with
          | Some m =>
              set_selectedScopePath (Some (normalizePath (path m))) (set_scopeEnabled true st)
          | None => disabled
          end
      end
  | _ => disabled
  end.

Definition getSelectedScopeOption (st : LibraryCaptureState) : option ScopeOption :=
  match selectedScopePath st with
  | None => None
  | Some p =>
      if is_empty p then None
      else find (path_is p) (scopeOptions st)
  end.

Definition decision_json (d : MCPApprovalDecision) : json :=
  JObject
    ([("action", JString (match action d with approve => "approve" | reject => "reject" end))]
     ++ match decision_request_id d with Some r => [("request_id", JString r)] | None => [] end
     ++ [("tool", JString (decision_tool d))]
     ++ match decision_arguments d with Some a => [("arguments", a)] | None => [] end)%list.

(** [buildMcpParams]; a property whose value is [undefined] is left out. *)
Definition buildMcpParams (approvalDecision : option MCPApprovalDecision)
           (st : LibraryCaptureState) : list (string * json) :=
  let selectedScope := if scopeEnabled st then getSelectedScopeOption st else None in
  let selectedScopePath :=
    match selectedScope with
    | Some sc => Some (normalizePath (path sc))
    | None => None
    end in
  ([ ("mcp_tools_enabled", JBool true);
     ("mcp_scope_mode",
      JString (if CaptureService.absent selectedScopePath then "none" else "project")) ]
   ++ match selectedScopePath with
      | Some p => if is_empty p then [] else [("mcp_project_slug", JString p)]
      | None => []
      end
   ++ match selectedScope with
      | Some sc => [("mcp_project_name", JString (scope_name sc))]
      | None => []
      end
   ++ [ ("mcp_project_lifecycle",
         JString (match selectedScope with
                  | Some sc => or_else (lifecycle sc) "active"
                  | None => "active"
                  end));
        ("mcp_project_source", JString "ui");
        ("mcp_plugin_slug", JString "BrainDriveLibraryPlugin") ]
   ++ match approvalDecision with
      | Some d => [("mcp_approval", decision_json d)]
      | None => []
      end)%list.

(** *** The message log *)

Definition appendMessage (message : CaptureMessage) (st : LibraryCaptureState)
  : LibraryCaptureState :=
  set_messages (messages st ++ [message])%list st.

Definition updateMessage (messageId : string) (updater : CaptureMessage -> CaptureMessage)
           (st : LibraryCaptureState) : LibraryCaptureState :=
  set_messages
    (map (fun message => if String.eqb (id message) messageId then updater message else message)
         (messages st)) st.

(** [appendMessage({id: generateId(prefix), sender, content, timestamp: now, ...})] *)
Definition announce (prefix : string) (who : Sender) (text : string)
           (streaming failed : bool) (st : LibraryCaptureState) : LibraryCaptureState :=
  tick (appendMessage {| id := generateId prefix st; sender := who; content := text;
                         timestamp := clock st; isStreaming := streaming;
                         isError := failed |} st).

(** *** Metadata events *)

(** [String(v || fallback)] *)
Definition string_or (v : option json) (fallback : string) : string :=
  ToString (Json.or v (Some (JString fallback))).

Definition resolution_status (status tool : string) : string :=
  if String.eqb status "approved" then "Approved " ++ tool ++ ". Continuing..."
  else if String.eqb status "rejected" then "Denied " ++ tool ++ "."
  else "Approval resolved for " ++ tool ++ ".".

(** [handleMetadataEvent]; the only throw is the read of a property of
    a missing [approval_request]. *)
Definition handleMetadataEvent (event : json) (st : LibraryCaptureState)
  : result LibraryCaptureState :=
  let ev := Some event in
  match as_string (get ev "type") with
  | None => Resolved st
  | Some type =>
      if String.eqb type "tooling_state" then
        let stopReason :=
          toLowerCase (trim (string_or (get ev "tool_loop_stop_reason") EmptyString)) in
        if String.eqb stopReason "approval_required" then
          Resolved (set_activityStatus (Some "Awaiting approval for a write action...") st)
        else if String.eqb stopReason "provider_timeout" then
          Resolved (set_activityStatus (Some "Model response timed out. Retry when ready.") st)
        else if String.eqb stopReason "missing_orchestration_context" then
          Resolved (set_activityStatus
                      (Some "Missing required scope context for this write.") st)
        else
          match get ev "tool_loop_enabled" with
          | Some (JBool true) =>
              Resolved (set_activityStatus (Some "Planning tool actions...") st)
          | _ => Resolved st
          end
      else if String.eqb type "tool_call" then
        let toolName := or_else (trim (string_or (get ev "name") "tool")) "tool" in
        Resolved (set_activityStatus (Some ("Running tool: " ++ toolName ++ "...")) st)
      else if String.eqb type "tool_result" then
        let toolName := or_else (trim (string_or (get ev "name") "tool")) "tool" in
        let success :=
          match get ev "ok" with Some (JBool false) => false | _ => true end in
        Resolved (set_activityStatus
                    (Some (if success then "Tool completed: " ++ toolName ++ "."
                           else "Tool failed: " ++ toolName ++ ".")) st)
      else if String.eqb type "auto_continue" then
        let passLabel := string_or (get ev "pass") "next" in
        Resolved (set_activityStatus
                    (Some ("Continuing response (pass " ++ passLabel ++ ")...")) st)
      else if String.eqb type "orchestration_context_error" then
        Resolved (set_activityStatus
                    (Some "Write is blocked until scope context is ready.") st)
      else if String.eqb type "approval_request" || String.eqb type "approval_required" then
        let rawApproval :=
          if String.eqb type "approval_required" then get ev "approval_request" else ev in
        match rawApproval with
        | None | Some JNull => Rejected type_error
        | Some _ =>
            let tool0 := trim (string_or (get rawApproval "tool") EmptyString) in
            let normalizedApproval :=
              {| request_id := as_string (get rawApproval "request_id");
                 tool := if is_empty tool0 then "mutating_tool" else tool0;
                 summary :=
                   match as_string (get rawApproval "summary") with
                   | Some text =>
                       if negb (is_empty (trim text)) then trim text
                       else "Approval required before executing mutating tool call."
                   | None => "Approval required before executing mutating tool call."
                   end;
                 arguments :=
                   if is_objectlike (get rawApproval "arguments")
                   then get rawApproval "arguments" else None;
                 status := pending |} in
            let st1 :=
              set_activityStatus
                (Some ("Awaiting approval for " ++ tool normalizedApproval ++ "..."))
                (set_pendingApproval (Some normalizedApproval) st) in
            Resolved (announce "approval-required" system
                        ("Approval required for tool: " ++ tool normalizedApproval)
                        false false st1)
        end
      else if String.eqb type "approval_resolution" then
        let status := toLowerCase (string_or (get ev "status") EmptyString) in
        let tool := or_else (trim (string_or (get ev "tool") EmptyString)) "mutating_tool" in
        let content :=
          if String.eqb status "approved" then "Approved: " ++ tool
          else if String.eqb status "rejected" then "Denied: " ++ tool
          else "Approval resolved for: " ++ tool in
        let st1 := announce "approval-resolution" system content false false st in
        let cleared :=
          set_activityStatus (Some (resolution_status status tool))
                             (set_pendingApproval None st1) in
        match pendingApproval st1 with
        | None => Resolved cleared
        | Some pendingRequest =>
            let pendingId :=
              match request_id pendingRequest with Some r => r | None => EmptyString end in
            let resolvedId :=
              match as_string (get ev "request_id") with
              | Some r => r
              | None => EmptyString
              end in
            if is_empty pendingId || is_empty resolvedId || String.eqb pendingId resolvedId
            then Resolved cleared
            else Resolved st1
        end
      else if String.eqb type "project_scope_selected" then
        let selectedPath :=
          match as_string (get ev "scope_path") with
          | Some p => normalizePath p
          | None => EmptyString
          end in
        if is_empty selectedPath then Resolved st
        else
          match find (path_is selectedPath) (scopeOptions st) with
          | Some matched =>
              Resolved (set_activityStatus
                          (Some ("Using scope: " ++ scope_name matched ++ "."))
                          (set_selectedScopePath (Some selectedPath)
                             (set_scopeEnabled true st)))
          | None => Resolved st
          end
      else Resolved st
  end.

(** *** Sending a prompt *)

Definition message_of (e : exn) (fallback : string) : string :=
  match e with
  | ErrorObj m => m
  | Thrown _ => fallback
  end.

(** The callbacks [sendPrompt] hands to the service.  They act on the
    component state paired with the local flag [hasReceivedChunk]. *)
Definition callbacks (assistantMessageId : string)
  : CaptureService.Callbacks (LibraryCaptureState * bool) :=
  {| CaptureService.onChunk := fun chunk '(st, hasReceivedChunk) =>
       let '(st1, flag) :=
         if negb hasReceivedChunk && negb (is_empty (trim chunk))
         then (match pendingApproval st with
               | Some _ => st
               | None => set_activityStatus (Some "Streaming response...") st
               end, true)
         else (st, hasReceivedChunk) in
       Resolved
         (updateMessage assistantMessageId
            (fun message =>
               {| id := id message; sender := sender message;
                  content := content message ++ chunk;
                  timestamp := timestamp message; isStreaming := isStreaming message;
                  isError := isError message |}) st1,
          flag);
     CaptureService.onConversationId := fun conversationId '(st, flag) =>
       Resolved (set_conversationId (Some conversationId) st, flag);
     CaptureService.onMetadataEvent := fun event '(st, flag) =>
       st' <- handleMetadataEvent event st ;; Resolved (st', flag) |}.

Section WithParser.

Variable JSON_parse : string -> option json.

(** [sendPrompt(prompt, options)] of the component: the state it
    ends in and the requests it issued.  The abort controller reaches
    the transport only, which the embedding runs to its end. *)
Definition sendPrompt (P : Props) (prompt : string)
           (approvalDecision : option MCPApprovalDecision) (userLabel : option string)
           (st : LibraryCaptureState) : LibraryCaptureState * list request :=
  match selectedModel st with
  | None => (set_error (Some "Select a model before sending capture input.") st, [])
  | Some selectedModel =>
      let promptToSend := trim prompt in
      if is_empty promptToSend then (st, [])
      else
        let userContent :=
          match userLabel with
          | Some label => if negb (is_empty (trim label)) then trim label else promptToSend
          | None => promptToSend
          end in
        let st1 := announce "user" user userContent false false st in
        let assistantMessageId := generateId "assistant" st1 in
        let st2 := announce "assistant" ai EmptyString true false st1 in
        let st3 :=
          set_activityStatus (Some "Thinking...")
            (set_error None (set_isSubmitting true st2)) in
        let sent :=
          CaptureService.sendPrompt JSON_parse (callbacks assistantMessageId)
            (api P) (currentUserId st3)
            {| CaptureService.prompt := promptToSend;
               CaptureService.selectedModel := selectedModel;
               CaptureService.conversationId := conversationId st3;
               CaptureService.conversationType := getEffectiveConversationType P;
               CaptureService.pageContext := getCurrentPageContext P;
               CaptureService.useStreaming :=
                 match getConfiguredBooleanValue (enableStreaming P) (enable_streaming P) with
                 | Some false => false
                 | _ => true
                 end;
               CaptureService.mcpParams := buildMcpParams approvalDecision st3;
               CaptureService.approvalDecision := option_map decision_json approvalDecision |}
            (st3, false) in
        let st4 :=
          set_currentUserId (CaptureService.userId_after sent)
                            (fst (CaptureService.state_after sent)) in
        let st5 :=
          match CaptureService.outcome sent with
          | Resolved _ =>
              let st' :=
                updateMessage assistantMessageId
                  (fun message =>
                     {| id := id message; sender := sender message;
                        content := or_else (trim (content message)) "(No textual response)";
                        timestamp := timestamp message; isStreaming := false;
                        isError := isError message |}) st4 in
              set_activityStatus
                (Some (match pendingApproval st' with
                       | Some request => "Awaiting approval for " ++ tool request ++ "..."
                       | None => "Response complete."
                       end)) st'
          | Rejected e =>
              let message := message_of e "Capture request failed." in
              set_activityStatus (Some ("Error: " ++ message))
                (set_error (Some message)
                   (updateMessage assistantMessageId
                      (fun existing =>
                         {| id := id existing; sender := sender existing;
                            content := "Error: " ++ message;
                            timestamp := timestamp existing; isStreaming := false;
                            isError := true |}) st4))
          end in
        (set_inputText EmptyString (set_isSubmitting false st5),
         CaptureService.requests sent)
  end.

Definition handleSend (P : Props) (st : LibraryCaptureState)
  : LibraryCaptureState * list request :=
  if isSubmitting st || isProcessingTranscript st then (st, [])
  else
    let prompt := trim (inputText st) in
    if is_empty prompt then (st, [])
    else sendPrompt P prompt None None st.

Definition handleApprovalDecision (P : Props) (action : ApprovalAction)
           (st : LibraryCaptureState) : LibraryCaptureState * list request :=
  if isSubmitting st then (st, [])
  else
    match pendingApproval st with
    | None => (st, [])
    | Some pendingApproval =>
        let approvalDecision :=
          {| action := action;
             decision_request_id := request_id pendingApproval;
             decision_tool := tool pendingApproval;
             decision_arguments := arguments pendingApproval |} in
        sendPrompt P (match action with approve => "Approve." | reject => "Deny." end)
                   (Some approvalDecision)
                   (Some (match action with approve => "Approve" | reject => "Deny" end))
                   st
    end.

(** *** Transcript upload *)

#[warnings="-abstract-large-number"] Definition transcript_limit : nat := 12000.

Definition truncation_marker : string := newline ++ newline ++ "[TRUNCATED]".

Definition truncate_transcript (text : string) : string :=
  if transcript_limit <? String.length text
  then take transcript_limit text ++ truncation_marker
  else text.

(** The prompt synthesised for a transcript. *)
Definition transcript_prompt (fileName dateIso source : string)
           (scopePath : option string) (truncatedText : string) : string :=
  join newline
    [ "Capture transcript ingestion request.";
      "Use ingest_transcript to save this transcript in transcripts/YYYY-MM and update transcripts/index.md.";
      "Require explicit approval before executing the write.";
      "filename: " ++ fileName;
      "date: " ++ dateIso;
      "source: " ++ source;
      match scopePath with
      | Some p => if is_empty p then "project: capture" else "project: " ++ p
      | None => "project: capture"
      end;
      EmptyString;
      "Transcript content:";
      truncatedText ].

(** What precedes the transcript text in the prompt. *)
Definition transcript_header (fileName dateIso source : string)
           (scopePath : option string) : string :=
  transcript_prompt fileName dateIso source scopePath EmptyString.

(** The [try] block of [handleTranscriptSelected] up to the prompt:
    the requests issued and the prompt, or what was thrown. *)
Definition prepare_transcript (P : Props) (file : File) (dateIso : string)
           (st : LibraryCaptureState) : list request * result string :=
  let '(reqs, processed) := CaptureService.processDocument (api P) file in
  (reqs,
   p <- processed ;;
   let scopePath := if scopeEnabled st then selectedScopePath st else None in
   let source := getDefaultTranscriptSource P in
   let text := trim (string_or (get (Some p) "extracted_text") EmptyString) in
   if is_empty text
   then Rejected (ErrorObj "No transcript text was extracted from the uploaded file.")
   else Resolved (transcript_prompt (file_name file) dateIso source scopePath
                                    (truncate_transcript text))).

(** [handleTranscriptSelected]; [dateIso] is the day the clock shows. *)
Definition handleTranscriptSelected (P : Props) (file : option File) (dateIso : string)
           (st : LibraryCaptureState) : LibraryCaptureState * list request :=
  match file with
  | None => (st, [])
  | Some file =>
      let st1 := set_transcriptError None (set_isProcessingTranscript true st) in
      let '(reqs, prepared) := prepare_transcript P file dateIso st1 in
      let '(st2, reqs') :=
        match prepared with
        | Resolved prompt =>
            sendPrompt P prompt None (Some ("Uploaded transcript: " ++ file_name file)) st1
        | Rejected e =>
            let message := message_of e "Transcript processing failed." in
            (announce "transcript-error" system ("Transcript upload failed: " ++ message)
                      false true (set_transcriptError (Some message) st1), [])
        end in
      (set_isProcessingTranscript false st2, (reqs ++ reqs')%list)
  end.

(** *** The component as a transition system

    What can happen to a mounted component: its loaders return, the
    user acts on a control, or the host changes the props.  The
    catalogue loaders themselves are not embedded; [Loaded] carries
    the model list and the merged, sorted scope list they produced.
    Every call of [initialize] follows the construction of a capture
    service, whose cached user id is therefore empty again. *)

Inductive Operation :=
| Loaded (models : list ModelInfo) (scopes : list ScopeOption)
| LoadFailed (message : string)
| ModelChosen (value : string)
| ScopeChosen (value : string)
| InputChanged (text : string)
| SendClicked
| ApprovalClicked (action : ApprovalAction)
| TranscriptChosen (file : option File) (dateIso : string)
| DefaultsChanged.

Definition perform (P : Props) (op : Operation) (st : LibraryCaptureState)
  : LibraryCaptureState * list request :=
  match op with
  | Loaded models scopes =>
      (applyConfiguredScopeDefault P
         (applyConfiguredModelDefault P
            (set_scopeOptions scopes
               (set_models models
                  (set_transcriptError None
                     (set_error None (set_currentUserId None st)))))),
       [])
  | LoadFailed message =>
      (set_error (Some message)
         (set_transcriptError None (set_error None (set_currentUserId None st))), [])
  | ModelChosen value => (handleModelSelection value st, [])
  | ScopeChosen value =>
      if String.eqb value "__all__"
      then (set_selectedScopePath None (set_scopeEnabled false st), [])
      else (set_selectedScopePath (Some value) (set_scopeEnabled true st), [])
  | InputChanged text => (set_inputText text st, [])
  | SendClicked => handleSend P st
  | ApprovalClicked action => handleApprovalDecision P action st
  | TranscriptChosen file dateIso => handleTranscriptSelected P file dateIso st
  | DefaultsChanged =>
      match models st with
      | [] => (st, [])
      | _ :: _ => (applyConfiguredModelDefault P st, [])
      end
  end.

(** The states a component can be in; the props and the answers of
    the services may differ from one operation to the next. *)
Inductive reachable : LibraryCaptureState -> Prop :=
| reachable_initial (P : Props) : reachable (initial_state P)
| reachable_perform (P : Props) (op : Operation) (st : LibraryCaptureState) :
    reachable st -> reachable (fst (perform P op st)).


(** The number of approval requests awaiting a decision. *)
Definition pending_count (st : LibraryCaptureState) : nat :=
  match pendingApproval st with
  | Some _ => 1
  | None => 0
  end.

End WithParser.

(** *** The page default, as the component reports it *)

Definition getConfiguredDefaultModelKey (P : Props) : option string :=
  let rawKey := getConfiguredStringValue (defaultModelKey P) (default_model_key P) in
  if negb (is_empty rawKey) then Some rawKey
  else
    match parseConfiguredDefaultModelKey P with
    | Some parsed =>
        match key_serverId parsed with
        | Some sid =>
            if is_empty sid then None
            else Some (key_provider parsed ++ "::" ++ sid ++ "::" ++ key_modelName parsed)
        | None => None
        end
    | None => None
    end.

(** [isModelConfiguredAsPageDefault]; [savedDefaultModelKey] is the state
    field of that name. *)
Definition isModelConfiguredAsPageDefault (P : Props) (savedDefaultModelKey : option string)
           (model : option ModelInfo) : bool :=
  match model with
  | None => false
  | Some model =>
      let modelKey := toLowerCase (trim (getModelOptionValue model)) in
      if is_empty modelKey then false
      else
        let savedKey :=
          toLowerCase
            (trim (match savedDefaultModelKey with
                   | Some k => k
                   | None => EmptyString
                   end)) in
        if negb (is_empty savedKey) && String.eqb savedKey modelKey then true
        else
          match parseConfiguredDefaultModelKey P with
          | None => false
          | Some configured =>
              if negb (String.eqb (normalize (provider model))
                                  (normalize (key_provider configured)))
                 || negb (String.eqb (normalize (name model))
                                     (normalize (key_modelName configured)))
              then false
              else
                match key_serverId configured with
                | Some sid =>
                    if is_empty sid then true
                    else String.eqb (normalize (serverId model)) (normalize sid)
                | None => true
                end
          end
  end.

(** The messages of a log as far as no operation rewrites them: who
    sent them, when, and under which id. *)
Definition message_key (m : CaptureMessage) : string * Sender * nat :=
  (id m, sender m, timestamp m).

(** The log [later] continues the log [earlier]: the messages of
    [earlier] are still there, in their places, followed by new ones. *)
Definition continues (earlier later : LibraryCaptureState) : Prop :=
  exists added,
    map message_key (messages later) = (map message_key (messages earlier) ++ added)%list.


(** A message as an updater of [onChunk] leaves it: only the content
    may differ, and only in a message under the id [aid]. *)
Definition rewritten (aid : string) (m0 m : CaptureMessage) : Prop :=
  id m = id m0 /\ sender m = sender m0 /\ timestamp m = timestamp m0
  /\ isStreaming m = isStreaming m0 /\ isError m = isError m0
  /\ (id m0 <> aid -> m = m0).

(** A message the component adds for an event. *)
Definition notice (m : CaptureMessage) : Prop :=
  sender m = system /\ isStreaming m = false /\ isError m = false.

(** What the callbacks of a send make of a state: the settings stay,
    the messages are rewritten under [aid] and followed by notices. *)
Definition grows (aid : string) (st st' : LibraryCaptureState) : Prop :=
  (models st' = models st /\ selectedModel st' = selectedModel st
   /\ scopeOptions st' = scopeOptions st /\ inputText st' = inputText st
   /\ isSubmitting st' = isSubmitting st
   /\ isProcessingTranscript st' = isProcessingTranscript st
   /\ error st' = error st /\ transcriptError st' = transcriptError st
   /\ currentUserId st' = currentUserId st)
  /\ exists kept added,
       messages st' = (kept ++ added)%list
       /\ Forall2 (rewritten aid) (messages st) kept
       /\ Forall notice added.

(** A message after a send: still the same message, and not streaming
    if it was not. *)
Definition revised (m0 m : CaptureMessage) : Prop :=
  message_key m = message_key m0 /\ (isStreaming m0 = false -> isStreaming m = false).

End Capture.

(** ** The file service and the navigator ([LibraryEditorService], [LibraryEditor]) *)

Module Editor.

Definition API_BASE_CANDIDATES : list string :=
  [ "/api/v1/plugin-api/braindrive-library/library/editor";
    "/api/v1/plugin-api/BrainDriveLibraryPlugin/library/editor";
    "/api/v1/plugin-api/BrainDriveLibraryService/library/editor" ].

(** [normalizeResponse]: the [data] of the response when it is an
    object, else the response itself. *)
Definition normalizeResponse (response : option json) : option json :=
  if negb (truthy response) || negb (typeof_object response) then response
  else if is_objectlike (get response "data") then get response "data"
  else response.

(** [typeof v === "string" && v.trim()], giving the trimmed text. *)
Definition trimmed_text (v : option json) : option string :=
  match as_string v with
  | Some text => if is_empty (trim text) then None else Some (trim text)
  | None => None
  end.

Definition first_some {A : Type} (a b : option A) : option A :=
  match a with
  | Some x => Some x
  | None => b
  end.

Definition extractErrorMessage (payload : option json) : option string :=
  if negb (truthy payload) || negb (typeof_object payload) then None
  else
    first_some (trimmed_text (get payload "message"))
      (first_some (trimmed_text (get payload "detail"))
         (first_some
            (if is_objectlike (get payload "detail")
             then trimmed_text (get (get payload "detail") "message") else None)
            (first_some (trimmed_text (get payload "error"))
               (if is_objectlike (get payload "error")
                then trimmed_text (get (get payload "error") "message") else None)))).

(** What the properties of a caught value read as: an [Error] made by
    the code has a message and nothing else. *)
Definition caught (e : exn) : option json :=
  match e with
  | ErrorObj message => Some (JObject [("message", JString message)])
  | Thrown v => v
  end.

Fixpoint all_d (s : string) : bool :=
  match s with
  | EmptyString => true
  | String c s' => (Ascii.eqb c "d" || Ascii.eqb c "D") && all_d s'
  end.

(** The test of the pattern written [/^Request failed with status code \\d+$/i]:
    in a pattern, the two backslashes stand for one backslash character,
    which the letter d follows, one or more times. *)
Definition is_status_code_message (text : string) : bool :=
  let n := String.length "Request failed with status code \" in
  String.eqb (toLowerCase (take n text)) "request failed with status code \"
  && negb (is_empty (drop n text))
  && all_d (drop n text).

Definition extractErrorMessageFromException (error : option json) : option string :=
  if negb (truthy error) || negb (typeof_object error) then None
  else
    let rawResponsePayload := get (get error "response") "data" in
    first_some (extractErrorMessage (normalizeResponse rawResponsePayload))
      (first_some (extractErrorMessage rawResponsePayload)
         (match trimmed_text (get error "message") with
          | Some normalized =>
              if is_status_code_message normalized then None else Some normalized
          | None => None
          end)).

Inductive Method := get_method | put_method.

(** One pass of the [try] block: the request issued, if any, and what
    it settled to. *)
Definition attempt (api : ApiService) (method : Method) (url : string) (payload : json)
  : list request * result (option json) :=
  match method with
  | get_method => ([Get url], api_get api url)
  | put_method =>
      match api_put api, api_post api with
      | Some put, _ => ([Put url (BodyJson payload)], put url (BodyJson payload))
      | None, Some post => ([Post url (BodyJson payload)], post url (BodyJson payload))
      | None, None =>
          ([], Rejected (ErrorObj "API service does not support PUT or POST operations."))
      end
  end.

(** What is thrown once every candidate has failed. *)
Definition final_error (lastError : option exn) (extractedErrorMessage : option string) : exn :=
  match extractedErrorMessage with
  | Some message => ErrorObj message
  | None =>
      let fallback := ErrorObj "Library API request failed." in
      match lastError with
      | Some e =>
          if truthy (caught e) && typeof_object (caught e) then
            match trimmed_text (Json.or (get (caught e) "message") (get (caught e) "detail")) with
            | Some message => ErrorObj message
            | None => fallback
            end
          else fallback
      | None => fallback
      end
  end.

(** The loop of [requestWithFallback] over the bases still to try. *)
Fixpoint try_bases (api : ApiService) (method : Method) (endpoint : string) (payload : json)
         (bases : list string) (lastError : option exn)
         (extractedErrorMessage : option string)
  : list request * result (option json) :=
  match bases with
  | [] => ([], Rejected (final_error lastError extractedErrorMessage))
  | base :: rest =>
      let '(reqs, settled) := attempt api method (base ++ endpoint) payload in
      match settled with
      | Resolved response => (reqs, Resolved (normalizeResponse response))
      | Rejected error =>
          let '(more, outcome) :=
            try_bases api method endpoint payload rest (Some error)
              (first_some (extractErrorMessageFromException (caught error))
                          extractedErrorMessage) in
          ((reqs ++ more)%list, outcome)
      end
  end.

Definition requestWithFallback (api : option ApiService) (method : Method)
           (endpoint : string) (payload : json)
  : list request * result (option json) :=
  match api with
  | None => ([], Rejected (ErrorObj "API service is not available."))
  | Some api => try_bases api method endpoint payload API_BASE_CANDIDATES None None
  end.

(** [saveFile]: the answer of the service when it reports success. *)
Definition saveFile (api : option ApiService) (path content : string)
  : list request * result json :=
  let '(reqs, settled) :=
    requestWithFallback api put_method "/file"
      (JObject [("path", JString path); ("content", JString content)]) in
  (reqs,
   payload <- settled ;;
   match payload with
   | Some answer =>
       if truthy (get payload "success") then Resolved answer
       else Rejected
              (ErrorObj (match extractErrorMessage payload with
                         | Some message => message
                         | None => "Unable to save file."
                         end))
   | None => Rejected (ErrorObj "Unable to save file.")
   end).

(** [relativeParent] of the navigator: the path without its last
    segment, after the backslash runs became slashes and the slashes at
    both ends were dropped. *)
Definition cleaned (path : string) : string :=
  drop_while_end is_slash
    (drop_while is_slash (replace_runs is_backslash "/" false path)).

Definition relativeParent (path : string) : string :=
  if is_empty (cleaned path) then EmptyString
  else join "/" (List.removelast (split "/" (cleaned path))).

End Editor.

(** ** The capture-defaults writer ([LibraryPageDefaultsService]) *)

Module PageDefaults.

Definition LIBRARY_PLUGIN_SLUG : string := "BrainDriveLibraryPlugin".
Definition LIBRARY_CAPTURE_MODULE_NAME : string := "LibraryCapture".

Record SaveCaptureDefaultModelOptions := {
  pageId : string;
  moduleId : option string;
  selectedModel : ModelInfo
}.

Record SaveCaptureDefaultModelResult := {
  result_pageId : string;
  default_model_key : string;
  default_model_provider : string;
  default_model_server_id : string;
  default_model_name : string;
  updated_targets : nat
}.

Definition normalizeApiPayload (response : option json) : option json :=
  if negb (truthy response) || negb (typeof_object response) then response
  else match get response "data" with
       | Some d => Some d
       | None => response
       end.

(** [String(value || empty).trim().toLowerCase()] *)
Definition normalizeToken (value : option json) : string :=
  toLowerCase (trim (ToString (Json.or value (Some (JString EmptyString))))).

Definition tok (s : string) : option json := Some (JString s).

Definition compactToken (value : option json) : string :=
  replace_runs (fun c => negb (is_lower_alnum c)) EmptyString false (normalizeToken value).

Definition looksLikeCaptureToken (value : option json) : bool :=
  includes "librarycapture" (compactToken value).

Definition normalizePageId (pageId : string) : string :=
  remove_all is_hyphen (trim pageId).

Definition extractPageRecord (response : option json) : result json :=
  let payload := normalizeApiPayload response in
  let candidate :=
    Json.or (Json.or (Json.or (get payload "page") (get (get payload "data") "page"))
                     (get payload "data"))
            payload in
  match candidate with
  | Some c =>
      if is_objectlike candidate then Resolved c
      else Rejected (ErrorObj "Unexpected page API response format.")
  | None => Rejected (ErrorObj "Unexpected page API response format.")
  end.

Definition buildDefaultModelConfig (model : ModelInfo) : result (list (string * json)) :=
  let provider := trim (provider model) in
  let serverId := trim (serverId model) in
  let modelName := trim (name model) in
  if is_empty provider || is_empty serverId || is_empty modelName
  then Rejected (ErrorObj "Selected model is missing provider, server, or model name.")
  else
    Resolved
      [ ("default_model_key", JString (provider ++ "::" ++ serverId ++ "::" ++ modelName));
        ("default_model_provider", JString provider);
        ("default_model_server_id", JString serverId);
        ("default_model_name", JString modelName);
        ("default_model_provider_id", JString (trim (providerId model)));
        ("default_model_server_name", JString (trim (serverName model))) ].

Definition requestedModuleMatches (requestedModuleId : string)
           (candidates : list (option json)) : bool :=
  let requestedToken := normalizeToken (tok requestedModuleId) in
  if is_empty requestedToken then false
  else
    let requestedCompact := compactToken (tok requestedToken) in
    existsb
      (fun candidate =>
         let token := normalizeToken candidate in
         if is_empty token then false
         else if String.eqb token requestedToken then true
         else
           let compact := compactToken (tok token) in
           if is_empty compact || is_empty requestedCompact then false
           else String.eqb compact requestedCompact
                || includes requestedCompact compact
                || includes compact requestedCompact)
      candidates.

Definition isLibraryPluginToken (value : option json) : bool :=
  String.eqb (normalizeToken value) (normalizeToken (tok LIBRARY_PLUGIN_SLUG)).

(** [x && typeof x === "object" ? x : {}] *)
Definition object_or_empty (x : option json) : option json :=
  if is_objectlike x then x else Some (JObject []).

(** The request names another module: it is non-empty, does not look
    like a capture token and is not the capture module's name. *)
Definition names_other_module (requestedModuleId : string) : bool :=
  negb (is_empty requestedModuleId)
  && negb (looksLikeCaptureToken (tok requestedModuleId))
  && negb (String.eqb (normalizeToken (tok requestedModuleId))
                      (normalizeToken (tok LIBRARY_CAPTURE_MODULE_NAME))).

Definition moduleDefinitionMatchesCaptureTarget (moduleKey : string)
           (moduleDefinition : option json) (requestedModuleId : string) : bool :=
  let config := object_or_empty (get moduleDefinition "config") in
  let moduleIdToken :=
    normalizeToken (Json.or (get moduleDefinition "moduleId") (get config "moduleId")) in
  let moduleNameToken :=
    normalizeToken
      (Json.or (Json.or (get moduleDefinition "moduleName") (get config "moduleName"))
               (get config "displayName")) in
  let pluginToken :=
    normalizeToken
      (Json.or (Json.or (Json.or (Json.or (Json.or
         (get moduleDefinition "pluginId")
         (get moduleDefinition "pluginSlug"))
         (get moduleDefinition "plugin_id"))
         (get config "pluginId"))
         (get config "pluginSlug"))
         (get config "plugin_id")) in
  let looksLikeCaptureModule :=
    looksLikeCaptureToken (tok moduleIdToken)
    || looksLikeCaptureToken (tok moduleNameToken)
    || looksLikeCaptureToken (tok moduleKey) in
  if negb (is_empty requestedModuleId)
     && requestedModuleMatches requestedModuleId
          [ tok moduleKey; get moduleDefinition "moduleId";
            get moduleDefinition "moduleName"; get config "moduleId";
            get config "moduleName" ]
  then true
  else if names_other_module requestedModuleId then false
  else if negb (isLibraryPluginToken (tok pluginToken)) && negb looksLikeCaptureModule
  then false
  else String.eqb moduleIdToken (normalizeToken (tok LIBRARY_CAPTURE_MODULE_NAME))
       || String.eqb moduleNameToken (normalizeToken (tok LIBRARY_CAPTURE_MODULE_NAME))
       || looksLikeCaptureModule.

Definition layoutItemMatchesCaptureTarget (layoutItem : option json)
           (requestedModuleId : string) : bool :=
  let args := object_or_empty (get layoutItem "args") in
  let argsModuleId := normalizeToken (get args "moduleId") in
  let argsModuleName := normalizeToken (get args "moduleName") in
  let argsDisplayName := normalizeToken (get args "displayName") in
  let layoutItemId :=
    normalizeToken (Json.or (get layoutItem "i") (get layoutItem "moduleUniqueId")) in
  let pluginToken :=
    normalizeToken
      (Json.or (Json.or (Json.or
         (get layoutItem "pluginId")
         (get args "pluginId"))
         (get args "pluginSlug"))
         (get args "plugin_id")) in
  let looksLikeCaptureLayout :=
    String.eqb argsDisplayName "library capture"
    || looksLikeCaptureToken (tok argsModuleId)
    || looksLikeCaptureToken (tok argsModuleName)
    || looksLikeCaptureToken (tok layoutItemId) in
  if negb (is_empty requestedModuleId)
     && requestedModuleMatches requestedModuleId
          [ get args "moduleId"; get args "moduleName";
            get layoutItem "i"; get layoutItem "moduleUniqueId" ]
  then true
  else if names_other_module requestedModuleId then false
  else if negb (isLibraryPluginToken (tok pluginToken)) && negb looksLikeCaptureLayout
  then false
  else String.eqb argsModuleId (normalizeToken (tok LIBRARY_CAPTURE_MODULE_NAME))
       || String.eqb argsModuleName (normalizeToken (tok LIBRARY_CAPTURE_MODULE_NAME))
       || looksLikeCaptureLayout.

(** [target[key] = {...existing, ...modelConfig}].  A property put on
    an array is not part of the array's JSON form, in which the page
    content leaves the service. *)
Definition merge_into (key : string) (modelConfig : list (string * json)) (target : json)
  : json :=
  match target with
  | JObject fs =>
      let existing := object_or_empty (assoc key fs) in
      JObject (set_field key (JObject (spread (entries existing) modelConfig)) fs)
  | _ => target
  end.

(** One pass of the loop over [Object.entries(modules)]. *)
Definition update_module (modelConfig : list (string * json)) (requestedModuleId : string)
           (entry : string * json) : json * nat :=
  let '(moduleKey, rawModuleDef) := entry in
  if negb (is_objectlike (Some rawModuleDef)) then (rawModuleDef, 0)
  else if negb (moduleDefinitionMatchesCaptureTarget moduleKey (Some rawModuleDef)
                                                     requestedModuleId)
  then (rawModuleDef, 0)
  else (merge_into "config" modelConfig rawModuleDef, 1).

(** One pass of the loop over the items of a layout. *)
Definition update_item (modelConfig : list (string * json)) (requestedModuleId : string)
           (rawItem : json) : json * nat :=
  if negb (is_objectlike (Some rawItem)) then (rawItem, 0)
  else if negb (layoutItemMatchesCaptureTarget (Some rawItem) requestedModuleId)
  then (rawItem, 0)
  else (merge_into "args" modelConfig rawItem, 1).

Definition total (l : list nat) : nat := fold_right Nat.add 0 l.

(** The properties of a container, each replaced by its update; an
    array stays an array. *)
Definition rebuild (container : json) (updated : list json) : json :=
  match container with
  | JObject fs => JObject (combine (map fst fs) updated)
  | JArray _ => JArray updated
  | _ => container
  end.

Definition applyDefaultModelToModules (content : json) (modelConfig : list (string * json))
           (requestedModuleId : string) : json * nat :=
  let modules := get (Some content) "modules" in
  match modules with
  | Some m =>
      if negb (is_objectlike modules) then (content, 0)
      else
        let results := map (update_module modelConfig requestedModuleId) (entries modules) in
        (match content with
         | JObject fs => JObject (set_field "modules" (rebuild m (map fst results)) fs)
         | _ => content
         end,
         total (map snd results))
  | None => (content, 0)
  end.

Definition update_layout (modelConfig : list (string * json)) (requestedModuleId : string)
           (rawLayout : json) : json * nat :=
  match rawLayout with
  | JArray items =>
      let results := map (update_item modelConfig requestedModuleId) items in
      (JArray (map fst results), total (map snd results))
  | _ => (rawLayout, 0)
  end.

Definition applyDefaultModelToLayouts (content : json) (modelConfig : list (string * json))
           (requestedModuleId : string) : json * nat :=
  let layouts := get (Some content) "layouts" in
  match layouts with
  | Some l =>
      if negb (is_objectlike layouts) then (content, 0)
      else
        let results :=
          map (fun kv => update_layout modelConfig requestedModuleId (snd kv))
              (entries layouts) in
        (match content with
         | JObject fs => JObject (set_field "layouts" (rebuild l (map fst results)) fs)
         | _ => content
         end,
         total (map snd results))
  | None => (content, 0)
  end.

Section WithParser.

Variable JSON_parse : string -> option json.

Definition parsePageContent (rawContent : option json) : result json :=
  parsed <- match rawContent with
            | Some (JString text) =>
                match JSON_parse text with
                | Some v => Resolved (Some v)
                | None => Rejected syntax_error
                end
            | other => Resolved other
            end ;;
  match parsed with
  | Some content =>
      if is_objectlike parsed then Resolved content
      else Rejected (ErrorObj "Page content is not a valid JSON object.")
  | None => Rejected (ErrorObj "Page content is not a valid JSON object.")
  end.

(** [JSON.parse(JSON.stringify(value))] *)
Definition deepClone (value : json) : result json :=
  match JSON_parse (stringify value) with
  | Some v => Resolved v
  | None => Rejected syntax_error
  end.

Definition not_located : exn :=
  ErrorObj "Could not locate Library Capture module config for this page.".

(** The scan of both locations: the mutated content and the number
    of targets updated. *)
Definition apply_defaults (content : json) (modelConfig : list (string * json))
           (requestedModuleId : string) : json * nat :=
  let '(c1, n1) := applyDefaultModelToModules content modelConfig requestedModuleId in
  let '(c2, n2) := applyDefaultModelToLayouts c1 modelConfig requestedModuleId in
  (c2, n1 + n2).

Definition cfg (modelConfig : list (string * json)) (k : string) : string :=
  match assoc k modelConfig with
  | Some (JString v) => v
  | _ => EmptyString
  end.

Definition page_url (normalizedPageId : string) : string :=
  "/api/v1/pages/" ++ normalizedPageId.

(** The page content the scan works on: read, unwrapped, parsed and
    cloned. *)
Definition read_page (api : ApiService) (normalizedPageId : string) : result json :=
  pageResponse <- api_get api (page_url normalizedPageId) ;;
  pageRecord <- extractPageRecord pageResponse ;;
  parsedContent <- parsePageContent (get (Some pageRecord) "content") ;;
  deepClone parsedContent.

(** [normalizeToken(options.moduleId || empty)] *)
Definition requested_module (options : SaveCaptureDefaultModelOptions) : string :=
  normalizeToken (Json.or (option_map JString (moduleId options)) (tok EmptyString)).

(** [saveCaptureDefaultModelForPage]: the requests issued and what
    the promise settles to. *)
Definition saveCaptureDefaultModelForPage (api : option ApiService)
           (options : SaveCaptureDefaultModelOptions)
  : list request * result SaveCaptureDefaultModelResult :=
  match api with
  | None => ([], Rejected (ErrorObj "API service is not available."))
  | Some api =>
      match api_put api with
      | None => ([], Rejected (ErrorObj "API service does not support page updates."))
      | Some put =>
          let normalizedPageId := normalizePageId (pageId options) in
          if is_empty normalizedPageId
          then ([], Rejected (ErrorObj "Current page ID is unavailable."))
          else
            let requestedModuleId := requested_module options in
            match buildDefaultModelConfig (selectedModel options) with
            | Rejected e => ([], Rejected e)
            | Resolved modelConfig =>
                let read := [Get (page_url normalizedPageId)] in
                match read_page api normalizedPageId with
                | Rejected e => (read, Rejected e)
                | Resolved cloned =>
                    let '(updatedContent, updatedTargets) :=
                      apply_defaults cloned modelConfig requestedModuleId in
                    if updatedTargets <? 1 then (read, Rejected not_located)
                    else
                      let update :=
                        BodyJson (JObject [("content", updatedContent)]) in
                      ((read ++ [Put (page_url normalizedPageId) update])%list,
                       _ <- put (page_url normalizedPageId) update ;;
                       Resolved
                         {| result_pageId := normalizedPageId;
                            default_model_key := cfg modelConfig "default_model_key";
                            default_model_provider := cfg modelConfig "default_model_provider";
                            default_model_server_id :=
                              cfg modelConfig "default_model_server_id";
                            default_model_name := cfg modelConfig "default_model_name";
                            updated_targets := updatedTargets |})
                end
            end
      end
  end.

End WithParser.

End PageDefaults.

(** ** Sample inputs *)

Module Samples.

Definition llama3 : ModelInfo :=
  {| name := "llama3"; provider := "ollama"; providerId := "ollama_servers_settings";
     serverName := "Local"; serverId := "s1" |}.

Definition gpt : ModelInfo :=
  {| name := "gpt-4o"; provider := "openai"; providerId := "openai_api_keys_settings";
     serverName := "OpenAI"; serverId := "s2" |}.

(** Props with a default model key and an API service, nothing else set. *)
Definition props (key : option string) (service : option ApiService) : Capture.Props :=
  {| Capture.moduleId := None;
     Capture.conversationType := None; Capture.conversation_type := None;
     Capture.enableStreaming := None; Capture.enable_streaming := None;
     Capture.defaultModelKey := key; Capture.default_model_key := None;
     Capture.defaultModelProvider := None; Capture.default_model_provider := None;
     Capture.defaultModelServerId := None; Capture.default_model_server_id := None;
     Capture.defaultModelName := None; Capture.default_model_name := None;
     Capture.defaultLibraryScopeEnabled := None;
     Capture.default_library_scope_enabled := None;
     Capture.defaultProjectSlug := None; Capture.default_project_slug := None;
     Capture.defaultScopeRoot := None; Capture.default_scope_root := None;
     Capture.defaultScopePath := None; Capture.default_scope_path := None;
     Capture.defaultTranscriptSource := None; Capture.default_transcript_source := None;
     Capture.initialGreeting := None; Capture.initial_greeting := None;
     Capture.api := service; Capture.currentPageContext := None |}.

(** A service that streams the given frames and answers every other
    request with the given response. *)
Definition service (frames : list string) (response : option json) : ApiService :=
  {| api_get := fun _ => Resolved response;
     api_post := Some (fun _ _ => Resolved response);
     api_put := Some (fun _ _ => Resolved response);
     api_postStreaming := Some (fun _ _ => (frames, Resolved None)) |}.

(** The same service without a streaming post. *)
Definition plain_service (response : option json) : ApiService :=
  {| api_get := fun _ => Resolved response;
     api_post := Some (fun _ _ => Resolved response);
     api_put := Some (fun _ _ => Resolved response);
     api_postStreaming := None |}.

Definition options (text : string) (streaming : bool) : CaptureService.SendCapturePromptOptions :=
  {| CaptureService.prompt := text;
     CaptureService.selectedModel := llama3;
     CaptureService.conversationId := None;
     CaptureService.conversationType := "capture";
     CaptureService.pageContext := None;
     CaptureService.useStreaming := streaming;
     CaptureService.mcpParams := [];
     CaptureService.approvalDecision := None |}.

Definition tool_call_line : string := dq "data: {'type':'tool_call','name':'x'}".

Definition tool_call_event : json :=
  JObject [("type", JString "tool_call"); ("name", JString "x")].

(** The stream of the specification's scenario. *)
Definition scenario_frames : list string :=
  [ tool_call_line ++ newline;
    dq "data: {'text':'hi'}" ++ newline;
    "data: [DONE]" ++ newline ].

(** Two records of one frame, each carrying a conversation id. *)
Definition two_ids_frame : string :=
  dq "data: {'conversation_id':'a','text':'x'}" ++ newline
  ++ dq "data: {'conversation_id':'b','text':'y'}" ++ newline.

(** A page whose content has two capture targets, a module definition
    and a layout item, and a page that has none. *)
Definition capture_page : option json :=
  Some (JObject
    [("data", JObject
       [("page", JObject
          [("id", JString "p1");
           ("content",
            JString (dq ("{'modules':{'m1':{'moduleName':'LibraryCapture','config':{'a':1}},"
                         ++ "'m2':{'moduleName':'Chat'}},"
                         ++ "'layouts':{'desktop':[{'i':'x','pluginId':'BrainDriveLibraryPlugin',"
                         ++ "'args':{'moduleId':'LibraryCapture_1'}},{'i':'y'}]}}")))])])]).

Definition other_page : option json :=
  Some (JObject
    [("content",
      JString (dq "{'modules':{'m2':{'moduleName':'Chat'}},'layouts':{'desktop':[{'i':'y'}]}}"))]).

Definition save_options : PageDefaults.SaveCaptureDefaultModelOptions :=
  {| PageDefaults.pageId := "p-1"; PageDefaults.moduleId := None;
     PageDefaults.selectedModel := llama3 |}.

(** A stream that asks for an approval. *)
Definition approval_frames : list string :=
  [ dq "data: {'type':'approval_request','request_id':'r1','tool':'write_file'}" ++ newline ].

(** An extracted text of 12,001 characters, the last a line feed, and a
    document service that returns a given text. *)
Definition long_transcript : string :=
  JsString.repeat "a" Capture.transcript_limit ++ newline.

Definition extraction (text : string) : option json :=
  Some (JObject [("processing_success", JBool true); ("extracted_text", JString text)]).

Definition minutes : File := {| file_name := "minutes.txt" |}.

(** A component with one model loaded and a prompt typed in. *)
Definition ready (P : Capture.Props) : Capture.LibraryCaptureState :=
  fst (Capture.perform parse P (Capture.InputChanged "hello")
         (fst (Capture.perform parse P (Capture.Loaded [llama3; gpt] [])
                 (Capture.initial_state P)))).

(** The component after a send that was answered by a request for
    approval. *)
Definition awaiting : Capture.LibraryCaptureState :=
  fst (Capture.perform parse (props None (Some (service approval_frames None)))
         Capture.SendClicked (ready (props None None))).

(** The component after its catalogue arrived while the props named the
    second model as the default. *)
Definition configured : Capture.LibraryCaptureState :=
  fst (Capture.perform parse (props (Some "openai::s2::gpt-4o") None)
         (Capture.Loaded [llama3; gpt] [])
         (Capture.initial_state (props (Some "openai::s2::gpt-4o") None))).

(** A life scope given by its bare name. *)
Definition my_topic : ScopeOption :=
  {| scope_name := "My Topic!"; slug := "my-topic"; lifecycle := "active";
     path := "life/my-topic"; scope_root := Some Life;
     has_agent_md := false; has_spec := false; has_build_plan := false;
     has_decisions := false |}.

(** A service whose second life endpoint is the first to answer with a
    list. *)
Definition life_service : ApiService :=
  {| api_get := fun url =>
       if String.eqb url "/api/v1/plugin-api/braindrive-library/library/life"
       then Rejected (ErrorObj "Not Found")
       else Resolved (Some (JObject [("data", JObject [("life", JArray [JString " My Topic! "])])]));
     api_post := None; api_put := None; api_postStreaming := None |}.

(** A catalogue answer with a chat model, an embedding model and an
    entry without a name. *)
Definition models_answer : option json :=
  Some (JObject
    [("models",
      JArray [ JObject [("provider", JString "ollama"); ("name", JString " llama3 ");
                        ("server_id", JString "s1")];
               JObject [("provider", JString "ollama"); ("name", JString "Nomic-Embed-Text")];
               JObject [("provider", JString "openai")] ])]).

Definition llama3_mapped : CaptureService.MappedModel :=
  {| CaptureService.mapped_name := "llama3";
     CaptureService.mapped_provider := "ollama";
     CaptureService.mapped_providerId := CaptureService.SettingsId "ollama_servers_settings";
     CaptureService.mapped_serverId := "s1";
     CaptureService.mapped_serverName := "Unknown Server" |}.

(** A service whose every [get] fails. *)
Definition anonymous_service : ApiService :=
  {| api_get := fun _ => Rejected (ErrorObj "Unauthorized");
     api_post := Some (fun _ _ => Resolved (Some (JObject [("text", JString "ok")])));
     api_put := None;
     api_postStreaming := None |}.

(** An approval sent with parameters that override the temperature. *)
Definition approval_options : CaptureService.SendCapturePromptOptions :=
  {| CaptureService.prompt := "Approve.";
     CaptureService.selectedModel := llama3;
     CaptureService.conversationId := Some "c1";
     CaptureService.conversationType := "capture";
     CaptureService.pageContext := None;
     CaptureService.useStreaming := false;
     CaptureService.mcpParams :=
       [("mcp_tools_enabled", JBool true); ("temperature", JNumber "0.7")];
     CaptureService.approvalDecision :=
       Some (JObject [("action", JString "approve"); ("request_id", JString "r1")]) |}.

(** A file service that answers under the second prefix only. *)
Definition editor_service : ApiService :=
  {| api_get := fun url =>
       if startsWith "/api/v1/plugin-api/BrainDriveLibraryPlugin/" url
       then Resolved (Some (JObject [("data", JObject [("success", JBool true);
                                                       ("items", JArray [])])]))
       else Rejected (Thrown (Some (JObject
              [("response", JObject [("data", JObject [("detail", JString " Not found ")])])])));
     api_post := None; api_put := None; api_postStreaming := None |}.

(** A component that lists one life scope. *)
Definition scoped : Capture.LibraryCaptureState :=
  fst (Capture.perform parse (props None None) (Capture.Loaded [llama3] [my_topic])
         (Capture.initial_state (props None None))).

End Samples.

(** * Properties *)

(** ** Strings *)

Section StringFacts.

Variable f : ascii -> bool.

Lemma drop_while_length (s : string) :
  String.length (drop_while f s) <= String.length s.
Proof.
  induction s as [|c s IH]; simpl; [lia|].
  destruct (f c); simpl; lia.
Qed.

Lemma drop_while_full (s : string) :
  String.length (drop_while f s) = String.length s -> drop_while f s = s.
Proof.
  destruct s as [|c s]; simpl; [reflexivity|].
  destruct (f c); [|reflexivity].
  pose proof (drop_while_length s); lia.
Qed.

Lemma drop_while_end_length (s : string) :
  String.length (drop_while_end f s) <= String.length s.
Proof.
  induction s as [|c s IH]; simpl; [lia|].
  destruct (drop_while_end f s); [destruct (f c)|]; simpl in *; lia.
Qed.

Lemma drop_while_end_full (s : string) :
  String.length (drop_while_end f s) = String.length s -> drop_while_end f s = s.
Proof.
  induction s as [|c s IH]; simpl; [reflexivity|].
  pose proof (drop_while_end_length s) as Hle.
  destruct (drop_while_end f s) as [|d r] eqn:E.
  - destruct (f c); simpl; intros H; [lia|].
    destruct s; [reflexivity|simpl in H; lia].
  - simpl. intros H. f_equal. apply IH. simpl. lia.
Qed.

Lemma drop_while_end_idem (s : string) :
  drop_while_end f (drop_while_end f s) = drop_while_end f s.
Proof.
  induction s as [|c s IH]; simpl; [reflexivity|].
  destruct (drop_while_end f s) as [|d r] eqn:E.
  - destruct (f c) eqn:Fc; simpl; [reflexivity|]. now rewrite Fc.
  - simpl in *. now rewrite IH.
Qed.

(** A string that does not begin with a character of the class keeps
    its first character under [drop_while_end]. *)
Lemma drop_while_stable (s : string) :
  drop_while f (drop_while_end f (drop_while f s)) = drop_while_end f (drop_while f s).
Proof.
  induction s as [|c s IH]; simpl; [reflexivity|].
  destruct (f c) eqn:Fc; [exact IH|].
  simpl. destruct (drop_while_end f s); rewrite ?Fc; simpl; now rewrite Fc.
Qed.

Lemma none_of_drop_while (g : ascii -> bool) (s : string) :
  none_of g s = true -> none_of g (drop_while f s) = true.
Proof.
  induction s as [|c s IH]; simpl; [reflexivity|].
  intros H. apply andb_true_iff in H as [H1 H2].
  destruct (f c); [auto|]. simpl. now rewrite H1, H2.
Qed.

Lemma none_of_drop_while_end (g : ascii -> bool) (s : string) :
  none_of g s = true -> none_of g (drop_while_end f s) = true.
Proof.
  induction s as [|c s IH]; simpl; [reflexivity|].
  intros H. apply andb_true_iff in H as [H1 H2].
  specialize (IH H2).
  destruct (drop_while_end f s); [destruct (f c)|]; simpl in *;
    rewrite ?H1; auto.
Qed.

Lemma replace_runs_none (by_ : string) (b : bool) (s : string) :
  none_of f s = true -> replace_runs f by_ b s = s.
Proof.
  revert b. induction s as [|c s IH]; simpl; intros b H; [reflexivity|].
  apply andb_true_iff in H as [H1 H2].
  apply negb_true_iff in H1. rewrite H1. now rewrite IH.
Qed.

Lemma replace_runs_length (c : ascii) (b : bool) (s : string) :
  String.length (replace_runs f (String c EmptyString) b s) <= String.length s.
Proof.
  revert b. induction s as [|d s IH]; simpl; intros b; [lia|].
  destruct (f d); [destruct b|]; simpl.
  - specialize (IH true). lia.
  - specialize (IH true). lia.
  - specialize (IH false). lia.
Qed.

Lemma replace_runs_clean (c : ascii) (b : bool) (s : string) :
  f c = false -> none_of f (replace_runs f (String c EmptyString) b s) = true.
Proof.
  intros Hc. revert b. induction s as [|d s IH]; simpl; intros b; [reflexivity|].
  destruct (f d) eqn:Fd; [destruct b|]; simpl; rewrite ?Hc, ?Fd; simpl; auto.
Qed.

Lemma drop_while_none (s : string) : none_of f s = true -> drop_while f s = s.
Proof.
  destruct s as [|c s]; simpl; [reflexivity|].
  intros H. apply andb_true_iff in H as [H _]. apply negb_true_iff in H. now rewrite H.
Qed.

Lemma drop_while_end_none (s : string) : none_of f s = true -> drop_while_end f s = s.
Proof.
  induction s as [|c s IH]; simpl; [reflexivity|].
  intros H. apply andb_true_iff in H as [Hc Hs]. apply negb_true_iff in Hc.
  rewrite (IH Hs). destruct s; [now rewrite Hc|reflexivity].
Qed.

Lemma none_of_replace_runs (g : ascii -> bool) (c : ascii) (b : bool) (s : string) :
  g c = false -> none_of g s = true ->
  none_of g (replace_runs f (String c EmptyString) b s) = true.
Proof.
  intros Hc. revert b. induction s as [|d s IH]; simpl; intros b H; [reflexivity|].
  apply andb_true_iff in H as [Hd Hs].
  destruct (f d); [destruct b|]; simpl; rewrite ?Hc, ?Hd; simpl; auto.
Qed.

End StringFacts.

Import Capture.

Lemma normalizePath_shape (p : string) :
  let q := normalizePath p in
  replace_runs is_backslash "/" false q = q
  /\ drop_while is_slash q = q
  /\ drop_while_end is_slash q = q.
Proof.
  unfold normalizePath. cbv zeta.
  split; [|split].
  - apply replace_runs_none.
    apply none_of_drop_while_end, none_of_drop_while.
    now apply replace_runs_clean.
  - apply drop_while_stable.
  - apply drop_while_end_idem.
Qed.

Lemma trim_full (s : string) :
  String.length (trim s) = String.length s -> trim s = s.
Proof.
  unfold trim. intros H.
  pose proof (drop_while_end_length is_whitespace (drop_while is_whitespace s)).
  pose proof (drop_while_length is_whitespace s).
  assert (E : drop_while is_whitespace s = s) by (apply drop_while_full; lia).
  rewrite E in *. now apply drop_while_end_full.
Qed.

Lemma normalizePath_length (s : string) :
  String.length (normalizePath s) <= String.length (trim s).
Proof.
  unfold normalizePath.
  pose proof (drop_while_end_length is_slash
                (drop_while is_slash (replace_runs is_backslash "/" false (trim s)))).
  pose proof (drop_while_length is_slash (replace_runs is_backslash "/" false (trim s))).
  pose proof (replace_runs_length is_backslash "/" false (trim s)).
  lia.
Qed.

Lemma trim_length (s : string) : String.length (trim s) <= String.length s.
Proof.
  unfold trim.
  pose proof (drop_while_end_length is_whitespace (drop_while is_whitespace s)).
  pose proof (drop_while_length is_whitespace s). lia.
Qed.

Lemma normalizePath_twice (p : string) :
  normalizePath (normalizePath p) = normalizePath p
  <-> trim (normalizePath p) = normalizePath p.
Proof.
  destruct (normalizePath_shape p) as (H1 & H2 & H3).
  set (q := normalizePath p) in *. split.
  - intros H. apply trim_full.
    pose proof (normalizePath_length q). pose proof (trim_length q).
    rewrite H in *. lia.
  - intros H. unfold normalizePath at 1. rewrite H, H1, H2. exact H3.
Qed.

(** A path without white space is normalised by one pass. *)
Lemma normalizePath_idempotent_without_whitespace (p : string) :
  none_of is_whitespace p = true ->
  normalizePath (normalizePath p) = normalizePath p.
Proof.
  intros Hp. apply normalizePath_twice.
  assert (Hq : none_of is_whitespace (normalizePath p) = true).
  { unfold normalizePath.
    apply none_of_drop_while_end, none_of_drop_while.
    apply none_of_replace_runs; [reflexivity|].
    unfold trim. now apply none_of_drop_while_end, none_of_drop_while. }
  unfold trim. rewrite (drop_while_none is_whitespace _ Hq).
  now apply drop_while_end_none.
Qed.

(** C2, as amended.  Normalising a scope path twice gives the result of
    normalising it once exactly when that result has no white space at
    either end, that is when [trim] leaves it unchanged; this holds for
    [normalizePath] of the component and for [normalizeScopePath] of the
    service alike. *)
Theorem normalize_twice_iff_trimmed (p : string) :
  (normalizePath (normalizePath p) = normalizePath p
   <-> trim (normalizePath p) = normalizePath p)
  /\ (CaptureService.normalizeScopePath (CaptureService.normalizeScopePath p)
      = CaptureService.normalizeScopePath p
      <-> trim (CaptureService.normalizeScopePath p) = CaptureService.normalizeScopePath p).
Proof.
  split.
  - apply normalizePath_twice.
  - change (CaptureService.normalizeScopePath p) with (normalizePath p).
    change (CaptureService.normalizeScopePath (normalizePath p))
      with (normalizePath (normalizePath p)).
    apply normalizePath_twice.
Qed.

(** C2, counterexample.  The path [/ a] normalises to [ a], with a
    leading blank, which a second pass trims away. *)
Lemma normalize_not_idempotent :
  normalizePath (normalizePath "/ a") <> normalizePath "/ a".
Proof. vm_compute. discriminate. Qed.
(** ** The stream handler *)

Section Stream.

Import CaptureService.

Variable JSON_parse : string -> option json.
Variable conversationId : option string.

Lemma on_line_appends (line : string) (log : list Invocation) :
  on_line JSON_parse recorder conversationId line log
  = (log ++ on_line JSON_parse recorder conversationId line [])%list.
Proof.
  unfold on_line.
  destruct (is_empty (payload_of line) || (payload_of line =? "[DONE]")%string);
    [now rewrite app_nil_r|].
  destruct (JSON_parse (payload_of line)) as [parsed|]; [|now rewrite app_nil_r].
  destruct (truthy (get (Some parsed) "conversation_id") && absent conversationId);
    destruct (is_metadata_event parsed);
    try destruct (is_empty (extractTextFromData (Some parsed)));
    simpl; rewrite ?app_nil_r, <- ?app_assoc; reflexivity.
Qed.

Lemma on_frame_appends (frame : string) (log : list Invocation) :
  on_frame JSON_parse recorder conversationId frame log
  = (log ++ flat_map (fun line => on_line JSON_parse recorder conversationId line [])
                     (lines_of frame))%list.
Proof.
  unfold on_frame. generalize (lines_of frame) as lines. intros lines. revert log.
  induction lines as [|line lines IH]; intros log; simpl; [now rewrite app_nil_r|].
  rewrite IH, on_line_appends, <- app_assoc. reflexivity.
Qed.

Lemma on_frames_appends (frames : list string) (log : list Invocation) :
  on_frames JSON_parse recorder conversationId frames log
  = (log ++ flat_map (fun line => on_line JSON_parse recorder conversationId line [])
                     (flat_map lines_of frames))%list.
Proof.
  unfold on_frames. revert log.
  induction frames as [|frame frames IH]; intros log; simpl; [now rewrite app_nil_r|].
  rewrite IH, on_frame_appends, flat_map_app, <- app_assoc. reflexivity.
Qed.

Lemma id_calls_of_line (line : string) :
  filter is_id_call (on_line JSON_parse recorder conversationId line [])
  = if absent conversationId
    then match carried_id JSON_parse line with
         | Some i => [ConversationIdCall i]
         | None => []
         end
    else [].
Proof.
  unfold on_line, carried_id.
  destruct (is_empty (payload_of line) || (payload_of line =? "[DONE]")%string);
    [now destruct (absent conversationId)|].
  destruct (JSON_parse (payload_of line)) as [parsed|];
    [|now destruct (absent conversationId)].
  destruct (truthy (get (Some parsed) "conversation_id"));
    destruct (absent conversationId);
    destruct (is_metadata_event parsed);
    try destruct (is_empty (extractTextFromData (Some parsed)));
    reflexivity.
Qed.

Lemma id_calls_of_lines (lines : list string) :
  filter is_id_call
         (flat_map (fun line => on_line JSON_parse recorder conversationId line []) lines)
  = if absent conversationId
    then map ConversationIdCall (somes (map (carried_id JSON_parse) lines))
    else [].
Proof.
  induction lines as [|line lines IH]; simpl; [now destruct (absent conversationId)|].
  rewrite filter_app, IH, id_calls_of_line.
  destruct (absent conversationId); [|reflexivity].
  destruct (carried_id JSON_parse line); reflexivity.
Qed.

End Stream.

(** A streaming call is the stream handler run over the frames the
    transport delivers. *)
Lemma sendPrompt_streams (JSON_parse : string -> option json) (S : Type)
      (cb : CaptureService.Callbacks S) (api : ApiService)
      (post : string -> body -> result (option json))
      (stream : string -> body -> list string * result (option json))
      (userId : option string) (options : CaptureService.SendCapturePromptOptions) (st : S) :
  api_post api = Some post ->
  api_postStreaming api = Some stream ->
  CaptureService.useStreaming options = true ->
  CaptureService.state_after
    (CaptureService.sendPrompt JSON_parse cb (Some api) userId options st)
  = CaptureService.on_frames JSON_parse cb (CaptureService.conversationId options)
      (fst (stream CaptureService.chat_url
              (BodyJson (CaptureService.requestPayload options
                           (snd (CaptureService.initializeUserId api userId))))))
      st.
Proof.
  intros Hpost Hstream Hmode. unfold CaptureService.sendPrompt.
  simpl CaptureService.ensureApi. cbv iota.
  destruct (CaptureService.initializeUserId api userId) as [reqs0 uid].
  rewrite Hpost, Hmode, Hstream. simpl snd.
  destruct (stream _ _) as [frames settled]. reflexivity.
Qed.

(** C1, as amended.  During a streaming call that starts without a
    conversation id, the id callback is invoked once for every streamed
    record that parses and carries a truthy [conversation_id], in arrival
    order: the handler tests the id the call started with and keeps no
    note of an id reported meanwhile.  A call that starts with a
    non-empty id never invokes the callback. *)
Theorem id_callback_once_per_carrying_record
        (JSON_parse : string -> option json) (conversationId : option string)
        (frames : list string) (log : list CaptureService.Invocation) :
  filter CaptureService.is_id_call
         (CaptureService.on_frames JSON_parse CaptureService.recorder conversationId frames log)
  = (filter CaptureService.is_id_call log
     ++ if CaptureService.absent conversationId
        then map CaptureService.ConversationIdCall
                 (CaptureService.carried_ids JSON_parse frames)
        else [])%list.
Proof.
  rewrite on_frames_appends, filter_app, id_calls_of_lines. reflexivity.
Qed.

(** C1, counterexample.  A call that starts without a conversation id
    and receives two records that carry one invokes the id callback
    twice; the component, whose callback stores what it is given, ends
    with the second id. *)
Lemma id_callback_invoked_twice :
  filter CaptureService.is_id_call
    (CaptureService.state_after
       (CaptureService.sendPrompt parse CaptureService.recorder
          (Some (Samples.service [Samples.two_ids_frame] None)) None
          (Samples.options "hello" true) []))
  = [CaptureService.ConversationIdCall "a"; CaptureService.ConversationIdCall "b"]
  /\ Capture.conversationId
       (fst (Capture.perform parse
               (Samples.props None (Some (Samples.service [Samples.two_ids_frame] None)))
               Capture.SendClicked
               (Samples.ready (Samples.props None None))))
     = Some "b".
Proof. split; vm_compute; reflexivity. Qed.



(** The scenario of the specification: a [tool_call] event, a text
    record and the [[DONE]] sentinel give one metadata event, which sets
    the activity status, then one chunk. *)
Example scenario_stream :
  CaptureService.on_frames parse CaptureService.recorder None Samples.scenario_frames []
  = [CaptureService.MetadataEventCall Samples.tool_call_event; CaptureService.ChunkCall "hi"]
  /\ option_map Capture.activityStatus
       (match Capture.handleMetadataEvent Samples.tool_call_event
                (Samples.ready (Samples.props None None)) with
        | Resolved st => Some st
        | Rejected _ => None
        end)
     = Some (Some "Running tool: x...").
Proof. split; vm_compute; reflexivity. Qed.

(** ** Single-shot mode *)

Lemma recorder_never_throws : CaptureService.never_throw CaptureService.recorder.
Proof. repeat split; intros; eexists; reflexivity. Qed.

Lemma on_response_outcome (S : Type) (cb : CaptureService.Callbacks S)
      (conversationId : option string) (payload : option json) (st : S) :
  CaptureService.never_throw cb ->
  snd (CaptureService.on_response cb conversationId payload st)
  = if is_empty (CaptureService.extractTextFromData payload)
       && negb (truthy (get payload "approval_required"))
       && negb (truthy (get payload "approval_resolution"))
    then Rejected (ErrorObj "No response text received.")
    else Resolved true.
Proof.
  intros (Hchunk & Hid & Hmeta). unfold CaptureService.on_response.
  repeat match goal with
  | |- context [CaptureService.onConversationId cb ?i ?s] =>
      let st' := fresh "st" in let E := fresh "E" in
      destruct (Hid i s) as [st' E]; rewrite E; clear E
  | |- context [CaptureService.onMetadataEvent cb ?e ?s] =>
      let st' := fresh "st" in let E := fresh "E" in
      destruct (Hmeta e s) as [st' E]; rewrite E; clear E
  | |- context [CaptureService.onChunk cb ?t ?s] =>
      let st' := fresh "st" in let E := fresh "E" in
      destruct (Hchunk t s) as [st' E]; rewrite E; clear E
  | |- context [if ?b then _ else _] => destruct b eqn:?
  | |- context [match get payload "approval_request" with _ => _ end] =>
      destruct (get payload "approval_request") eqn:?
  end; simpl in *; try reflexivity; try congruence.
Qed.

(** C5.  In single-shot mode, with callbacks that complete and a
    response received, [sendPrompt] throws exactly when no text was
    extracted from the payload and the payload has neither a (truthy)
    [approval_required] nor a (truthy) [approval_resolution]; what it
    throws then is the error [No response text received.], and a payload
    with an approval field and no text makes the call succeed. *)
Theorem single_shot_error_iff_nothing_received
        (JSON_parse : string -> option json) (S : Type) (cb : CaptureService.Callbacks S)
        (api : ApiService) (post : string -> body -> result (option json))
        (userId : option string) (options : CaptureService.SendCapturePromptOptions)
        (st : S) (response : option json) :
  CaptureService.never_throw cb ->
  api_post api = Some post ->
  CaptureService.useStreaming options = false \/ api_postStreaming api = None ->
  post CaptureService.chat_url
       (BodyJson (CaptureService.requestPayload options
                    (snd (CaptureService.initializeUserId api userId))))
  = Resolved response ->
  let payload := CaptureService.normalizeApiPayload response in
  let sent := CaptureService.sendPrompt JSON_parse cb (Some api) userId options st in
  ((exists e, CaptureService.outcome sent = Rejected e)
   <-> CaptureService.extractTextFromData payload = EmptyString
       /\ truthy (get payload "approval_required") = false
       /\ truthy (get payload "approval_resolution") = false)
  /\ (forall e, CaptureService.outcome sent = Rejected e ->
                e = ErrorObj "No response text received.")
  /\ (CaptureService.extractTextFromData payload = EmptyString ->
      truthy (get payload "approval_required") = true
      \/ truthy (get payload "approval_resolution") = true ->
      CaptureService.outcome sent = Resolved true).
Proof.
  intros Hcb Hpost Hmode Hresp payload sent.
  assert (Hout : CaptureService.outcome sent
                 = if is_empty (CaptureService.extractTextFromData payload)
                      && negb (truthy (get payload "approval_required"))
                      && negb (truthy (get payload "approval_resolution"))
                   then Rejected (ErrorObj "No response text received.")
                   else Resolved true).
  { subst sent payload. unfold CaptureService.sendPrompt. simpl CaptureService.ensureApi.
    cbv iota. destruct (CaptureService.initializeUserId api userId) as [reqs0 uid] eqn:Einit.
    simpl in Hresp. rewrite Hpost.
    assert (Hsel : (if CaptureService.useStreaming options
                    then api_postStreaming api else None) = None).
    { destruct Hmode as [H|H]; rewrite H; [reflexivity|].
      now destruct (CaptureService.useStreaming options). }
    rewrite Hsel, Hresp.
    pose proof (on_response_outcome S cb (CaptureService.conversationId options)
                  (CaptureService.normalizeApiPayload response) st Hcb) as H.
    destruct (CaptureService.on_response cb (CaptureService.conversationId options)
                (CaptureService.normalizeApiPayload response) st) as [st' out].
    simpl in *. exact H. }
  rewrite Hout. clear Hout.
  destruct (CaptureService.extractTextFromData payload) as [|c text];
    destruct (truthy (get payload "approval_required"));
    destruct (truthy (get payload "approval_resolution")); simpl;
    (split; [split; [intros [e He]; try discriminate; auto
                    |intros (H1 & H2 & H3); try discriminate; eauto]
            |split; [intros e He; congruence
                    |intros H1 [H2|H2]; try discriminate; reflexivity]]).
Qed.

(** C5, witness: a response that only asks for an approval. *)
Lemma single_shot_error_iff_nothing_received_witness :
  CaptureService.outcome
    (CaptureService.sendPrompt parse CaptureService.recorder
       (Some (Samples.plain_service
                (Some (JObject [("approval_required", JBool true);
                                ("approval_request", JObject [("tool", JString "write_file")])]))))
       None (Samples.options "hello" false) [])
  = Resolved true.
Proof.
  refine (proj2 (proj2
    (single_shot_error_iff_nothing_received parse _ CaptureService.recorder
       (Samples.plain_service
          (Some (JObject [("approval_required", JBool true);
                          ("approval_request", JObject [("tool", JString "write_file")])])))
       (fun _ _ => Resolved
          (Some (JObject [("approval_required", JBool true);
                          ("approval_request", JObject [("tool", JString "write_file")])])))
       None (Samples.options "hello" false) []
       (Some (JObject [("approval_required", JBool true);
                       ("approval_request", JObject [("tool", JString "write_file")])]))
       recorder_never_throws _ _ _)) _ _).
  - reflexivity.
  - left. reflexivity.
  - reflexivity.
  - vm_compute. reflexivity.
  - left. vm_compute. reflexivity.
Defined.

(** ** Default model resolution *)

Lemma model_matches_answers (key : Capture.ParsedModelKey) (model : ModelInfo) :
  Capture.model_matches key model = true <-> Capture.answers key model.
Proof.
  unfold Capture.model_matches, Capture.answers, Capture.same_ignoring_case, Capture.normalize.
  destruct (String.eqb_spec (toLowerCase (trim (provider model)))
                            (toLowerCase (trim (Capture.key_provider key)))) as [Hp|Hp];
    destruct (String.eqb_spec (toLowerCase (trim (name model)))
                              (toLowerCase (trim (Capture.key_modelName key)))) as [Hn|Hn];
    simpl; try (split; [discriminate|tauto]).
  destruct (Capture.key_serverId key) as [sid|].
  - destruct sid as [|c sid]; simpl.
    + split; [|reflexivity]. intros _. repeat split; auto.
      intros sid' E Hne. inversion E. congruence.
    + destruct (String.eqb_spec (toLowerCase (trim (serverId model)))
                                (toLowerCase (trim (String c sid)))) as [Hs|Hs].
      * split; [|reflexivity]. intros _. repeat split; auto.
        intros sid' E _. inversion E. subst. exact Hs.
      * split; [discriminate|]. intros (_ & _ & H). exfalso. apply Hs.
        apply H; [reflexivity|discriminate].
  - split; [|reflexivity]. intros _. repeat split; auto. discriminate.
Qed.

Lemma find_first {A : Type} (f : A -> bool) (before : list A) (x : A) (after : list A) :
  f x = true -> (forall y, In y before -> f y = false) ->
  find f (before ++ x :: after) = Some x.
Proof.
  intros Hx. induction before as [|y before IH]; simpl; intros Hb.
  - now rewrite Hx.
  - rewrite (Hb y (or_introl eq_refl)). apply IH. intros z Hz. apply Hb. now right.
Qed.

Lemma find_nothing {A : Type} (f : A -> bool) (l : list A) :
  (forall y, In y l -> f y = false) -> find f l = None.
Proof.
  induction l as [|y l IH]; simpl; intros H; [reflexivity|].
  rewrite (H y (or_introl eq_refl)). apply IH. intros z Hz. apply H. now right.
Qed.

(** C6, as amended.  On an empty catalogue the selection becomes null
    and no error is raised.  On a non-empty catalogue, a configured
    default selects the first entry that answers it (provider and model
    name equal up to case, server id too when one is configured) and the
    first entry of the catalogue when none answers; without a configured
    default the model already selected is kept, and the first entry is
    selected only when none was. *)
Theorem default_model_resolution (P : Capture.Props) (st : Capture.LibraryCaptureState) :
  let st' := Capture.applyConfiguredModelDefault P st in
  (Capture.models st = [] -> Capture.selectedModel st' = None)
  /\ (forall first rest key before model after,
         Capture.models st = first :: rest ->
         Capture.parseConfiguredDefaultModelKey P = Some key ->
         Capture.models st = (before ++ model :: after)%list ->
         Capture.answers key model ->
         (forall other, In other before -> ~ Capture.answers key other) ->
         Capture.selectedModel st' = Some model)
  /\ (forall first rest key,
         Capture.models st = first :: rest ->
         Capture.parseConfiguredDefaultModelKey P = Some key ->
         (forall other, In other (Capture.models st) -> ~ Capture.answers key other) ->
         Capture.selectedModel st' = Some first)
  /\ (forall first rest,
         Capture.models st = first :: rest ->
         Capture.parseConfiguredDefaultModelKey P = None ->
         Capture.selectedModel st'
         = match Capture.selectedModel st with
           | Some kept => Some kept
           | None => Some first
           end)
  /\ Capture.error st' = Capture.error st
  /\ Capture.models st' = Capture.models st.
Proof.
  assert (Hno : forall key other, ~ Capture.answers key other ->
                                  Capture.model_matches key other = false).
  { intros key other H. destruct (Capture.model_matches key other) eqn:E; [|reflexivity].
    exfalso. apply H. now apply model_matches_answers. }
  cbv zeta. unfold Capture.applyConfiguredModelDefault.
  repeat split.
  - intros E. rewrite E. reflexivity.
  - intros first rest key before model after E Hkey Hsplit Hans Hbefore.
    assert (Hfind : find (Capture.model_matches key) (Capture.models st) = Some model).
    { rewrite Hsplit. apply find_first; [now apply model_matches_answers|].
      intros y Hy. apply Hno. now apply Hbefore. }
    rewrite E in Hfind |- *. rewrite Hkey. cbv beta iota zeta. rewrite Hfind. reflexivity.
  - intros first rest key E Hkey Hnone.
    assert (Hfind : find (Capture.model_matches key) (Capture.models st) = None).
    { apply find_nothing. intros y Hy. apply Hno. now apply Hnone. }
    rewrite E in Hfind |- *. rewrite Hkey. cbv beta iota zeta. rewrite Hfind. reflexivity.
  - intros first rest E Hkey. rewrite E, Hkey. reflexivity.
  - destruct (Capture.models st); [reflexivity|].
    destruct (Capture.parseConfiguredDefaultModelKey P); reflexivity.
  - destruct (Capture.models st) eqn:E; [simpl; now rewrite E|].
    destruct (Capture.parseConfiguredDefaultModelKey P); simpl; now rewrite E.
Qed.

(** C6, witness: the catalogue and the default key of the
    specification's scenario. *)
Lemma default_model_resolution_witness :
  Capture.selectedModel
    (Capture.applyConfiguredModelDefault
       (Samples.props (Some "ollama::s1::llama3") None)
       (Capture.set_models [Samples.llama3]
          (Capture.initial_state (Samples.props (Some "ollama::s1::llama3") None))))
  = Some Samples.llama3.
Proof.
  refine (proj1 (proj2
    (default_model_resolution (Samples.props (Some "ollama::s1::llama3") None)
       (Capture.set_models [Samples.llama3]
          (Capture.initial_state (Samples.props (Some "ollama::s1::llama3") None)))))
    Samples.llama3 []
    {| Capture.key_provider := "ollama"; Capture.key_serverId := Some "s1";
       Capture.key_modelName := "llama3" |}
    [] Samples.llama3 [] _ _ _ _ _).
  - reflexivity.
  - vm_compute. reflexivity.
  - reflexivity.
  - repeat split. intros sid E _. inversion E. reflexivity.
  - intros other [].
Defined.

(** C6, counterexample.  The catalogue arrived while the second model
    was the configured default; the host then removes the default.  No
    default is configured and the catalogue is not empty, yet the
    resolution keeps the second model instead of selecting the first
    entry. *)
Lemma default_keeps_previous_selection :
  Capture.reachable parse Samples.configured
  /\ Capture.parseConfiguredDefaultModelKey (Samples.props None None) = None
  /\ Capture.models Samples.configured = [Samples.llama3; Samples.gpt]
  /\ Capture.selectedModel
       (fst (Capture.perform parse (Samples.props None None) Capture.DefaultsChanged
               Samples.configured))
     = Some Samples.gpt
  /\ Some Samples.gpt <> Some Samples.llama3.
Proof.
  split.
  - unfold Samples.configured.
    apply Capture.reachable_perform. apply Capture.reachable_initial.
  - repeat split; try (vm_compute; reflexivity). discriminate.
Qed.

(** ** The send guard *)

(** C8.  With no model selected, [sendPrompt] issues no request, sets
    the error field and changes nothing else: the message log is the one
    it found. *)
Theorem send_without_model_is_refused
        (JSON_parse : string -> option json) (P : Capture.Props) (prompt : string)
        (approvalDecision : option Capture.MCPApprovalDecision) (userLabel : option string)
        (st : Capture.LibraryCaptureState) :
  Capture.selectedModel st = None ->
  let after := Capture.sendPrompt JSON_parse P prompt approvalDecision userLabel st in
  snd after = []
  /\ Capture.error (fst after) = Some "Select a model before sending capture input."
  /\ Capture.messages (fst after) = Capture.messages st
  /\ fst after = Capture.set_error (Capture.error (fst after)) st.
Proof.
  intros Hnone. unfold Capture.sendPrompt. rewrite Hnone. repeat split.
Qed.

(** C8, witness: a freshly mounted component, whose catalogue has not
    arrived. *)
Lemma send_without_model_is_refused_witness :
  snd (Capture.sendPrompt parse (Samples.props None (Some (Samples.service [] None)))
         "hello" None None (Capture.initial_state (Samples.props None None))) = [].
Proof.
  refine (proj1 (send_without_model_is_refused parse
                   (Samples.props None (Some (Samples.service [] None)))
                   "hello" None None (Capture.initial_state (Samples.props None None)) _)).
  reflexivity.
Defined.

(** ** Saving the default model of a page *)

Section SaveDefaults.

Import PageDefaults.

Variable JSON_parse : string -> option json.

Lemma save_after_scan (api : ApiService) (put : string -> body -> result (option json))
    (options : SaveCaptureDefaultModelOptions)
    (modelConfig : list (string * json)) (cloned : json) :
api_put api = Some put ->
normalizePageId (pageId options) <> EmptyString ->
buildDefaultModelConfig (selectedModel options) = Resolved modelConfig ->
read_page JSON_parse api (normalizePageId (pageId options)) = Resolved cloned ->
let url := page_url (normalizePageId (pageId options)) in
let scan := apply_defaults cloned modelConfig (requested_module options) in
saveCaptureDefaultModelForPage JSON_parse (Some api) options
= if snd scan <? 1 then ([Get url], Rejected not_located)
  else ([Get url; Put url (BodyJson (JObject [("content", fst scan)]))],
        _ <- put url (BodyJson (JObject [("content", fst scan)])) ;;
        Resolved
          {| result_pageId := normalizePageId (pageId options);
             default_model_key := cfg modelConfig "default_model_key";
             default_model_provider := cfg modelConfig "default_model_provider";
             default_model_server_id := cfg modelConfig "default_model_server_id";
             default_model_name := cfg modelConfig "default_model_name";
             updated_targets := snd scan |}).
Proof.
intros Hput Hid Hcfg Hread. cbv zeta.
unfold saveCaptureDefaultModelForPage. rewrite Hput.
destruct (normalizePageId (pageId options)) as [|c rest] eqn:E; [congruence|].
simpl is_empty. cbv iota. rewrite Hcfg, Hread.
destruct (apply_defaults cloned modelConfig (requested_module options)) as [updated n].
simpl fst. simpl snd. destruct (n <? 1); reflexivity.
Qed.

Lemma save_success_counts (api : option ApiService) (options : SaveCaptureDefaultModelOptions)
    (r : SaveCaptureDefaultModelResult) :
snd (saveCaptureDefaultModelForPage JSON_parse api options) = Resolved r ->
1 <= updated_targets r
/\ existsb is_put (fst (saveCaptureDefaultModelForPage JSON_parse api options)) = true.
Proof.
unfold saveCaptureDefaultModelForPage.
destruct api as [api|]; [|discriminate].
destruct (api_put api) as [put|]; [|discriminate].
destruct (is_empty (normalizePageId (pageId options))); [discriminate|].
destruct (buildDefaultModelConfig (selectedModel options)) as [modelConfig|]; [|discriminate].
destruct (read_page JSON_parse api (normalizePageId (pageId options))) as [cloned|];
  [|discriminate].
destruct (apply_defaults cloned modelConfig (requested_module options)) as [updated n].
destruct (n <? 1) eqn:En; [discriminate|].
apply Nat.ltb_ge in En. simpl.
destruct (put _ _); simpl; [|discriminate].
intros H. inversion H. simpl. split; [exact En|reflexivity].
Qed.

End SaveDefaults.

(** C7.  Once the page has been read, the save either fails with the
    [Could not locate] error, when the scan of the module definitions
    and of the layouts updated no target, having issued no update
    request, or it sends the mutated content in one update request and,
    when that request succeeds, returns the number of targets updated.
    A result is never returned with [updated_targets] equal to 0. *)
Theorem save_default_model_all_or_nothing
        (JSON_parse : string -> option json) (api : ApiService)
        (options : PageDefaults.SaveCaptureDefaultModelOptions) :
  let save := PageDefaults.saveCaptureDefaultModelForPage JSON_parse (Some api) options in
  let url := PageDefaults.page_url (PageDefaults.normalizePageId (PageDefaults.pageId options)) in
  (forall put modelConfig cloned,
      api_put api = Some put ->
      PageDefaults.normalizePageId (PageDefaults.pageId options) <> EmptyString ->
      PageDefaults.buildDefaultModelConfig (PageDefaults.selectedModel options)
      = Resolved modelConfig ->
      PageDefaults.read_page JSON_parse api
        (PageDefaults.normalizePageId (PageDefaults.pageId options)) = Resolved cloned ->
      let scan :=
        PageDefaults.apply_defaults cloned modelConfig (PageDefaults.requested_module options) in
      (snd scan = 0 ->
       snd save = Rejected PageDefaults.not_located
       /\ fst save = [Get url]
       /\ existsb is_put (fst save) = false)
      /\ (1 <= snd scan ->
          fst save = [Get url; Put url (BodyJson (JObject [("content", fst scan)]))]
          /\ forall answer,
               put url (BodyJson (JObject [("content", fst scan)])) = Resolved answer ->
               exists r, snd save = Resolved r
                         /\ PageDefaults.updated_targets r = snd scan))
  /\ (forall r, snd save = Resolved r ->
                1 <= PageDefaults.updated_targets r
                /\ existsb is_put (fst save) = true).
Proof.
  cbv zeta. split.
  - intros put modelConfig cloned Hput Hid Hcfg Hread.
    rewrite (save_after_scan JSON_parse api put options modelConfig cloned Hput Hid Hcfg Hread).
    cbv zeta. split.
    + intros H0. rewrite H0. simpl. repeat split.
    + intros H1. destruct (Nat.ltb_spec (snd (PageDefaults.apply_defaults cloned modelConfig
                                               (PageDefaults.requested_module options))) 1)
        as [Hlt|_]; [lia|].
      simpl. split; [reflexivity|].
      intros answer Hans. rewrite Hans. simpl. eexists. split; reflexivity.
  - intros r. apply save_success_counts.
Qed.

(** C7, witness: a page with a capture module and a capture layout item
    is updated in both places. *)
Lemma save_default_model_all_or_nothing_witness :
  exists r,
    snd (PageDefaults.saveCaptureDefaultModelForPage parse
           (Some (Samples.service [] Samples.capture_page)) Samples.save_options)
    = Resolved r
    /\ PageDefaults.updated_targets r = 2.
Proof.
  destruct (PageDefaults.read_page parse (Samples.service [] Samples.capture_page) "p1")
    as [cloned|e] eqn:Hread; [|vm_compute in Hread; discriminate].
  destruct (PageDefaults.buildDefaultModelConfig Samples.llama3)
    as [modelConfig|e] eqn:Hcfg; [|vm_compute in Hcfg; discriminate].
  assert (Hscan : snd (PageDefaults.apply_defaults cloned modelConfig
                         (PageDefaults.requested_module Samples.save_options)) = 2).
  { vm_compute in Hread. vm_compute in Hcfg.
    inversion Hread; inversion Hcfg; subst. vm_compute. reflexivity. }
  destruct (proj1 (save_default_model_all_or_nothing parse
                     (Samples.service [] Samples.capture_page) Samples.save_options)
                  (fun _ _ => Resolved Samples.capture_page) modelConfig cloned)
    as [_ Hsome].
  - reflexivity.
  - vm_compute. discriminate.
  - exact Hcfg.
  - exact Hread.
  - destruct Hsome as [_ Hput]; [rewrite Hscan; lia|].
    destruct (Hput Samples.capture_page eq_refl) as (r & Hr & Hn).
    exists r. split; [exact Hr|]. rewrite Hn. exact Hscan.
Defined.

(** ** The pending approval *)

(** Only [set_pendingApproval] touches the held request. *)

Lemma pendingApproval_set_models v st :
  Capture.pendingApproval (Capture.set_models v st) = Capture.pendingApproval st.
Proof. reflexivity. Qed.

Lemma pendingApproval_set_selectedModel v st :
  Capture.pendingApproval (Capture.set_selectedModel v st) = Capture.pendingApproval st.
Proof. reflexivity. Qed.

Lemma pendingApproval_set_scopeOptions v st :
  Capture.pendingApproval (Capture.set_scopeOptions v st) = Capture.pendingApproval st.
Proof. reflexivity. Qed.

Lemma pendingApproval_set_scopeEnabled v st :
  Capture.pendingApproval (Capture.set_scopeEnabled v st) = Capture.pendingApproval st.
Proof. reflexivity. Qed.

Lemma pendingApproval_set_selectedScopePath v st :
  Capture.pendingApproval (Capture.set_selectedScopePath v st) = Capture.pendingApproval st.
Proof. reflexivity. Qed.

Lemma pendingApproval_set_conversationId v st :
  Capture.pendingApproval (Capture.set_conversationId v st) = Capture.pendingApproval st.
Proof. reflexivity. Qed.

Lemma pendingApproval_set_messages v st :
  Capture.pendingApproval (Capture.set_messages v st) = Capture.pendingApproval st.
Proof. reflexivity. Qed.

Lemma pendingApproval_set_inputText v st :
  Capture.pendingApproval (Capture.set_inputText v st) = Capture.pendingApproval st.
Proof. reflexivity. Qed.

Lemma pendingApproval_set_isSubmitting v st :
  Capture.pendingApproval (Capture.set_isSubmitting v st) = Capture.pendingApproval st.
Proof. reflexivity. Qed.

Lemma pendingApproval_set_isProcessingTranscript v st :
  Capture.pendingApproval (Capture.set_isProcessingTranscript v st) = Capture.pendingApproval st.
Proof. reflexivity. Qed.

Lemma pendingApproval_set_error v st :
  Capture.pendingApproval (Capture.set_error v st) = Capture.pendingApproval st.
Proof. reflexivity. Qed.

Lemma pendingApproval_set_transcriptError v st :
  Capture.pendingApproval (Capture.set_transcriptError v st) = Capture.pendingApproval st.
Proof. reflexivity. Qed.

Lemma pendingApproval_set_activityStatus v st :
  Capture.pendingApproval (Capture.set_activityStatus v st) = Capture.pendingApproval st.
Proof. reflexivity. Qed.

Lemma pendingApproval_set_currentUserId v st :
  Capture.pendingApproval (Capture.set_currentUserId v st) = Capture.pendingApproval st.
Proof. reflexivity. Qed.

Lemma pendingApproval_set_clock v st :
  Capture.pendingApproval (Capture.set_clock v st) = Capture.pendingApproval st.
Proof. reflexivity. Qed.

Lemma pendingApproval_set_pendingApproval v st :
  Capture.pendingApproval (Capture.set_pendingApproval v st) = v.
Proof. reflexivity. Qed.

Lemma pendingApproval_updateMessage i u st :
  Capture.pendingApproval (Capture.updateMessage i u st) = Capture.pendingApproval st.
Proof. reflexivity. Qed.

Lemma pendingApproval_announce prefix who text streaming failed st :
  Capture.pendingApproval (Capture.announce prefix who text streaming failed st)
  = Capture.pendingApproval st.
Proof. reflexivity. Qed.

Lemma pendingApproval_applyConfiguredModelDefault P st :
  Capture.pendingApproval (Capture.applyConfiguredModelDefault P st)
  = Capture.pendingApproval st.
Proof.
  unfold Capture.applyConfiguredModelDefault.
  destruct (Capture.models st); [reflexivity|].
  destruct (Capture.parseConfiguredDefaultModelKey P); reflexivity.
Qed.

Lemma pendingApproval_applyConfiguredScopeDefault P st :
  Capture.pendingApproval (Capture.applyConfiguredScopeDefault P st)
  = Capture.pendingApproval st.
Proof.
  unfold Capture.applyConfiguredScopeDefault.
  repeat match goal with
         | |- context [match ?x with _ => _ end] => destruct x
         end; reflexivity.
Qed.

Create Rewrite HintDb capture_state.
#[global] Hint Rewrite pendingApproval_set_models
  pendingApproval_set_selectedModel
  pendingApproval_set_scopeOptions
  pendingApproval_set_scopeEnabled
  pendingApproval_set_selectedScopePath
  pendingApproval_set_conversationId
  pendingApproval_set_messages
  pendingApproval_set_inputText
  pendingApproval_set_isSubmitting
  pendingApproval_set_isProcessingTranscript
  pendingApproval_set_error
  pendingApproval_set_transcriptError
  pendingApproval_set_activityStatus
  pendingApproval_set_currentUserId
  pendingApproval_set_clock
  pendingApproval_set_pendingApproval pendingApproval_updateMessage
  pendingApproval_announce pendingApproval_applyConfiguredModelDefault
  pendingApproval_applyConfiguredScopeDefault : capture_state.

Section Approval.

Import Capture.



Variable JSON_parse : string -> option json.

Section Preservation.

Context {S : Type}.
Variable cb : CaptureService.Callbacks S.
Variable Q : S -> Prop.
Hypothesis Hcb : CaptureService.preserved_by cb Q.

Lemma on_line_preserves cid line st :
  Q st -> Q (CaptureService.on_line JSON_parse cb cid line st).
Proof.
  destruct Hcb as (Hchunk & Hid & Hmeta). intros HQ. unfold CaptureService.on_line.
  destruct (is_empty (CaptureService.payload_of line)
            || (CaptureService.payload_of line =? "[DONE]")%string); [exact HQ|].
  destruct (JSON_parse (CaptureService.payload_of line)) as [parsed|]; [|exact HQ].
  assert (H1 : forall r, r = (if truthy (get (Some parsed) "conversation_id")
                                 && CaptureService.absent cid
                              then CaptureService.onConversationId cb
                                     (ToString (get (Some parsed) "conversation_id")) st
                              else Resolved st) ->
                         match r with Resolved s => Q s | Rejected _ => True end).
  { intros r ->. destruct (truthy _ && _); [|exact HQ].
    destruct (CaptureService.onConversationId cb _ st) eqn:E; [|exact I]. eauto. }
  specialize (H1 _ eq_refl).
  destruct (if truthy (get (Some parsed) "conversation_id") && CaptureService.absent cid
            then _ else _) as [st1|]; [|exact HQ].
  destruct (CaptureService.is_metadata_event parsed).
  - destruct (CaptureService.onMetadataEvent cb parsed st1) eqn:E; eauto.
  - destruct (is_empty _); [exact H1|].
    destruct (CaptureService.onChunk cb _ st1) eqn:E; eauto.
Qed.

Lemma on_frames_preserves cid frames st :
  Q st -> Q (CaptureService.on_frames JSON_parse cb cid frames st).
Proof.
  unfold CaptureService.on_frames. revert st.
  induction frames as [|frame frames IH]; intros st HQ; simpl; [exact HQ|].
  apply IH. unfold CaptureService.on_frame.
  generalize (CaptureService.lines_of frame) as lines. intros lines. revert st HQ.
  induction lines as [|line lines IHl]; intros st HQ; simpl; [exact HQ|].
  apply IHl. now apply on_line_preserves.
Qed.

Lemma on_response_preserves cid payload st :
  Q st -> Q (fst (CaptureService.on_response cb cid payload st)).
Proof.
  destruct Hcb as (Hchunk & Hid & Hmeta). intros HQ. unfold CaptureService.on_response.
  repeat match goal with
         | |- context [CaptureService.onConversationId cb ?i ?s] =>
             let E := fresh "E" in
             destruct (CaptureService.onConversationId cb i s) eqn:E;
             [apply Hid in E; [|assumption]|]
         | |- context [CaptureService.onMetadataEvent cb ?e ?s] =>
             let E := fresh "E" in
             destruct (CaptureService.onMetadataEvent cb e s) eqn:E;
             [apply Hmeta in E; [|assumption]|]
         | |- context [CaptureService.onChunk cb ?t ?s] =>
             let E := fresh "E" in
             destruct (CaptureService.onChunk cb t s) eqn:E;
             [apply Hchunk in E; [|assumption]|]
         | |- context [if ?b then _ else _] => destruct b
         | |- context [match get payload "approval_request" with _ => _ end] =>
             destruct (get payload "approval_request")
         end; simpl; assumption.
Qed.

Lemma service_sendPrompt_preserves api uid options st :
  Q st ->
  Q (CaptureService.state_after (CaptureService.sendPrompt JSON_parse cb api uid options st)).
Proof.
  intros HQ. unfold CaptureService.sendPrompt.
  destruct (CaptureService.ensureApi api) as [a|]; [|exact HQ].
  destruct (CaptureService.initializeUserId a uid) as [reqs0 uid'].
  destruct (api_post a) as [post|]; [|exact HQ].
  destruct (if CaptureService.useStreaming options then api_postStreaming a else None)
    as [stream|].
  - destruct (stream _ _) as [frames settled]. simpl. now apply on_frames_preserves.
  - destruct (post _ _) as [response|]; [|exact HQ].
    pose proof (on_response_preserves (CaptureService.conversationId options)
                  (CaptureService.normalizeApiPayload response) st HQ) as H.
    destruct (CaptureService.on_response cb _ _ st). exact H.
Qed.

End Preservation.





End Approval.




(** An approval request that arrives while another is held takes its
    place. *)
Lemma approval_request_replaces (event : json) (st : Capture.LibraryCaptureState)
      (tool : string) :
  get (Some event) "type" = Some (JString "approval_request") ->
  get (Some event) "tool" = Some (JString tool) ->
  trim tool <> EmptyString ->
  exists st' held,
    Capture.handleMetadataEvent event st = Resolved st'
    /\ Capture.pendingApproval st' = Some held
    /\ Capture.tool held = trim tool
    /\ Capture.status held = Capture.pending
    /\ Capture.pending_count st' = 1.
Proof.
  intros Htype Htool Hne.
  destruct event as [| | | | |fields]; try discriminate Htype.
  destruct tool as [|c tool]; [exfalso; apply Hne; reflexivity|].
  destruct (trim (String c tool)) as [|a rest] eqn:E; [congruence|].
  unfold Capture.handleMetadataEvent. rewrite Htype.
  simpl as_string. cbv iota. simpl String.eqb. cbv iota. simpl orb. cbv iota.
  unfold Capture.string_or. rewrite Htool. simpl Json.or. simpl ToString. rewrite E.
  do 2 eexists. split; [reflexivity|].
  unfold Capture.pending_count. autorewrite with capture_state.
  repeat split.
Qed.

(** ** Transcript upload *)

Lemma append_assoc (a b c : string) : ((a ++ b) ++ c = a ++ (b ++ c))%string.
Proof. induction a as [|x a IH]; simpl; [reflexivity|now rewrite IH]. Qed.

Lemma take_length (n : nat) (s : string) :
  String.length (take n s) = Nat.min n (String.length s).
Proof.
  revert s. induction n as [|n IH]; intros s; [reflexivity|].
  destruct s as [|c s]; simpl; [reflexivity|]. now rewrite IH.
Qed.

Lemma transcript_prompt_header (fileName dateIso source : string)
      (scopePath : option string) (text : string) :
  Capture.transcript_prompt fileName dateIso source scopePath text
  = (Capture.transcript_header fileName dateIso source scopePath ++ text)%string.
Proof.
  unfold Capture.transcript_header, Capture.transcript_prompt. cbn [join].
  rewrite !append_assoc. reflexivity.
Qed.

Lemma transcript_limit_value : N.of_nat Capture.transcript_limit = 12000%N.
Proof. vm_compute. reflexivity. Qed.

(** C9, as amended.  The text the prompt is built from is the extracted
    text with the white space at its ends trimmed away.  When the
    trimmed text is longer than 12,000 characters the prompt ends with
    its first 12,000 characters followed by the truncation marker; when
    it has 12,000 characters or fewer the prompt ends with the trimmed
    text itself; when it is empty the upload fails: no prompt is sent
    and the transcript error is set. *)
Theorem transcript_truncated_after_trim
        (JSON_parse : string -> option json) (P : Capture.Props) (file : File)
        (dateIso : string) (st : Capture.LibraryCaptureState)
        (reqs : list request) (processed : json) (extracted : string) :
  CaptureService.processDocument (Capture.api P) file = (reqs, Resolved processed) ->
  get (Some processed) "extracted_text" = Some (JString extracted) ->
  let text := trim extracted in
  let header :=
    Capture.transcript_header (file_name file) dateIso (Capture.getDefaultTranscriptSource P)
      (if Capture.scopeEnabled st then Capture.selectedScopePath st else None) in
  let prepared := snd (Capture.prepare_transcript P file dateIso st) in
  let upload := Capture.handleTranscriptSelected JSON_parse P (Some file) dateIso st in
  ((12000 < N.of_nat (String.length text))%N ->
   prepared
   = Resolved (header ++ take Capture.transcript_limit text
                      ++ newline ++ newline ++ "[TRUNCATED]")%string
   /\ N.of_nat (String.length (take Capture.transcript_limit text)) = 12000%N)
  /\ (text <> EmptyString -> (N.of_nat (String.length text) <= 12000)%N ->
      prepared = Resolved (header ++ text)%string)
  /\ (text = EmptyString ->
      prepared
      = Rejected (ErrorObj "No transcript text was extracted from the uploaded file.")
      /\ snd upload = reqs
      /\ Capture.transcriptError (fst upload)
         = Some "No transcript text was extracted from the uploaded file.").
Proof.
  intros Hdoc Htext. cbv zeta.
  pose proof transcript_limit_value as Hlimit.
  assert (Hprep : Capture.prepare_transcript P file dateIso st
                  = (reqs,
                     if is_empty (trim extracted)
                     then Rejected
                            (ErrorObj "No transcript text was extracted from the uploaded file.")
                     else Resolved
                            (Capture.transcript_prompt (file_name file) dateIso
                               (Capture.getDefaultTranscriptSource P)
                               (if Capture.scopeEnabled st
                                then Capture.selectedScopePath st else None)
                               (Capture.truncate_transcript (trim extracted))))).
  { unfold Capture.prepare_transcript. rewrite Hdoc. unfold bind. cbv beta iota zeta.
    unfold Capture.string_or. rewrite Htext.
    destruct extracted as [|c extracted]; reflexivity. }
  split; [|split].
  - intros Hlong. rewrite Hprep. simpl snd.
    destruct (trim extracted) as [|c text] eqn:E; [simpl in Hlong; lia|].
    simpl is_empty. cbv iota. rewrite transcript_prompt_header.
    unfold Capture.truncate_transcript.
    destruct (Nat.ltb_spec Capture.transcript_limit (String.length (String c text)))
      as [Hlt|Hge]; [|lia].
    split; [reflexivity|]. rewrite take_length. lia.
  - intros Hne Hshort. rewrite Hprep. simpl snd.
    destruct (trim extracted) as [|c text] eqn:E; [congruence|].
    simpl is_empty. cbv iota. rewrite transcript_prompt_header.
    unfold Capture.truncate_transcript.
    destruct (Nat.ltb_spec Capture.transcript_limit (String.length (String c text)))
      as [Hlt|Hge]; [lia|reflexivity].
  - intros Hempty. unfold Capture.handleTranscriptSelected.
    assert (Hprep' : forall st0, Capture.scopeEnabled st0 = Capture.scopeEnabled st ->
                       Capture.selectedScopePath st0 = Capture.selectedScopePath st ->
                       Capture.prepare_transcript P file dateIso st0
                       = Capture.prepare_transcript P file dateIso st).
    { intros st0 H1 H2. unfold Capture.prepare_transcript. now rewrite H1, H2. }
    rewrite (Hprep' (Capture.set_transcriptError None
                       (Capture.set_isProcessingTranscript true st))) by reflexivity.
    rewrite Hprep, Hempty. simpl.
    repeat split. now rewrite app_nil_r.
Qed.

(** C9, witness: a short transcript is carried whole, without its
    surrounding blanks. *)
Lemma transcript_truncated_after_trim_witness :
  snd (Capture.prepare_transcript
         (Samples.props None (Some (Samples.plain_service (Samples.extraction "  notes  "))))
         Samples.minutes "2026-01-01" (Samples.ready (Samples.props None None)))
  = Resolved
      (Capture.transcript_header "minutes.txt" "2026-01-01" "capture-upload" None ++ "notes")%string.
Proof.
  refine (proj1 (proj2
    (transcript_truncated_after_trim parse
       (Samples.props None (Some (Samples.plain_service (Samples.extraction "  notes  "))))
       Samples.minutes "2026-01-01" (Samples.ready (Samples.props None None))
       [Post "/api/v1/documents/process" (BodyForm Samples.minutes)]
       (JObject [("processing_success", JBool true); ("extracted_text", JString "  notes  ")])
       "  notes  " _ _)) _ _).
  - reflexivity.
  - reflexivity.
  - vm_compute. discriminate.
  - vm_compute. discriminate.
Defined.

(** C9, counterexample.  An extracted text of 12,001 characters whose
    last character is a line feed is longer than 12,000 characters, yet
    the prompt carries its 12,000 letters and no truncation marker. *)
Lemma transcript_with_final_newline_not_truncated :
  N.of_nat (String.length Samples.long_transcript) = 12001%N
  /\ exists prompt,
       snd (Capture.prepare_transcript
              (Samples.props None
                 (Some (Samples.plain_service (Samples.extraction Samples.long_transcript))))
              Samples.minutes "2026-01-01" (Samples.ready (Samples.props None None)))
       = Resolved prompt
       /\ includes "[TRUNCATED]" prompt = false
       /\ prompt
          = (Capture.transcript_header "minutes.txt" "2026-01-01" "capture-upload" None
             ++ JsString.repeat "a" Capture.transcript_limit)%string.
Proof.
  split; [vm_compute; reflexivity|].
  eexists. split; [vm_compute; reflexivity|].
  split; vm_compute; reflexivity.
Qed.

(** ** The fallback prompt *)

(** C10.  When the API service is bound and offers [post], a call of the
    service's [sendPrompt] with an empty or blank prompt still issues
    the chat request, after the requests of the user lookup, and the
    one message of that request has the content [Continue.]. *)
Theorem blank_prompt_sends_continue
        (JSON_parse : string -> option json) (S : Type) (cb : CaptureService.Callbacks S)
        (api : ApiService) (post : string -> body -> result (option json))
        (userId : option string) (options : CaptureService.SendCapturePromptOptions) (st : S) :
  api_post api = Some post ->
  trim (CaptureService.prompt options) = EmptyString ->
  exists payload,
    (CaptureService.requests (CaptureService.sendPrompt JSON_parse cb (Some api) userId options st)
     = (fst (CaptureService.initializeUserId api userId)
        ++ [Post CaptureService.chat_url (BodyJson payload)])%list
     \/ CaptureService.requests
          (CaptureService.sendPrompt JSON_parse cb (Some api) userId options st)
        = (fst (CaptureService.initializeUserId api userId)
           ++ [PostStreaming CaptureService.chat_url (BodyJson payload)])%list)
    /\ get (Some payload) "messages"
       = Some (JArray [JObject [("role", JString "user");
                                ("content", JString "Continue.")]]).
Proof.
  intros Hpost Hblank.
  exists (CaptureService.requestPayload options
            (snd (CaptureService.initializeUserId api userId))).
  split.
  - unfold CaptureService.sendPrompt. simpl CaptureService.ensureApi. cbv iota.
    destruct (CaptureService.initializeUserId api userId) as [reqs0 uid]. rewrite Hpost.
    simpl fst. simpl snd.
    destruct (if CaptureService.useStreaming options then api_postStreaming api else None)
      as [stream|].
    + destruct (stream _ _) as [frames settled]. right. reflexivity.
    + destruct (post _ _) as [response|e]; [|left; reflexivity].
      destruct (CaptureService.on_response cb _ _ st). left. reflexivity.
  - unfold CaptureService.requestPayload. rewrite Hblank.
    destruct (as_string (get (CaptureService.pageContext options) "pageId")); reflexivity.
Qed.

(** C10, witness: a prompt of blanks. *)
Lemma blank_prompt_sends_continue_witness :
  exists payload,
    In (PostStreaming CaptureService.chat_url (BodyJson payload))
       (CaptureService.requests
          (CaptureService.sendPrompt parse CaptureService.recorder
             (Some (Samples.service Samples.scenario_frames None)) None
             (Samples.options "   " true) []))
    /\ get (Some payload) "messages"
       = Some (JArray [JObject [("role", JString "user");
                                ("content", JString "Continue.")]]).
Proof.
  destruct (blank_prompt_sends_continue parse _ CaptureService.recorder
              (Samples.service Samples.scenario_frames None)
              (fun _ _ => Resolved None) None (Samples.options "   " true) []
              eq_refl eq_refl) as (payload & [Hreq|Hreq] & Hmsg).
  - vm_compute in Hreq. discriminate.
  - exists payload. split; [|exact Hmsg]. rewrite Hreq. apply in_or_app. right. now left.
Defined.

(** * Further properties *)

(** ** Characters and trimming *)

Lemma lower_char_whitespace (c : ascii) :
  is_whitespace (lower_char c) = is_whitespace c.
Proof. destruct c as [[] [] [] [] [] [] [] []]; reflexivity. Qed.

Lemma alnum_not_whitespace (c : ascii) :
  is_lower_alnum c = true -> is_whitespace c = false.
Proof. destruct c as [[] [] [] [] [] [] [] []]; simpl; intros H; try reflexivity; discriminate. Qed.

Lemma alnum_lower (c : ascii) : is_lower_alnum c = true -> lower_char c = c.
Proof. destruct c as [[] [] [] [] [] [] [] []]; simpl; intros H; try reflexivity; discriminate. Qed.

Lemma alnum_not_hyphen (c : ascii) : is_lower_alnum c = true -> is_hyphen c = false.
Proof. destruct c as [[] [] [] [] [] [] [] []]; simpl; intros H; try reflexivity; discriminate. Qed.

Lemma hyphen_is (c : ascii) : is_hyphen c = true -> c = "-"%char.
Proof. unfold is_hyphen. apply Ascii.eqb_eq. Qed.

Lemma trim_idem (s : string) : trim (trim s) = trim s.
Proof.
  unfold trim. rewrite drop_while_stable. apply drop_while_end_idem.
Qed.

Lemma trimmed_parts (s : string) :
  trim s = s ->
  drop_while is_whitespace s = s /\ drop_while_end is_whitespace s = s.
Proof.
  intros H.
  assert (E : drop_while is_whitespace s = s).
  { apply drop_while_full.
    pose proof (drop_while_end_length is_whitespace (drop_while is_whitespace s)).
    pose proof (drop_while_length is_whitespace s).
    unfold trim in H. rewrite H in *. lia. }
  split; [exact E|]. unfold trim in H. now rewrite E in H.
Qed.

Lemma toLowerCase_length (s : string) : String.length (toLowerCase s) = String.length s.
Proof. induction s; simpl; congruence. Qed.

Lemma is_empty_true (s : string) : is_empty s = true <-> s = EmptyString.
Proof. destruct s; simpl; split; congruence. Qed.

Lemma is_empty_false (s : string) : is_empty s = false <-> s <> EmptyString.
Proof. destruct s; simpl; split; congruence. Qed.

Lemma or_else_nonempty (a b : string) : b <> EmptyString -> or_else a b <> EmptyString.
Proof. unfold or_else. destruct a; simpl; [auto|discriminate]. Qed.

(** ** Slugs *)

Lemma slug_like_weaken (s : string) : slug_like true s = true -> slug_like false s = true.
Proof.
  destruct s as [|c s]; simpl; [reflexivity|].
  destruct (is_hyphen c); [discriminate|auto].
Qed.

Lemma slug_like_replace (b : bool) (s : string) :
  slug_like b (replace_runs (fun c => negb (is_lower_alnum c)) "-" b s) = true.
Proof.
  revert b. induction s as [|c s IH]; intros b; simpl; [reflexivity|].
  destruct (is_lower_alnum c) eqn:Ec; simpl.
  - rewrite (alnum_not_hyphen c Ec), Ec. simpl. apply IH.
  - destruct b; simpl; apply IH.
Qed.

Lemma slug_like_no_lead (s : string) :
  slug_like true s = true -> drop_while is_hyphen s = s.
Proof.
  destruct s as [|c s]; simpl; [reflexivity|].
  destruct (is_hyphen c); [discriminate|reflexivity].
Qed.

Lemma slug_like_drop_while (s : string) :
  slug_like false s = true -> slug_like true (drop_while is_hyphen s) = true.
Proof.
  destruct s as [|c s]; simpl; [reflexivity|].
  destruct (is_hyphen c) eqn:Ec; simpl.
  - intros H. rewrite (slug_like_no_lead s H). exact H.
  - rewrite Ec. auto.
Qed.

Lemma slug_like_drop_while_end (b : bool) (s : string) :
  slug_like b s = true -> slug_like b (drop_while_end is_hyphen s) = true.
Proof.
  revert b. induction s as [|c s IH]; intros b; simpl; [reflexivity|].
  destruct (is_hyphen c) eqn:Ec.
  - intros H. apply andb_true_iff in H as [Hb Hs]. specialize (IH true Hs).
    destruct (drop_while_end is_hyphen s) as [|d r]; [reflexivity|].
    simpl slug_like at 1. rewrite Ec, Hb. exact IH.
  - intros H. apply andb_true_iff in H as [Hc Hs]. specialize (IH false Hs).
    destruct (drop_while_end is_hyphen s) as [|d r]; simpl; rewrite Ec, Hc; [reflexivity|].
    exact IH.
Qed.

Lemma slug_like_hyphen_runs (b : bool) (s : string) :
  slug_like b s = true -> replace_runs is_hyphen "-" b s = s.
Proof.
  revert b. induction s as [|c s IH]; intros b; simpl; [reflexivity|].
  destruct (is_hyphen c) eqn:Ec.
  - intros H. apply andb_true_iff in H as [Hb Hs]. apply negb_true_iff in Hb. subst b.
    simpl. rewrite (IH true Hs). now rewrite (hyphen_is c Ec).
  - intros H. apply andb_true_iff in H as [_ Hs]. now rewrite (IH false Hs).
Qed.

Lemma slug_like_other_runs (b : bool) (s : string) :
  slug_like b s = true ->
  replace_runs (fun c => negb (is_lower_alnum c)) "-" b s = s.
Proof.
  revert b. induction s as [|c s IH]; intros b; simpl; [reflexivity|].
  destruct (is_hyphen c) eqn:Ec.
  - intros H. apply andb_true_iff in H as [Hb Hs]. apply negb_true_iff in Hb. subst b.
    rewrite (hyphen_is c Ec). simpl. rewrite (IH true Hs). reflexivity.
  - intros H. apply andb_true_iff in H as [Hc Hs]. rewrite Hc. simpl.
    now rewrite (IH false Hs).
Qed.

Lemma slug_like_lower (b : bool) (s : string) :
  slug_like b s = true -> toLowerCase s = s.
Proof.
  revert b. induction s as [|c s IH]; intros b; simpl; [reflexivity|].
  destruct (is_hyphen c) eqn:Ec.
  - intros H. apply andb_true_iff in H as [_ Hs].
    rewrite (hyphen_is c Ec). simpl. f_equal. eapply IH; eauto.
  - intros H. apply andb_true_iff in H as [Hc Hs].
    rewrite (alnum_lower c Hc). f_equal. eapply IH; eauto.
Qed.

Lemma slug_like_no_whitespace (b : bool) (s : string) :
  slug_like b s = true -> none_of is_whitespace s = true.
Proof.
  revert b. induction s as [|c s IH]; intros b; simpl; [reflexivity|].
  destruct (is_hyphen c) eqn:Ec.
  - intros H. apply andb_true_iff in H as [_ Hs].
    rewrite (hyphen_is c Ec). simpl. eapply IH; eauto.
  - intros H. apply andb_true_iff in H as [Hc Hs].
    rewrite (alnum_not_whitespace c Hc). simpl. eapply IH; eauto.
Qed.

Lemma slugify_inner (value : string) :
  let inner :=
    drop_while_end is_hyphen
      (drop_while is_hyphen
         (replace_runs (fun c => negb (is_lower_alnum c)) "-" false
            (toLowerCase (trim value)))) in
  slug_like true inner = true /\ CaptureService.slugify value = inner.
Proof.
  cbv zeta.
  assert (H : slug_like true
                (drop_while_end is_hyphen
                   (drop_while is_hyphen
                      (replace_runs (fun c => negb (is_lower_alnum c)) "-" false
                         (toLowerCase (trim value))))) = true).
  { apply slug_like_drop_while_end, slug_like_drop_while, slug_like_replace. }
  split; [exact H|]. unfold CaptureService.slugify.
  apply slug_like_hyphen_runs. now apply slug_like_weaken.
Qed.

(** X1.  A slug consists of the characters [[a-z0-9]] and of single
    hyphens, and has no hyphen at either end. *)
Theorem slugify_shape (value : string) :
  slug_like true (CaptureService.slugify value) = true
  /\ drop_while_end is_hyphen (CaptureService.slugify value) = CaptureService.slugify value.
Proof.
  destruct (slugify_inner value) as [H E]. rewrite E. split; [exact H|].
  apply drop_while_end_idem.
Qed.

Lemma slugify_fixed (s : string) :
  slug_like true s = true -> drop_while_end is_hyphen s = s -> CaptureService.slugify s = s.
Proof.
  intros H Hend. unfold CaptureService.slugify.
  assert (Ht : trim s = s).
  { pose proof (slug_like_no_whitespace true s H) as Hw. unfold trim.
    rewrite (drop_while_none is_whitespace s Hw).
    now apply drop_while_end_none. }
  rewrite Ht, (slug_like_lower true s H).
  rewrite (slug_like_other_runs false s (slug_like_weaken s H)).
  rewrite (slug_like_no_lead s H), Hend.
  apply slug_like_hyphen_runs. now apply slug_like_weaken.
Qed.

(** X2.  Making a slug of a slug changes nothing. *)
Theorem slugify_idempotent (value : string) :
  CaptureService.slugify (CaptureService.slugify value) = CaptureService.slugify value.
Proof.
  destruct (slugify_inner value) as [H E].
  apply slugify_fixed; rewrite E; [exact H|apply drop_while_end_idem].
Qed.

(** ** Scope options *)

Lemma slugify_slug_like (value : string) :
  slug_like true (CaptureService.slugify value) = true.
Proof. destruct (slugify_inner value) as [H E]. now rewrite E. Qed.

Lemma startsWith_append (p s : string) : startsWith p (p ++ s) = true.
Proof.
  unfold startsWith. induction p as [|c p IH]; simpl.
  - now destruct s.
  - destruct (ascii_dec c c) as [_|N]; [exact IH|congruence].
Qed.

Lemma scope_prefix_root (root : ScopeRoot) (s : string) :
  startsWith (match root with Life => "life/" | Projects => "projects/" end)
             (CaptureService.scope_prefix root ++ s) = true.
Proof.
  destruct root.
  - apply (startsWith_append "projects/" ("active/" ++ s)).
  - apply (startsWith_append "life/" s).
Qed.

(** X3.  A scope option built from a raw entry has a non-empty slug of
    the slug shape, a non-empty name, the root it was built for, and a
    path under that root: [life/...] for a life scope, [projects/...]
    for a project scope. *)
Theorem normalizeScopeOption_sound (raw : option json) (root : ScopeRoot)
        (scope : ScopeOption) :
  CaptureService.normalizeScopeOption raw root = Some scope ->
  slug scope <> EmptyString
  /\ slug_like true (slug scope) = true
  /\ scope_name scope <> EmptyString
  /\ scope_root scope = Some root
  /\ startsWith (match root with Life => "life/" | Projects => "projects/" end)
                (path scope) = true.
Proof.
  unfold CaptureService.normalizeScopeOption.
  assert (Hgen : forall r,
    (if negb (is_objectlike r) then None
     else
       let candidatePath :=
         CaptureService.normalizeScopePath
           (CaptureService.text_or (Json.or (get r "path") (get r "scope_path")) EmptyString) in
       let candidateSlug :=
         CaptureService.slugify
           (CaptureService.text_or
              (Json.or (Json.or (Json.or (get r "slug") (get r "topic")) (get r "name"))
                       (Some (JString (if is_empty candidatePath then EmptyString
                                       else CaptureService.last_part "/" candidatePath))))
              EmptyString) in
       if is_empty candidateSlug then None
       else
         let normalizedPath :=
           if is_empty candidatePath then CaptureService.scope_prefix root ++ candidateSlug
           else candidatePath in
         let normalizedPath :=
           match root with
           | Life =>
               if negb (startsWith "life/" normalizedPath)
               then "life/" ++ candidateSlug else normalizedPath
           | Projects =>
               if negb (startsWith "projects/" normalizedPath)
               then "projects/active/" ++ candidateSlug else normalizedPath
           end in
         Some {| scope_name :=
                   or_else
                     (trim (CaptureService.text_or (Json.or (get r "name") (get r "topic"))
                                                   candidateSlug))
                     candidateSlug;
                 slug := candidateSlug;
                 lifecycle := CaptureService.text_or (get r "lifecycle") "active";
                 path := normalizedPath;
                 scope_root := Some root;
                 has_agent_md := CaptureService.to_bool (get r "has_agent_md");
                 has_spec := CaptureService.to_bool (get r "has_spec");
                 has_build_plan := CaptureService.to_bool (get r "has_build_plan");
                 has_decisions := CaptureService.to_bool (get r "has_decisions") |})
    = Some scope ->
    slug scope <> EmptyString
    /\ slug_like true (slug scope) = true
    /\ scope_name scope <> EmptyString
    /\ scope_root scope = Some root
    /\ startsWith (match root with Life => "life/" | Projects => "projects/" end)
                  (path scope) = true).
  { intros r Hr. cbv zeta in Hr.
    destruct (negb (is_objectlike r)); [discriminate|].
    match type of Hr with
    | context [is_empty (CaptureService.slugify ?x)] =>
        pose proof (slugify_slug_like x) as Hshape;
        destruct (CaptureService.slugify x) as [|c rest] eqn:Eslug
    end; [discriminate|].
    simpl is_empty in Hr. cbv iota in Hr. inversion Hr; subst scope; clear Hr. simpl.
    repeat split.
    - discriminate.
    - exact Hshape.
    - apply or_else_nonempty. discriminate.
    - destruct root;
        match goal with
        | |- context [negb (startsWith ?p ?x)] => destruct (startsWith p x) eqn:E
        end; simpl; solve [exact E | reflexivity]. }
  intros H. destruct raw as [[| | |text| |]|]; try (match type of H with
         | context [is_objectlike ?r] => exact (Hgen r H)
         end).
  pose proof (slugify_slug_like text) as Hshape.
  destruct (CaptureService.slugify text) as [|c rest] eqn:Eslug; [discriminate|].
  simpl is_empty in H. cbv iota in H. inversion H; subst scope; clear H. simpl.
  repeat split.
  - discriminate.
  - exact Hshape.
  - apply or_else_nonempty. discriminate.
  - apply scope_prefix_root.
Qed.

(** X3, witness: a life scope given as the bare string [ My Topic! ]. *)
Lemma normalizeScopeOption_sound_witness :
  startsWith "life/" (path Samples.my_topic) = true.
Proof.
  refine (proj2 (proj2 (proj2 (proj2
    (normalizeScopeOption_sound (Some (JString " My Topic! ")) Life Samples.my_topic _))))).
  vm_compute. reflexivity.
Defined.

(** ** The catalogue loaders *)

Lemma try_life_endpoints_first (api : ApiService) (before : list string) (e : string)
      (after : list string) :
  (forall u, In u before -> CaptureService.endpoint_values api u = []) ->
  CaptureService.endpoint_values api e <> [] ->
  CaptureService.try_life_endpoints api (before ++ e :: after)
  = (map Get (before ++ [e]),
     CaptureService.scope_options (CaptureService.endpoint_values api e) Life).
Proof.
  intros Hbefore He. induction before as [|u before IH]; simpl.
  - destruct (CaptureService.endpoint_values api e); [congruence|reflexivity].
  - rewrite (Hbefore u (or_introl eq_refl)).
    rewrite IH; [reflexivity|]. intros v Hv. apply Hbefore. now right.
Qed.

Lemma try_life_endpoints_none (api : ApiService) (endpoints : list string) :
  (forall u, In u endpoints -> CaptureService.endpoint_values api u = []) ->
  CaptureService.try_life_endpoints api endpoints = (map Get endpoints, []).
Proof.
  induction endpoints as [|u endpoints IH]; simpl; intros H; [reflexivity|].
  rewrite (H u (or_introl eq_refl)).
  rewrite IH; [reflexivity|]. intros v Hv. apply H. now right.
Qed.

(** X4.  With an API service bound, [loadLifeScopes] never rejects.  It
    asks the candidate endpoints in order and stops at the first that
    answers with a non-empty list, whose entries it returns as life
    scopes; an endpoint that fails counts as one that answered with
    nothing, and when none answers the result is the empty list, after
    all the candidates were asked. *)
Theorem loadLifeScopes_first_answer (api : ApiService) :
  (forall before e after,
      CaptureService.LIBRARY_LIFE_ENDPOINT_CANDIDATES = (before ++ e :: after)%list ->
      (forall u, In u before -> CaptureService.endpoint_values api u = []) ->
      CaptureService.endpoint_values api e <> [] ->
      CaptureService.loadLifeScopes (Some api)
      = (map Get (before ++ [e]),
         Resolved (CaptureService.scope_options (CaptureService.endpoint_values api e) Life)))
  /\ ((forall u, In u CaptureService.LIBRARY_LIFE_ENDPOINT_CANDIDATES ->
                 CaptureService.endpoint_values api u = []) ->
      CaptureService.loadLifeScopes (Some api)
      = (map Get CaptureService.LIBRARY_LIFE_ENDPOINT_CANDIDATES, Resolved []))
  /\ (exists found, snd (CaptureService.loadLifeScopes (Some api)) = Resolved found).
Proof.
  unfold CaptureService.loadLifeScopes. split; [|split].
  - intros before e after Hsplit Hbefore He. rewrite Hsplit.
    now rewrite (try_life_endpoints_first api before e after Hbefore He).
  - intros Hnone. now rewrite (try_life_endpoints_none api _ Hnone).
  - destruct (CaptureService.try_life_endpoints api _) as [reqs found]. now exists found.
Qed.

(** X4, witness: the first endpoint fails, the second answers. *)
Lemma loadLifeScopes_first_answer_witness :
  CaptureService.loadLifeScopes (Some Samples.life_service)
  = ([Get "/api/v1/plugin-api/braindrive-library/library/life";
      Get "/api/v1/plugin-api/braindrive-library/library/projects?path=life"],
     Resolved [Samples.my_topic]).
Proof.
  refine (proj1 (loadLifeScopes_first_answer Samples.life_service)
            ["/api/v1/plugin-api/braindrive-library/library/life"]
            "/api/v1/plugin-api/braindrive-library/library/projects?path=life"
            ["/api/v1/plugin-api/braindrive-library/library/projects?scope=life"] _ _ _).
  - reflexivity.
  - intros u [<-|[]]. reflexivity.
  - vm_compute. discriminate.
Defined.

Lemma in_somes {A B : Type} (f : A -> option B) (l : list A) (b : B) :
  In b (CaptureService.somes (map f l)) -> exists a, In a l /\ f a = Some b.
Proof.
  induction l as [|a l IH]; simpl; [tauto|].
  destruct (f a) as [b'|] eqn:E.
  - intros [<-|H]; [exists a; auto|].
    destruct (IH H) as (a' & Ha & Hf). exists a'. auto.
  - intros H. destruct (IH H) as (a' & Ha & Hf). exists a'. auto.
Qed.

(** X5.  No model that [loadModels] returns is an embedding model or
    has an empty name: the name is trimmed and non-empty and does not
    contain [embed], whatever its case; provider, server id and server
    name are never empty. *)
Theorem loadModels_chat_models_only (api : option ApiService)
        (models : list CaptureService.MappedModel) (model : CaptureService.MappedModel) :
  snd (CaptureService.loadModels api) = Resolved models ->
  In model models ->
  CaptureService.mapped_name model <> EmptyString
  /\ trim (CaptureService.mapped_name model) = CaptureService.mapped_name model
  /\ includes "embed" (toLowerCase (CaptureService.mapped_name model)) = false
  /\ CaptureService.mapped_provider model <> EmptyString
  /\ CaptureService.mapped_serverId model <> EmptyString
  /\ CaptureService.mapped_serverName model <> EmptyString.
Proof.
  unfold CaptureService.loadModels. destruct api as [api|]; [|discriminate]. simpl.
  destruct (api_get api _) as [response|]; [|discriminate]. simpl.
  intros H Hin. inversion H; subst models; clear H.
  apply in_somes in Hin as (entry & _ & Hmap).
  unfold CaptureService.map_model in Hmap. cbv zeta in Hmap.
  match type of Hmap with
  | context [is_empty (trim ?x)] =>
      pose proof (trim_idem x) as Htrim; destruct (trim x) as [|c rest] eqn:Ename
  end; [discriminate|].
  cbn [is_empty] in Hmap.
  destruct (includes "embed" (toLowerCase (String c rest))) eqn:Eembed;
    [cbn [orb] in Hmap; discriminate|].
  destruct (includes "embedding" (toLowerCase (String c rest)));
    cbn [orb] in Hmap; [discriminate|].
  inversion Hmap; subst model; clear Hmap. simpl.
  repeat split; try discriminate; try exact Htrim; try exact Eembed;
    apply or_else_nonempty; discriminate.
Qed.

(** X5, witness: of a chat model, an embedding model and a nameless
    entry only the first is returned. *)
Lemma loadModels_chat_models_only_witness :
  snd (CaptureService.loadModels (Some (Samples.plain_service Samples.models_answer)))
  = Resolved [Samples.llama3_mapped]
  /\ includes "embed" (toLowerCase (CaptureService.mapped_name Samples.llama3_mapped)) = false.
Proof.
  split; [vm_compute; reflexivity|].
  refine (proj1 (proj2 (proj2
    (loadModels_chat_models_only (Some (Samples.plain_service Samples.models_answer))
       [Samples.llama3_mapped] Samples.llama3_mapped _ _)))).
  - vm_compute. reflexivity.
  - now left.
Defined.

(** ** The requests of [sendPrompt] *)

Lemma sendPrompt_requests
      (JSON_parse : string -> option json) (S : Type) (cb : CaptureService.Callbacks S)
      (api : ApiService) (post : string -> body -> result (option json))
      (userId : option string) (options : CaptureService.SendCapturePromptOptions) (st : S) :
  api_post api = Some post ->
  let sent := CaptureService.sendPrompt JSON_parse cb (Some api) userId options st in
  let lookup := CaptureService.initializeUserId api userId in
  let payload := BodyJson (CaptureService.requestPayload options (snd lookup)) in
  CaptureService.userId_after sent = snd lookup
  /\ (CaptureService.requests sent = (fst lookup ++ [Post CaptureService.chat_url payload])%list
      \/ CaptureService.requests sent
         = (fst lookup ++ [PostStreaming CaptureService.chat_url payload])%list).
Proof.
  intros Hpost. unfold CaptureService.sendPrompt. simpl CaptureService.ensureApi. cbv iota.
  destruct (CaptureService.initializeUserId api userId) as [reqs0 uid]. rewrite Hpost.
  simpl fst. simpl snd.
  destruct (if CaptureService.useStreaming options then api_postStreaming api else None)
    as [stream|].
  - destruct (stream _ _) as [frames settled]. split; [reflexivity|]. right. reflexivity.
  - destruct (post _ _) as [response|e]; [|split; [reflexivity|left; reflexivity]].
    destruct (CaptureService.on_response cb _ _ st). split; [reflexivity|left; reflexivity].
Qed.

Lemma sendPrompt_without_post
      (JSON_parse : string -> option json) (S : Type) (cb : CaptureService.Callbacks S)
      (api : ApiService) (userId : option string)
      (options : CaptureService.SendCapturePromptOptions) (st : S) :
  api_post api = None ->
  CaptureService.sendPrompt JSON_parse cb (Some api) userId options st
  = {| CaptureService.requests := fst (CaptureService.initializeUserId api userId);
       CaptureService.state_after := st;
       CaptureService.outcome :=
         Rejected (ErrorObj "API service does not support POST requests.");
       CaptureService.userId_after := snd (CaptureService.initializeUserId api userId) |}.
Proof.
  intros Hpost. unfold CaptureService.sendPrompt. simpl CaptureService.ensureApi. cbv iota.
  destruct (CaptureService.initializeUserId api userId) as [reqs0 uid]. now rewrite Hpost.
Qed.

Lemma requestPayload_user_id (options : CaptureService.SendCapturePromptOptions)
      (uid : option string) :
  get (Some (CaptureService.requestPayload options uid)) "user_id"
  = Some (JString (match uid with Some u => or_else u "current" | None => "current" end)).
Proof.
  unfold CaptureService.requestPayload.
  destruct (as_string (get (CaptureService.pageContext options) "pageId")); reflexivity.
Qed.

Lemma requestPayload_params_field (options : CaptureService.SendCapturePromptOptions)
      (uid : option string) :
  get (Some (CaptureService.requestPayload options uid)) "params"
  = Some (JObject
            (let params :=
               spread [("temperature", JNumber "0.3"); ("max_tokens", JNumber "2048")]
                      (CaptureService.mcpParams options) in
             match CaptureService.approvalDecision options with
             | Some decision => set_field "mcp_approval" decision params
             | None => params
             end)).
Proof.
  unfold CaptureService.requestPayload.
  destruct (as_string (get (CaptureService.pageContext options) "pageId")); reflexivity.
Qed.

(** X6.  Once the service holds a user id it never asks for it again:
    a send with a cached non-empty id issues no [get] request at all,
    keeps the id, and the chat request it issues, if any, carries that
    id as [user_id]. *)
Theorem cached_user_id_is_reused
        (JSON_parse : string -> option json) (S : Type) (cb : CaptureService.Callbacks S)
        (api : option ApiService) (uid : string)
        (options : CaptureService.SendCapturePromptOptions) (st : S) :
  uid <> EmptyString ->
  let sent := CaptureService.sendPrompt JSON_parse cb api (Some uid) options st in
  CaptureService.userId_after sent = Some uid
  /\ (forall url, ~ In (Get url) (CaptureService.requests sent))
  /\ (forall url payload,
         In (Post url (BodyJson payload)) (CaptureService.requests sent)
         \/ In (PostStreaming url (BodyJson payload)) (CaptureService.requests sent) ->
         get (Some payload) "user_id" = Some (JString uid)).
Proof.
  intros Huid sent.
  assert (Hlookup : forall a, CaptureService.initializeUserId a (Some uid) = ([], Some uid)).
  { intros a. unfold CaptureService.initializeUserId. simpl.
    destruct uid; [congruence|reflexivity]. }
  assert (Hid : get (Some (CaptureService.requestPayload options (Some uid))) "user_id"
                = Some (JString uid)).
  { rewrite requestPayload_user_id. destruct uid; [congruence|reflexivity]. }
  destruct api as [api|]; [|subst sent; simpl; intuition].
  destruct (api_post api) as [post|] eqn:Hpost.
  - destruct (sendPrompt_requests JSON_parse S cb api post (Some uid) options st Hpost)
      as [Hafter Hreqs].
    fold sent in Hafter, Hreqs. rewrite Hlookup in Hafter, Hreqs. simpl in Hafter, Hreqs.
    clearbody sent.
    split; [exact Hafter|].
    split.
    + intros url. destruct Hreqs as [-> | ->]; simpl;
        intros [Hin|[]]; discriminate.
    + intros url payload.
      destruct Hreqs as [-> | ->]; simpl;
        intros [[Hin|[]]|[Hin|[]]]; try discriminate;
        inversion Hin; subst; exact Hid.
  - subst sent. rewrite (sendPrompt_without_post _ _ _ _ _ _ _ Hpost). rewrite Hlookup.
    simpl. intuition.
Qed.

(** X6, witness: a send with the cached id [u1]. *)
Lemma cached_user_id_is_reused_witness :
  CaptureService.requests
    (CaptureService.sendPrompt parse CaptureService.recorder
       (Some (Samples.plain_service (Some (JObject [("text", JString "ok")]))))
       (Some "u1") (Samples.options "hello" false) [])
  = [Post CaptureService.chat_url
       (BodyJson (CaptureService.requestPayload (Samples.options "hello" false) (Some "u1")))]
  /\ CaptureService.userId_after
       (CaptureService.sendPrompt parse CaptureService.recorder
          (Some (Samples.plain_service (Some (JObject [("text", JString "ok")]))))
          (Some "u1") (Samples.options "hello" false) [])
     = Some "u1".
Proof.
  split; [vm_compute; reflexivity|].
  refine (proj1 (cached_user_id_is_reused parse _ CaptureService.recorder
                   (Some (Samples.plain_service (Some (JObject [("text", JString "ok")]))))
                   "u1" (Samples.options "hello" false) [] _)).
  discriminate.
Defined.

(** X7.  A user lookup that fails does not fail the send: when no id is
    cached and the request to [/api/v1/auth/me] is rejected, the chat
    request is still issued, right after the lookup, with the [user_id]
    [current], and no id is cached, so that the next send looks it up
    again. *)
Theorem failed_user_lookup_sends_current
        (JSON_parse : string -> option json) (S : Type) (cb : CaptureService.Callbacks S)
        (api : ApiService) (post : string -> body -> result (option json)) (e : exn)
        (cached : option string)
        (options : CaptureService.SendCapturePromptOptions) (st : S) :
  CaptureService.absent cached = true ->
  api_get api "/api/v1/auth/me" = Rejected e ->
  api_post api = Some post ->
  let sent := CaptureService.sendPrompt JSON_parse cb (Some api) cached options st in
  exists payload,
    (CaptureService.requests sent
     = [Get "/api/v1/auth/me"; Post CaptureService.chat_url (BodyJson payload)]
     \/ CaptureService.requests sent
        = [Get "/api/v1/auth/me"; PostStreaming CaptureService.chat_url (BodyJson payload)])
    /\ get (Some payload) "user_id" = Some (JString "current")
    /\ CaptureService.userId_after sent = None.
Proof.
  intros Habsent Hget Hpost sent.
  destruct (sendPrompt_requests JSON_parse S cb api post cached options st Hpost)
    as [Hafter Hreqs].
  fold sent in Hafter, Hreqs.
  assert (Hlookup : CaptureService.initializeUserId api cached
                    = ([Get "/api/v1/auth/me"], None)).
  { unfold CaptureService.initializeUserId. now rewrite Habsent, Hget. }
  rewrite Hlookup in Hafter, Hreqs. simpl in Hafter, Hreqs.
  exists (CaptureService.requestPayload options None).
  split; [exact Hreqs|]. split; [apply requestPayload_user_id|exact Hafter].
Qed.

(** X7, witness: a service that answers the lookup with an error. *)
Lemma failed_user_lookup_sends_current_witness :
  exists payload,
    (CaptureService.requests
       (CaptureService.sendPrompt parse CaptureService.recorder
          (Some Samples.anonymous_service) None (Samples.options "hello" false) [])
     = [Get "/api/v1/auth/me"; Post CaptureService.chat_url (BodyJson payload)]
     \/ CaptureService.requests
          (CaptureService.sendPrompt parse CaptureService.recorder
             (Some Samples.anonymous_service) None (Samples.options "hello" false) [])
        = [Get "/api/v1/auth/me"; PostStreaming CaptureService.chat_url (BodyJson payload)])
    /\ get (Some payload) "user_id" = Some (JString "current")
    /\ CaptureService.userId_after
         (CaptureService.sendPrompt parse CaptureService.recorder
            (Some Samples.anonymous_service) None (Samples.options "hello" false) [])
       = None.
Proof.
  exact (failed_user_lookup_sends_current parse _ CaptureService.recorder
           Samples.anonymous_service _ (ErrorObj "Unauthorized") None
           (Samples.options "hello" false) [] eq_refl eq_refl eq_refl).
Defined.

(** ** Property lists *)

Lemma assoc_set_field_same (k : string) (v : json) (fs : list (string * json)) :
  assoc k (set_field k v fs) = Some v.
Proof.
  induction fs as [|[k' v'] fs IH]; simpl.
  - now rewrite String.eqb_refl.
  - destruct (String.eqb k k') eqn:E; simpl; rewrite ?String.eqb_refl, ?E; auto.
Qed.

Lemma assoc_set_field_other (k k' : string) (v : json) (fs : list (string * json)) :
  k <> k' -> assoc k (set_field k' v fs) = assoc k fs.
Proof.
  intros Hne. induction fs as [|[k0 v0] fs IH]; simpl.
  - apply String.eqb_neq in Hne. now rewrite Hne.
  - destruct (String.eqb k' k0) eqn:E; simpl.
    + apply String.eqb_eq in E. subst k0. apply String.eqb_neq in Hne. now rewrite Hne.
    + now rewrite IH.
Qed.

Lemma assoc_None_not_in (k : string) (fs : list (string * json)) :
  assoc k fs = None <-> ~ In k (map fst fs).
Proof.
  induction fs as [|[k' v'] fs IH]; simpl; [tauto|].
  destruct (String.eqb k k') eqn:E.
  - apply String.eqb_eq in E. subst. split; [discriminate|]. intros H. exfalso. auto.
  - apply String.eqb_neq in E. rewrite IH. split; [intros H [H'|H']; auto|tauto].
Qed.

(** Writing a list of properties one after the other: a key the list
    does not write keeps its value, and a key written once holds the
    value written. *)
Lemma assoc_fold_set_absent (k : string) (b acc : list (string * json)) :
  assoc k b = None ->
  assoc k (fold_left (fun acc kv => set_field (fst kv) (snd kv) acc) b acc) = assoc k acc.
Proof.
  revert acc. induction b as [|[k' v'] b IH]; simpl; intros acc H; [reflexivity|].
  destruct (String.eqb k k') eqn:E; [discriminate|].
  rewrite IH by exact H. apply assoc_set_field_other. now apply String.eqb_neq.
Qed.

Lemma assoc_fold_set_present (k : string) (v : json) (b acc : list (string * json)) :
  NoDup (map fst b) -> assoc k b = Some v ->
  assoc k (fold_left (fun acc kv => set_field (fst kv) (snd kv) acc) b acc) = Some v.
Proof.
  revert acc. induction b as [|[k' v'] b IH]; simpl; intros acc Hnd H; [discriminate|].
  inversion Hnd as [|? ? Hnotin Hnd']; subst.
  destruct (String.eqb k k') eqn:E.
  - apply String.eqb_eq in E. subst k'. inversion H; subst v'.
    rewrite assoc_fold_set_absent by now apply assoc_None_not_in.
    apply assoc_set_field_same.
  - now apply IH.
Qed.

(** X8.  The [params] of the chat request: an approval decision, when
    given, is sent as [mcp_approval]; every parameter of the caller under
    another name is sent as given (its names being distinct); and the
    temperature 0.3 and the limit of 2048 tokens are sent unless the
    caller gives its own. *)
Theorem chat_request_params (options : CaptureService.SendCapturePromptOptions)
        (uid : option string) :
  NoDup (map fst (CaptureService.mcpParams options)) ->
  let params := get (Some (CaptureService.requestPayload options uid)) "params" in
  (forall decision,
      CaptureService.approvalDecision options = Some decision ->
      get params "mcp_approval" = Some decision)
  /\ (forall k v,
         assoc k (CaptureService.mcpParams options) = Some v ->
         k <> "mcp_approval" \/ CaptureService.approvalDecision options = None ->
         get params k = Some v)
  /\ (assoc "temperature" (CaptureService.mcpParams options) = None ->
      get params "temperature" = Some (JNumber "0.3"))
  /\ (assoc "max_tokens" (CaptureService.mcpParams options) = None ->
      get params "max_tokens" = Some (JNumber "2048")).
Proof.
  intros Hnd params. subst params. rewrite requestPayload_params_field. cbv zeta.
  unfold get, spread.
  repeat split.
  - intros decision ->. apply assoc_set_field_same.
  - intros k v Hk Hother.
    assert (Hspread : forall acc,
               assoc k (fold_left (fun acc kv => set_field (fst kv) (snd kv) acc)
                                  (CaptureService.mcpParams options) acc) = Some v)
      by (intros acc; now apply assoc_fold_set_present).
    destruct (CaptureService.approvalDecision options) as [decision|].
    + destruct Hother as [Hne|]; [|discriminate].
      rewrite assoc_set_field_other by exact Hne. apply Hspread.
    + apply Hspread.
  - intros Hnone.
    destruct (CaptureService.approvalDecision options) as [decision|].
    + rewrite assoc_set_field_other by discriminate.
      now rewrite assoc_fold_set_absent.
    + now rewrite assoc_fold_set_absent.
  - intros Hnone.
    destruct (CaptureService.approvalDecision options) as [decision|].
    + rewrite assoc_set_field_other by discriminate.
      now rewrite assoc_fold_set_absent.
    + now rewrite assoc_fold_set_absent.
Qed.

(** X8, witness: an approval whose parameters override the temperature
    and leave the token limit alone. *)
Lemma chat_request_params_witness :
  get (get (Some (CaptureService.requestPayload Samples.approval_options None)) "params")
      "temperature" = Some (JNumber "0.7")
  /\ get (get (Some (CaptureService.requestPayload Samples.approval_options None)) "params")
         "max_tokens" = Some (JNumber "2048").
Proof.
  assert (Hnd : NoDup (map fst (CaptureService.mcpParams Samples.approval_options))).
  { simpl. repeat constructor; simpl; intuition discriminate. }
  destruct (chat_request_params Samples.approval_options None Hnd) as (_ & Hkeep & _ & Htokens).
  split.
  - apply Hkeep; [reflexivity|left; discriminate].
  - apply Htokens. reflexivity.
Defined.

(** X9.  With no API service bound, every operation of the capture
    service is rejected with the message [API service is not available.]
    before any request is made, and a send leaves the caller's state
    untouched. *)
Theorem unbound_api_makes_no_request
        (JSON_parse : string -> option json) (S : Type) (cb : CaptureService.Callbacks S)
        (userId : option string) (options : CaptureService.SendCapturePromptOptions) (st : S)
        (file : File) :
  let unavailable := ErrorObj "API service is not available." in
  let sent := CaptureService.sendPrompt JSON_parse cb None userId options st in
  (CaptureService.requests sent = []
   /\ CaptureService.outcome sent = Rejected unavailable
   /\ CaptureService.state_after sent = st)
  /\ CaptureService.processDocument None file = ([], Rejected unavailable)
  /\ CaptureService.loadModels None = ([], Rejected unavailable)
  /\ CaptureService.loadProjectScopes None = ([], Rejected unavailable)
  /\ CaptureService.loadLifeScopes None = ([], Rejected unavailable).
Proof.
  repeat split.
Qed.

(** ** What a metadata event can change *)

Lemma handleMetadataEvent_effect (event : json) (st st' : Capture.LibraryCaptureState) :
  Capture.handleMetadataEvent event st = Resolved st' ->
  (Capture.models st' = Capture.models st
   /\ Capture.selectedModel st' = Capture.selectedModel st
   /\ Capture.scopeOptions st' = Capture.scopeOptions st
   /\ Capture.conversationId st' = Capture.conversationId st
   /\ Capture.inputText st' = Capture.inputText st)
  /\ (Capture.isSubmitting st' = Capture.isSubmitting st
      /\ Capture.isProcessingTranscript st' = Capture.isProcessingTranscript st
      /\ Capture.error st' = Capture.error st
      /\ Capture.transcriptError st' = Capture.transcriptError st
      /\ Capture.currentUserId st' = Capture.currentUserId st)
  /\ (Capture.messages st' = Capture.messages st
      \/ exists m,
           Capture.messages st' = (Capture.messages st ++ [m])%list
           /\ Capture.sender m = Capture.system
           /\ Capture.isStreaming m = false
           /\ Capture.isError m = false).
Proof.
  unfold Capture.handleMetadataEvent. intros H.
  repeat (cbv zeta in H;
          match type of H with
          | (if ?b then _ else _) = _ => destruct b
          | match ?x with _ => _ end = _ => destruct x
          end);
    inversion H; subst; clear H;
    (split; [repeat split|split; [repeat split|]]);
    try (left; reflexivity);
    right; eexists; repeat split.
Qed.

(** X10.  A metadata event never changes the catalogues, the selected
    model, the conversation id, the input text, the two busy flags, the
    two error fields or the cached user id, and it never rewrites the
    log: it leaves the messages as they are or appends one message, a
    system message that is neither streaming nor an error. *)
Theorem metadata_event_frame (event : json) (st st' : Capture.LibraryCaptureState) :
  Capture.handleMetadataEvent event st = Resolved st' ->
  (Capture.models st' = Capture.models st
   /\ Capture.selectedModel st' = Capture.selectedModel st
   /\ Capture.scopeOptions st' = Capture.scopeOptions st
   /\ Capture.conversationId st' = Capture.conversationId st
   /\ Capture.inputText st' = Capture.inputText st)
  /\ (Capture.isSubmitting st' = Capture.isSubmitting st
      /\ Capture.isProcessingTranscript st' = Capture.isProcessingTranscript st
      /\ Capture.error st' = Capture.error st
      /\ Capture.transcriptError st' = Capture.transcriptError st
      /\ Capture.currentUserId st' = Capture.currentUserId st)
  /\ (Capture.messages st' = Capture.messages st
      \/ exists m,
           Capture.messages st' = (Capture.messages st ++ [m])%list
           /\ Capture.sender m = Capture.system
           /\ Capture.isStreaming m = false
           /\ Capture.isError m = false).
Proof.
  exact (handleMetadataEvent_effect event st st').
Qed.

(** X10, witness: a request for approval appends one system message. *)
Lemma metadata_event_frame_witness :
  exists st',
    Capture.handleMetadataEvent
      (JObject [("type", JString "approval_required");
                ("approval_request", JObject [("tool", JString "write_file")])])
      (Samples.ready (Samples.props None None)) = Resolved st'
    /\ Capture.selectedModel st' = Some Samples.llama3
    /\ length (Capture.messages st') = 2.
Proof.
  eexists. split; [vm_compute; reflexivity|].
  split.
  - refine (eq_trans
              (proj1 (proj2 (proj1
                 (metadata_event_frame
                    (JObject [("type", JString "approval_required");
                              ("approval_request", JObject [("tool", JString "write_file")])])
                    (Samples.ready (Samples.props None None)) _ _)))) _);
      vm_compute; reflexivity.
  - vm_compute. reflexivity.
Defined.

Section Log.

Import Capture.

Lemma rewritten_refl aid m : rewritten aid m m.
Proof. repeat split. Qed.

Lemma rewritten_trans aid a b c : rewritten aid a b -> rewritten aid b c -> rewritten aid a c.
Proof.
  intros (H1 & H2 & H3 & H4 & H5 & H6) (G1 & G2 & G3 & G4 & G5 & G6).
  repeat split; try congruence.
  intros Hne. rewrite <- (H6 Hne). apply G6. congruence.
Qed.

Lemma rewritten_notice aid a b : rewritten aid a b -> notice a -> notice b.
Proof.
  intros (H1 & H2 & H3 & H4 & H5 & H6) (G1 & G2 & G3). repeat split; congruence.
Qed.

Lemma Forall2_rewritten_refl aid l : Forall2 (rewritten aid) l l.
Proof. induction l; constructor; auto using rewritten_refl. Qed.

Lemma Forall2_rewritten_trans aid a b c :
  Forall2 (rewritten aid) a b -> Forall2 (rewritten aid) b c -> Forall2 (rewritten aid) a c.
Proof.
  intros H. revert c. induction H as [|x y a b Hxy _ IH]; intros c Hc; inversion Hc; subst.
  - constructor.
  - constructor; eauto using rewritten_trans.
Qed.

Lemma Forall2_rewritten_notice aid a b :
  Forall2 (rewritten aid) a b -> Forall notice a -> Forall notice b.
Proof.
  induction 1 as [|x y a b Hxy _ IH]; intros Ha; inversion Ha; subst; constructor;
    eauto using rewritten_notice.
Qed.

Lemma grows_refl aid st : grows aid st st.
Proof.
  split; [repeat split|].
  exists (messages st), []. rewrite app_nil_r.
  split; [reflexivity|]. split; [apply Forall2_rewritten_refl|constructor].
Qed.

Lemma grows_trans aid a b c : grows aid a b -> grows aid b c -> grows aid a c.
Proof.
  intros [Hf (kb & ab & Hb & Hkb & Hab)] [Gf (kc & ac & Hc & Hkc & Hac)].
  split; [intuition congruence|].
  rewrite Hb in Hkc. apply Forall2_app_inv_l in Hkc as (k1 & k2 & Hk1 & Hk2 & ->).
  exists k1, (k2 ++ ac)%list. rewrite Hc, <- app_assoc.
  split; [reflexivity|]. split.
  - eapply Forall2_rewritten_trans; eauto.
  - apply Forall_app. split; [|exact Hac]. eapply Forall2_rewritten_notice; eauto.
Qed.

Lemma updateMessage_rewrites aid (f : CaptureMessage -> CaptureMessage) msgs :
  (forall m, id (f m) = id m /\ sender (f m) = sender m /\ timestamp (f m) = timestamp m
             /\ isStreaming (f m) = isStreaming m /\ isError (f m) = isError m) ->
  Forall2 (rewritten aid) msgs
          (map (fun message => if String.eqb (id message) aid then f message else message) msgs).
Proof.
  intros Hf. induction msgs as [|m msgs IH]; simpl; constructor; [|exact IH].
  destruct (String.eqb (id m) aid) eqn:E; [|apply rewritten_refl].
  apply String.eqb_eq in E. destruct (Hf m) as (H1 & H2 & H3 & H4 & H5).
  repeat split; auto. intros Hne. congruence.
Qed.

Lemma handleMetadataEvent_grows aid event st st' :
  handleMetadataEvent event st = Resolved st' -> grows aid st st'.
Proof.
  intros H. apply handleMetadataEvent_effect in H as (H1 & H2 & H3).
  split; [intuition|].
  destruct H3 as [-> | (m & -> & Hm)].
  - exists (messages st), []. rewrite app_nil_r.
    split; [reflexivity|]. split; [apply Forall2_rewritten_refl|constructor].
  - exists (messages st), [m].
    split; [reflexivity|]. split; [apply Forall2_rewritten_refl|].
    constructor; [exact Hm|constructor].
Qed.

Lemma callbacks_grow aid st0 :
  CaptureService.preserved_by (callbacks aid) (fun s => grows aid st0 (fst s)).
Proof.
  split; [|split].
  - intros text [st flag] st' H E. simpl in E. simpl in H.
    eapply grows_trans; [exact H|].
    assert (Hupd : forall s, grows aid s
              (updateMessage aid
                 (fun message =>
                    {| id := id message; sender := sender message;
                       content := content message ++ text;
                       timestamp := timestamp message; isStreaming := isStreaming message;
                       isError := isError message |}) s)).
    { intros s. split; [repeat split|].
      eexists _, []. rewrite app_nil_r. split; [reflexivity|].
      split; [|constructor]. simpl. apply updateMessage_rewrites.
      intros m. repeat split. }
    destruct (negb flag && negb (is_empty (trim text)));
      [destruct (pendingApproval st)|]; inversion E; subst; simpl; try apply Hupd.
    eapply grows_trans; [|apply Hupd].
    split; [repeat split|].
    exists (messages st), []. rewrite app_nil_r.
    split; [reflexivity|]. split; [apply Forall2_rewritten_refl|constructor].
  - intros i [st flag] st' H E. simpl in E. inversion E. subst. simpl in *.
    eapply grows_trans; [exact H|].
    split; [repeat split|].
    exists (messages st), []. rewrite app_nil_r.
    split; [reflexivity|]. split; [apply Forall2_rewritten_refl|constructor].
  - intros event [st flag] st' H E. simpl in E.
    destruct (handleMetadataEvent event st) as [st1|] eqn:E1; [|discriminate].
    simpl in E. inversion E. subst. simpl in *.
    eapply grows_trans; [exact H|]. eapply handleMetadataEvent_grows; eauto.
Qed.

Variable JSON_parse : string -> option json.

(** The step of [updateMessage] on one message. *)
Lemma finish_log aid (f : CaptureMessage -> CaptureMessage) k u a added :
  id u <> aid -> id a = aid ->
  map (fun message => if String.eqb (id message) aid then f message else message)
      (k ++ u :: a :: added)
  = (map (fun message => if String.eqb (id message) aid then f message else message) k
     ++ u :: f a
     :: map (fun message => if String.eqb (id message) aid then f message else message)
            added)%list.
Proof.
  intros Hu Ha. rewrite map_app. simpl.
  apply String.eqb_neq in Hu. rewrite Hu.
  apply String.eqb_eq in Ha. rewrite Ha. reflexivity.
Qed.

Lemma revised_after aid (f : CaptureMessage -> CaptureMessage) msgs k :
  (forall m, id (f m) = id m /\ sender (f m) = sender m /\ timestamp (f m) = timestamp m
             /\ isStreaming (f m) = false) ->
  Forall2 (rewritten aid) msgs k ->
  Forall2 revised msgs
          (map (fun message => if String.eqb (id message) aid then f message else message) k).
Proof.
  intros Hf. induction 1 as [|m0 m msgs k (H1 & H2 & H3 & H4 & H5 & H6) _ IH]; simpl;
    constructor; [|exact IH].
  unfold revised, message_key.
  destruct (String.eqb (id m) aid).
  - destruct (Hf m) as (F1 & F2 & F3 & F4). split; [congruence|auto].
  - split; congruence.
Qed.

Lemma notices_after aid (f : CaptureMessage -> CaptureMessage) added :
  (forall m, id (f m) = id m /\ sender (f m) = sender m /\ timestamp (f m) = timestamp m
             /\ isStreaming (f m) = false) ->
  Forall notice added ->
  Forall (fun m => sender m = system /\ isStreaming m = false)
         (map (fun message => if String.eqb (id message) aid then f message else message)
              added).
Proof.
  intros Hf. induction 1 as [|m added (H1 & H2 & H3) _ IH]; simpl; constructor; [|exact IH].
  destruct (String.eqb (id m) aid); [|auto].
  destruct (Hf m) as (F1 & F2 & F3 & F4). split; congruence.
Qed.

(** What a send that passes its guards leaves behind. *)
Lemma sendPrompt_effect P prompt decision label st model :
  selectedModel st = Some model ->
  is_empty (trim prompt) = false ->
  let st' := fst (sendPrompt JSON_parse P prompt decision label st) in
  exists kept u a added,
    messages st' = (kept ++ u :: a :: added)%list
    /\ Forall2 revised (messages st) kept
    /\ (sender u = user
        /\ content u = match label with
                       | Some text => if negb (is_empty (trim text)) then trim text
                                      else trim prompt
                       | None => trim prompt
                       end
        /\ isStreaming u = false /\ isError u = false)
    /\ (sender a = ai /\ isStreaming a = false /\ content a <> EmptyString)
    /\ Forall (fun m => sender m = system /\ isStreaming m = false) added
    /\ (models st' = models st /\ selectedModel st' = selectedModel st
        /\ scopeOptions st' = scopeOptions st
        /\ isProcessingTranscript st' = isProcessingTranscript st
        /\ transcriptError st' = transcriptError st)
    /\ (inputText st' = EmptyString /\ isSubmitting st' = false)
    /\ ((error st' = None /\ isError a = false)
        \/ exists msg,
             error st' = Some msg /\ activityStatus st' = Some ("Error: " ++ msg)
             /\ content a = "Error: " ++ msg /\ isError a = true).
Proof.
  intros Hmodel Hprompt. unfold sendPrompt. rewrite Hmodel, Hprompt. cbv zeta.
  match goal with
  | |- context [CaptureService.sendPrompt JSON_parse (callbacks ?aid) ?a ?u ?o (?s, false)] =>
      pose proof (service_sendPrompt_preserves JSON_parse (callbacks aid)
                    (fun both => grows aid s (fst both)) (callbacks_grow aid s)
                    a u o (s, false) (grows_refl aid s)) as Hsent;
      destruct (CaptureService.sendPrompt JSON_parse (callbacks aid) a u o (s, false))
        as [reqs [after flag] out uid];
      remember aid as assistantMessageId eqn:Haid
  end.
  simpl in Hsent.
  destruct Hsent as [Hframe (kept' & added & Hmsgs & Hkept & Hadded)].
  apply Forall2_app_inv_l in Hkept as (kept1 & ka & Hkept1 & Hka & ->).
  apply Forall2_app_inv_l in Hkept1 as (kept & ku & Hkept & Hku & ->).
  inversion Hku as [|u0 u l0 l0' Hu Hnil]; subst u0 l0 ku. inversion Hnil; subst l0'.
  inversion Hka as [|a0 a l0 l0' Ha Hnil']; subst a0 l0 ka. inversion Hnil'; subst l0'.
  clear Hku Hka Hnil Hnil'.
  destruct Hu as (_ & _ & _ & _ & _ & Hu).
  assert (Hune : String.eqb (generateId "user" st) assistantMessageId = false)
    by (subst assistantMessageId; reflexivity).
  apply String.eqb_neq in Hune. specialize (Hu Hune). subst u.
  destruct Ha as (Ha1 & Ha2 & Ha3 & Ha4 & Ha5 & _). simpl in Ha1, Ha2, Ha5.
  rewrite <- !app_assoc in Hmsgs. simpl in Hmsgs.
  destruct Hframe as (F1 & F2 & F3 & F4 & F5 & F6 & F7 & F8 & F9). simpl in F1, F2, F3, F6, F7, F8.
  destruct out as [ok|e]; simpl fst.
  - eexists _, _, _, _. split.
    { simpl. rewrite Hmsgs. apply finish_log; [exact Hune|congruence]. }
    split; [apply revised_after; [intros m; repeat split|exact Hkept]|].
    split; [repeat split|].
    split; [split; [exact Ha2|split; [reflexivity|apply or_else_nonempty; discriminate]]|].
    split; [apply notices_after; [intros m; repeat split|exact Hadded]|].
    split; [simpl; repeat split; congruence|].
    split; [split; reflexivity|].
    left. split; [simpl; exact F7|exact Ha5].
  - eexists _, _, _, _. split.
    { simpl. rewrite Hmsgs. apply finish_log; [exact Hune|congruence]. }
    split; [apply revised_after; [intros m; repeat split|exact Hkept]|].
    split; [repeat split|].
    split; [split; [exact Ha2|split; [reflexivity|discriminate]]|].
    split; [apply notices_after; [intros m; repeat split|exact Hadded]|].
    split; [simpl; repeat split; congruence|].
    split; [split; reflexivity|].
    right. eexists. repeat split.
Qed.

End Log.

Section Flow.

Import Capture.

Variable JSON_parse : string -> option json.

Lemma revised_keys msgs kept :
  Forall2 revised msgs kept -> map message_key kept = map message_key msgs.
Proof.
  induction 1 as [|m0 m msgs kept [Hkey _] _ IH]; simpl; [reflexivity|]. now rewrite Hkey, IH.
Qed.


Lemma continues_refl st : continues st st.
Proof. exists []. now rewrite app_nil_r. Qed.

Lemma continues_trans a b c : continues a b -> continues b c -> continues a c.
Proof.
  intros [x Hx] [y Hy]. exists (x ++ y)%list. now rewrite Hy, Hx, app_assoc.
Qed.

Lemma continues_same st st' : messages st' = messages st -> continues st st'.
Proof. intros H. exists []. now rewrite H, app_nil_r. Qed.

Lemma applyConfiguredModelDefault_log P st :
  messages (applyConfiguredModelDefault P st) = messages st
  /\ isSubmitting (applyConfiguredModelDefault P st) = isSubmitting st
  /\ isProcessingTranscript (applyConfiguredModelDefault P st) = isProcessingTranscript st.
Proof.
  unfold applyConfiguredModelDefault.
  destruct (models st); [repeat split|].
  destruct (parseConfiguredDefaultModelKey P); repeat split.
Qed.

Lemma applyConfiguredScopeDefault_log P st :
  messages (applyConfiguredScopeDefault P st) = messages st
  /\ isSubmitting (applyConfiguredScopeDefault P st) = isSubmitting st
  /\ isProcessingTranscript (applyConfiguredScopeDefault P st) = isProcessingTranscript st.
Proof.
  unfold applyConfiguredScopeDefault.
  repeat match goal with
         | |- context [match ?x with _ => _ end] => destruct x
         end; repeat split.
Qed.

Lemma sendPrompt_continues P prompt decision label st :
  continues st (fst (sendPrompt JSON_parse P prompt decision label st)).
Proof.
  destruct (selectedModel st) as [model|] eqn:Hmodel;
    [|unfold sendPrompt; rewrite Hmodel; now apply continues_same].
  destruct (is_empty (trim prompt)) eqn:Hprompt;
    [unfold sendPrompt; rewrite Hmodel, Hprompt; apply continues_refl|].
  destruct (sendPrompt_effect JSON_parse P prompt decision label st model Hmodel Hprompt)
    as (kept & u & a & added & Hmsgs & Hkept & _).
  exists (map message_key (u :: a :: added)).
  rewrite Hmsgs, map_app. now rewrite (revised_keys _ _ Hkept).
Qed.


Lemma perform_continues P op st : continues st (fst (perform JSON_parse P op st)).
Proof.
  destruct op; simpl.
  - apply continues_same.
    rewrite (proj1 (applyConfiguredScopeDefault_log _ _)).
    now rewrite (proj1 (applyConfiguredModelDefault_log _ _)).
  - now apply continues_same.
  - apply continues_same. unfold handleModelSelection.
    repeat match goal with
           | |- context [match ?x with _ => _ end] => destruct x
           end; reflexivity.
  - destruct (value =? "__all__")%string; now apply continues_same.
  - now apply continues_same.
  - unfold handleSend. destruct (isSubmitting st || isProcessingTranscript st);
      [apply continues_refl|].
    destruct (is_empty (trim (inputText st))); [apply continues_refl|].
    apply sendPrompt_continues.
  - unfold handleApprovalDecision. destruct (isSubmitting st); [apply continues_refl|].
    destruct (pendingApproval st); [|apply continues_refl]. apply sendPrompt_continues.
  - unfold handleTranscriptSelected. destruct file as [file|]; [|apply continues_refl].
    destruct (prepare_transcript P file dateIso _) as [reqs prepared].
    destruct prepared as [prompt|e].
    + match goal with
      | |- context [sendPrompt JSON_parse P ?p ?d ?l ?s] =>
          pose proof (sendPrompt_continues P p d l s) as Hs;
          destruct (sendPrompt JSON_parse P p d l s) as [st2 reqs']
      end.
      simpl in *. exact Hs.
    + eexists [_]. simpl. rewrite map_app. reflexivity.
  - destruct (models st); [apply continues_refl|].
    apply continues_same. simpl. apply applyConfiguredModelDefault_log.
Qed.



End Flow.

(** ** What a send leaves in the log *)

(** X11.  A send that passes its guards (a model is selected and the
    prompt is not blank) appends one exchange to the log: the user's
    message, showing the label when one is given and the trimmed prompt
    otherwise, then the assistant's message, then system messages only.
    The earlier messages keep their ids, senders and timestamps.  When
    the send is over the input is empty, the component is no longer
    submitting and the assistant's message is no longer streaming and
    not empty; either no error is recorded, or the error message is
    recorded, shown as the status and shown in the assistant's message,
    which is marked as an error. *)
Theorem send_appends_one_exchange
        (JSON_parse : string -> option json) (P : Capture.Props) (prompt : string)
        (decision : option Capture.MCPApprovalDecision) (label : option string)
        (st : Capture.LibraryCaptureState) (model : ModelInfo) :
  Capture.selectedModel st = Some model ->
  trim prompt <> EmptyString ->
  let st' := fst (Capture.sendPrompt JSON_parse P prompt decision label st) in
  exists kept u a added,
    Capture.messages st' = (kept ++ u :: a :: added)%list
    /\ map Capture.message_key kept = map Capture.message_key (Capture.messages st)
    /\ (Capture.sender u = Capture.user
        /\ Capture.content u = match label with
                               | Some text => if negb (is_empty (trim text)) then trim text
                                              else trim prompt
                               | None => trim prompt
                               end)
    /\ (Capture.sender a = Capture.ai /\ Capture.isStreaming a = false
        /\ Capture.content a <> EmptyString)
    /\ (forall m, In m added -> Capture.sender m = Capture.system)
    /\ (Capture.inputText st' = EmptyString /\ Capture.isSubmitting st' = false)
    /\ ((Capture.error st' = None /\ Capture.isError a = false)
        \/ exists msg,
             Capture.error st' = Some msg
             /\ Capture.activityStatus st' = Some ("Error: " ++ msg)
             /\ Capture.content a = "Error: " ++ msg
             /\ Capture.isError a = true).
Proof.
  intros Hmodel Hprompt. apply is_empty_false in Hprompt.
  destruct (sendPrompt_effect JSON_parse P prompt decision label st model Hmodel Hprompt)
    as (kept & u & a & added & Hmsgs & Hkept & (Hu1 & Hu2 & _) & Ha & Hadded & _ & Hdone & Herr).
  exists kept, u, a, added.
  split; [exact Hmsgs|]. split; [now apply revised_keys|].
  split; [split; assumption|]. split; [exact Ha|].
  split; [|split; assumption].
  intros m Hin. rewrite Forall_forall in Hadded. now apply Hadded.
Qed.

(** X11, witness: the prompt [hello] sent to a service that asks for
    approval. *)
Lemma send_appends_one_exchange_witness :
  Capture.inputText
    (fst (Capture.sendPrompt parse (Samples.props None (Some (Samples.service Samples.approval_frames None)))
            "hello" None None (Samples.ready (Samples.props None None)))) = EmptyString.
Proof.
  assert (Hmodel : Capture.selectedModel (Samples.ready (Samples.props None None))
                   = Some Samples.llama3) by (vm_compute; reflexivity).
  assert (Hprompt : trim "hello" <> EmptyString) by (vm_compute; discriminate).
  destruct (send_appends_one_exchange parse
              (Samples.props None (Some (Samples.service Samples.approval_frames None)))
              "hello" None None (Samples.ready (Samples.props None None)) Samples.llama3
              Hmodel Hprompt)
    as (kept & u & a & added & _ & _ & _ & _ & _ & (Hinput & _) & _).
  exact Hinput.
Defined.

(** X12.  The log is append-only: whatever the operation, the messages
    that were in the log are still there afterwards, in the same order
    and under the same ids, senders and timestamps, followed by the
    messages the operation added. *)
Theorem log_is_append_only
        (JSON_parse : string -> option json) (P : Capture.Props) (op : Capture.Operation)
        (st : Capture.LibraryCaptureState) :
  Capture.continues st (fst (Capture.perform JSON_parse P op st)).
Proof.
  apply perform_continues.
Qed.



(** ** The request of a send *)

Lemma find_in {A : Type} (f : A -> bool) (l : list A) (x : A) :
  find f l = Some x -> In x l /\ f x = true.
Proof. apply find_some. Qed.

Lemma mcp_params_distinct (decision : option Capture.MCPApprovalDecision)
      (st : Capture.LibraryCaptureState) :
  NoDup (map fst (Capture.buildMcpParams decision st)).
Proof.
  unfold Capture.buildMcpParams. cbv zeta.
  destruct (if Capture.scopeEnabled st then Capture.getSelectedScopeOption st else None)
    as [scope|];
    [destruct (Capture.normalizePath (path scope))|];
    destruct decision; simpl; repeat constructor; simpl; intuition discriminate.
Qed.

Lemma mcp_params_approval (decision : option Capture.MCPApprovalDecision)
      (st : Capture.LibraryCaptureState) :
  assoc "mcp_approval" (Capture.buildMcpParams decision st)
  = option_map Capture.decision_json decision.
Proof.
  unfold Capture.buildMcpParams. cbv zeta.
  destruct (if Capture.scopeEnabled st then Capture.getSelectedScopeOption st else None)
    as [scope|];
    [destruct (Capture.normalizePath (path scope))|];
    destruct decision; reflexivity.
Qed.

Lemma mcp_params_scope (decision : option Capture.MCPApprovalDecision)
      (st : Capture.LibraryCaptureState) :
  let params := Capture.buildMcpParams decision st in
  NoDup (map fst params)
  /\ (assoc "mcp_scope_mode" params = Some (JString "project")
      \/ assoc "mcp_scope_mode" params = Some (JString "none"))
  /\ (assoc "mcp_scope_mode" params = Some (JString "project")
      <-> exists scope,
            Capture.scopeEnabled st = true
            /\ Capture.getSelectedScopeOption st = Some scope
            /\ Capture.normalizePath (path scope) <> EmptyString)
  /\ (forall v, assoc "mcp_project_slug" params = Some v ->
                assoc "mcp_scope_mode" params = Some (JString "project")
                /\ exists scope,
                     In scope (Capture.scopeOptions st)
                     /\ v = JString (Capture.normalizePath (path scope)))
  /\ assoc "mcp_approval" params = option_map Capture.decision_json decision.
Proof.
  unfold Capture.buildMcpParams. cbv zeta.
  destruct (Capture.scopeEnabled st) eqn:Hen.
  - destruct (Capture.getSelectedScopeOption st) as [scope|] eqn:Hsel.
    + assert (Hin : In scope (Capture.scopeOptions st)).
      { unfold Capture.getSelectedScopeOption in Hsel.
        destruct (Capture.selectedScopePath st) as [p|]; [|discriminate].
        destruct (is_empty p); [discriminate|]. now apply find_in in Hsel. }
      destruct (Capture.normalizePath (path scope)) as [|c rest] eqn:Hpath;
        destruct decision as [d|]; simpl;
        (split; [repeat constructor; simpl; intuition discriminate|]);
        (split; [auto|]);
        (split; [split; [intros H; try discriminate; exists scope; rewrite Hpath;
                         repeat split; discriminate
                        |intros (sc & _ & Hsc & Hne); inversion Hsc; subst sc;
                         try reflexivity; rewrite Hpath in Hne; congruence]|]);
        (split; [|reflexivity]);
        intros v Hv; inversion Hv; subst v; (split; [reflexivity|]);
        exists scope; rewrite Hpath; auto.
    + destruct decision as [d|]; simpl;
        (split; [repeat constructor; simpl; intuition discriminate|]);
        (split; [auto|]);
        (split; [split; [discriminate|intros (sc & _ & Hsc & _); discriminate]|]);
        (split; [|reflexivity]); intros v Hv; discriminate.
  - destruct decision as [d|]; simpl;
      (split; [repeat constructor; simpl; intuition discriminate|]);
      (split; [auto|]);
      (split; [split; [discriminate|intros (sc & Hsc & _); discriminate]|]);
      (split; [|reflexivity]); intros v Hv; discriminate.
Qed.

Lemma scope_mode_is_project (decision : option Capture.MCPApprovalDecision)
      (st : Capture.LibraryCaptureState) :
  assoc "mcp_scope_mode" (Capture.buildMcpParams decision st) = Some (JString "project")
  <-> exists scope,
        Capture.scopeEnabled st = true
        /\ Capture.getSelectedScopeOption st = Some scope
        /\ Capture.normalizePath (path scope) <> EmptyString.
Proof. apply (mcp_params_scope decision st). Qed.

(** X14.  The tool parameters the component sends: their names are
    distinct; the scope mode is [project] exactly when the scope is
    enabled and the selected path is the path of a listed scope, and
    [none] otherwise; a project slug is sent only in mode [project] and
    is the normalized path of a listed scope; and an approval decision
    is sent exactly when one is given. *)
Theorem mcp_params_follow_the_scope
        (decision : option Capture.MCPApprovalDecision) (st : Capture.LibraryCaptureState) :
  let params := Capture.buildMcpParams decision st in
  NoDup (map fst params)
  /\ (assoc "mcp_scope_mode" params = Some (JString "project")
      \/ assoc "mcp_scope_mode" params = Some (JString "none"))
  /\ (assoc "mcp_scope_mode" params = Some (JString "project")
      <-> exists scope,
            Capture.scopeEnabled st = true
            /\ Capture.getSelectedScopeOption st = Some scope
            /\ Capture.normalizePath (path scope) <> EmptyString)
  /\ (forall v, assoc "mcp_project_slug" params = Some v ->
                assoc "mcp_scope_mode" params = Some (JString "project")
                /\ exists scope,
                     In scope (Capture.scopeOptions st)
                     /\ v = JString (Capture.normalizePath (path scope)))
  /\ assoc "mcp_approval" params = option_map Capture.decision_json decision.
Proof.
  apply mcp_params_scope.
Qed.

(** X14, witness: the parameters of a component that has no scope
    selected. *)
Lemma mcp_params_follow_the_scope_witness :
  assoc "mcp_approval"
        (Capture.buildMcpParams None (Samples.ready (Samples.props None None))) = None.
Proof.
  exact (proj2 (proj2 (proj2 (proj2
    (mcp_params_follow_the_scope None (Samples.ready (Samples.props None None))))))).
Defined.

Lemma requestPayload_fields (options : CaptureService.SendCapturePromptOptions)
      (uid : option string) :
  let payload := Some (CaptureService.requestPayload options uid) in
  get payload "messages"
  = Some (JArray [JObject [("role", JString "user");
                           ("content",
                            JString (or_else (trim (CaptureService.prompt options))
                                             "Continue."))]])
  /\ get payload "provider"
     = Some (JString (provider (CaptureService.selectedModel options)))
  /\ get payload "settings_id"
     = Some (JString (providerId (CaptureService.selectedModel options)))
  /\ get payload "server_id"
     = Some (JString (serverId (CaptureService.selectedModel options)))
  /\ get payload "model" = Some (JString (name (CaptureService.selectedModel options)))
  /\ get payload "stream" = Some (JBool (CaptureService.useStreaming options))
  /\ get payload "conversation_id"
     = Some (match CaptureService.conversationId options with
             | Some c => JString c
             | None => JNull
             end)
  /\ get payload "conversation_type" = Some (JString (CaptureService.conversationType options)).
Proof.
  unfold CaptureService.requestPayload.
  destruct (as_string (get (CaptureService.pageContext options) "pageId"));
    repeat split.
Qed.

Lemma initializeUserId_requests (api : ApiService) (cached : option string) (r : request) :
  In r (fst (CaptureService.initializeUserId api cached)) -> r = Get "/api/v1/auth/me".
Proof.
  unfold CaptureService.initializeUserId.
  destruct (negb (CaptureService.absent cached)); [intros []|].
  destruct (api_get api "/api/v1/auth/me"); simpl; intros [<-|[]]; reflexivity.
Qed.

Lemma or_else_trimmed (s : string) :
  trim s <> EmptyString -> or_else (trim (trim s)) "Continue." = trim s.
Proof.
  intros H. rewrite trim_idem. unfold or_else.
  apply is_empty_false in H. now rewrite H.
Qed.

(** The chat request of a send of the component. *)
Lemma sendPrompt_request
      (JSON_parse : string -> option json) (P : Capture.Props) (prompt : string)
      (decision : option Capture.MCPApprovalDecision) (label : option string)
      (st : Capture.LibraryCaptureState) (model : ModelInfo)
      (api : ApiService) (post : string -> body -> result (option json)) :
  Capture.selectedModel st = Some model ->
  trim prompt <> EmptyString ->
  Capture.api P = Some api ->
  api_post api = Some post ->
  let requests := snd (Capture.sendPrompt JSON_parse P prompt decision label st) in
  exists lookup payload,
    (requests = (lookup ++ [Post CaptureService.chat_url (BodyJson payload)])%list
     \/ requests = (lookup ++ [PostStreaming CaptureService.chat_url (BodyJson payload)])%list)
    /\ (forall r, In r lookup -> r = Get "/api/v1/auth/me")
    /\ get (Some payload) "messages"
       = Some (JArray [JObject [("role", JString "user");
                                ("content", JString (trim prompt))]])
    /\ (get (Some payload) "provider" = Some (JString (provider model))
        /\ get (Some payload) "settings_id" = Some (JString (providerId model))
        /\ get (Some payload) "server_id" = Some (JString (serverId model))
        /\ get (Some payload) "model" = Some (JString (name model)))
    /\ get (Some payload) "conversation_id"
       = Some (match Capture.conversationId st with
               | Some c => JString c
               | None => JNull
               end)
    /\ (forall k v, assoc k (Capture.buildMcpParams decision st) = Some v ->
                    get (get (Some payload) "params") k = Some v).
Proof.
  intros Hmodel Hprompt Hapi Hpost.
  pose proof Hprompt as Hempty. apply is_empty_false in Hempty.
  unfold Capture.sendPrompt. rewrite Hmodel, Hempty, Hapi. cbv zeta. cbn [snd].
  match goal with
  | |- context [CaptureService.sendPrompt JSON_parse ?cb (Some api) ?u ?o ?s] =>
      destruct (sendPrompt_requests JSON_parse _ cb api post u o s Hpost) as [_ Hreqs];
      pose proof (requestPayload_fields o (snd (CaptureService.initializeUserId api u)))
        as (F1 & F2 & F3 & F4 & F5 & _ & F7 & _);
      pose proof (requestPayload_params_field o
                    (snd (CaptureService.initializeUserId api u))) as Hparams;
      exists (fst (CaptureService.initializeUserId api u)),
             (CaptureService.requestPayload o (snd (CaptureService.initializeUserId api u)))
  end.
  split; [exact Hreqs|].
  split; [intros r; apply initializeUserId_requests|].
  cbn [CaptureService.prompt CaptureService.selectedModel CaptureService.conversationId]
    in F1, F2, F3, F4, F5, F7.
  rewrite (or_else_trimmed prompt Hprompt) in F1.
  split; [exact F1|]. split; [repeat split; assumption|]. split; [exact F7|].
  intros k v Hk. rewrite Hparams. clear Hparams Hreqs F1 F2 F3 F4 F5 F7.
  cbn [CaptureService.mcpParams CaptureService.approvalDecision].
  change (Capture.buildMcpParams decision _) with (Capture.buildMcpParams decision st).
  pose proof (mcp_params_distinct decision st) as Hnd.
  assert (Hspread : get (Some (JObject (spread [("temperature", JNumber "0.3");
                                               ("max_tokens", JNumber "2048")]
                                              (Capture.buildMcpParams decision st)))) k
                    = Some v).
  { unfold get, spread. now apply assoc_fold_set_present. }
  destruct decision as [d|]; [|exact Hspread].
  cbn [option_map]. destruct (String.eqb k "mcp_approval") eqn:E.
  - apply String.eqb_eq in E. subst k. unfold get. rewrite assoc_set_field_same.
    rewrite <- Hk. symmetry. apply mcp_params_approval.
  - apply String.eqb_neq in E. unfold get. rewrite assoc_set_field_other by exact E.
    exact Hspread.
Qed.

(** X15.  What a click on Send sends: when the component is idle, a
    model is selected, the input is not blank and the API service offers
    [post], the requests are those of the user lookup (to
    [/api/v1/auth/me] only) followed by one chat request.  Its one message
    is the trimmed input; provider, settings id, server id and model are
    those of the selected model; the conversation id is the one the
    component holds ([null] when it holds none); and every tool
    parameter of [buildMcpParams] is among its [params]. *)
Theorem typed_input_is_sent
        (JSON_parse : string -> option json) (P : Capture.Props)
        (st : Capture.LibraryCaptureState) (model : ModelInfo)
        (api : ApiService) (post : string -> body -> result (option json)) :
  Capture.isSubmitting st = false ->
  Capture.isProcessingTranscript st = false ->
  Capture.selectedModel st = Some model ->
  trim (Capture.inputText st) <> EmptyString ->
  Capture.api P = Some api ->
  api_post api = Some post ->
  let requests := snd (Capture.handleSend JSON_parse P st) in
  exists lookup payload,
    (requests = (lookup ++ [Post CaptureService.chat_url (BodyJson payload)])%list
     \/ requests = (lookup ++ [PostStreaming CaptureService.chat_url (BodyJson payload)])%list)
    /\ (forall r, In r lookup -> r = Get "/api/v1/auth/me")
    /\ get (Some payload) "messages"
       = Some (JArray [JObject [("role", JString "user");
                                ("content", JString (trim (Capture.inputText st)))]])
    /\ (get (Some payload) "provider" = Some (JString (provider model))
        /\ get (Some payload) "settings_id" = Some (JString (providerId model))
        /\ get (Some payload) "server_id" = Some (JString (serverId model))
        /\ get (Some payload) "model" = Some (JString (name model)))
    /\ get (Some payload) "conversation_id"
       = Some (match Capture.conversationId st with
               | Some c => JString c
               | None => JNull
               end)
    /\ (forall k v, assoc k (Capture.buildMcpParams None st) = Some v ->
                    get (get (Some payload) "params") k = Some v).
Proof.
  intros Hsub Hproc Hmodel Hinput Hapi Hpost.
  unfold Capture.handleSend. rewrite Hsub, Hproc. cbn [orb].
  pose proof Hinput as Hempty. apply is_empty_false in Hempty. rewrite Hempty.
  assert (Htrim : trim (trim (Capture.inputText st)) <> EmptyString)
    by now rewrite trim_idem.
  destruct (sendPrompt_request JSON_parse P (trim (Capture.inputText st)) None None st
              model api post Hmodel Htrim Hapi Hpost)
    as (lookup & payload & H).
  rewrite trim_idem in H. exists lookup, payload. exact H.
Qed.

(** X15, witness: the input [hello] with the first model selected. *)
Lemma typed_input_is_sent_witness :
  exists lookup payload,
    (snd (Capture.handleSend parse
            (Samples.props None (Some (Samples.service Samples.approval_frames None)))
            (Samples.ready (Samples.props None None)))
     = (lookup ++ [Post CaptureService.chat_url (BodyJson payload)])%list
     \/ snd (Capture.handleSend parse
               (Samples.props None (Some (Samples.service Samples.approval_frames None)))
               (Samples.ready (Samples.props None None)))
        = (lookup ++ [PostStreaming CaptureService.chat_url (BodyJson payload)])%list)
    /\ get (Some payload) "messages"
       = Some (JArray [JObject [("role", JString "user"); ("content", JString "hello")]]).
Proof.
  destruct (typed_input_is_sent parse
              (Samples.props None (Some (Samples.service Samples.approval_frames None)))
              (Samples.ready (Samples.props None None)) Samples.llama3
              (Samples.service Samples.approval_frames None) (fun _ _ => Resolved None)
              eq_refl eq_refl eq_refl ltac:(vm_compute; discriminate) eq_refl eq_refl)
    as (lookup & payload & Hreqs & _ & Hmessages & _).
  exists lookup, payload. split; [exact Hreqs|exact Hmessages].
Defined.

(** X16.  What a click on Approve or Deny sends: when the component is
    not submitting, holds a request for approval and has a model
    selected, and the API service offers [post], one chat request is
    issued after the user lookup.  Its message is [Approve.] or [Deny.],
    and its [params] carry as [mcp_approval] the action together with
    the id, the tool and the arguments of the request that was held. *)
Theorem approval_decision_is_sent
        (JSON_parse : string -> option json) (P : Capture.Props)
        (action : Capture.ApprovalAction)
        (st : Capture.LibraryCaptureState) (held : Capture.MCPApprovalRequest)
        (model : ModelInfo)
        (api : ApiService) (post : string -> body -> result (option json)) :
  Capture.isSubmitting st = false ->
  Capture.pendingApproval st = Some held ->
  Capture.selectedModel st = Some model ->
  Capture.api P = Some api ->
  api_post api = Some post ->
  let requests := snd (Capture.handleApprovalDecision JSON_parse P action st) in
  exists lookup payload,
    (requests = (lookup ++ [Post CaptureService.chat_url (BodyJson payload)])%list
     \/ requests = (lookup ++ [PostStreaming CaptureService.chat_url (BodyJson payload)])%list)
    /\ (forall r, In r lookup -> r = Get "/api/v1/auth/me")
    /\ get (Some payload) "messages"
       = Some (JArray [JObject [("role", JString "user");
                                ("content",
                                 JString (match action with
                                          | Capture.approve => "Approve."
                                          | Capture.reject => "Deny."
                                          end))]])
    /\ get (get (Some payload) "params") "mcp_approval"
       = Some (Capture.decision_json
                 {| Capture.action := action;
                    Capture.decision_request_id := Capture.request_id held;
                    Capture.decision_tool := Capture.tool held;
                    Capture.decision_arguments := Capture.arguments held |}).
Proof.
  intros Hsub Hheld Hmodel Hapi Hpost.
  unfold Capture.handleApprovalDecision. rewrite Hsub, Hheld.
  match goal with
  | |- context [Capture.sendPrompt JSON_parse P ?p ?d ?l st] =>
      assert (Hprompt : trim p <> EmptyString) by (destruct action; vm_compute; discriminate);
      assert (Htext : trim p = p) by (destruct action; vm_compute; reflexivity);
      destruct (sendPrompt_request JSON_parse P p d l st model api post
                  Hmodel Hprompt Hapi Hpost)
        as (lookup & payload & Hreqs & Hlookup & Hmessages & _ & _ & Hparams)
  end.
  rewrite Htext in Hmessages.
  exists lookup, payload.
  split; [exact Hreqs|]. split; [exact Hlookup|]. split; [exact Hmessages|].
  apply Hparams. now rewrite mcp_params_approval.
Qed.

(** X16, witness: the request held after the sample send is approved. *)
Lemma approval_decision_is_sent_witness :
  exists lookup payload held,
    Capture.pendingApproval Samples.awaiting = Some held
    /\ (snd (Capture.handleApprovalDecision parse
               (Samples.props None (Some (Samples.plain_service None)))
               Capture.approve Samples.awaiting)
        = (lookup ++ [Post CaptureService.chat_url (BodyJson payload)])%list
        \/ snd (Capture.handleApprovalDecision parse
                  (Samples.props None (Some (Samples.plain_service None)))
                  Capture.approve Samples.awaiting)
           = (lookup ++ [PostStreaming CaptureService.chat_url (BodyJson payload)])%list)
    /\ get (get (Some payload) "params") "mcp_approval"
       = Some (Capture.decision_json
                 {| Capture.action := Capture.approve;
                    Capture.decision_request_id := Capture.request_id held;
                    Capture.decision_tool := Capture.tool held;
                    Capture.decision_arguments := Capture.arguments held |}).
Proof.
  destruct (Capture.pendingApproval Samples.awaiting) as [held|] eqn:Hheld;
    [|vm_compute in Hheld; discriminate].
  destruct (approval_decision_is_sent parse
              (Samples.props None (Some (Samples.plain_service None)))
              Capture.approve Samples.awaiting held Samples.llama3
              (Samples.plain_service None) (fun _ _ => Resolved None)
              eq_refl Hheld eq_refl eq_refl eq_refl)
    as (lookup & payload & Hreqs & _ & _ & Hparams).
  exists lookup, payload, held. split; [reflexivity|]. split; [exact Hreqs|exact Hparams].
Defined.

(** ** The key of the page default *)

Section Keys.

Lemma prefix_colons_here (rest : string) : String.prefix "::" ("::" ++ rest) = true.
Proof. simpl. now destruct rest. Qed.

Lemma prefix_colons_not (c : ascii) (rest : string) :
  is_colon c = false -> String.prefix "::" (String c rest) = false.
Proof.
  unfold is_colon. intros H.
  change (String.prefix "::" (String c rest))
    with (if Ascii.ascii_dec ":" c then String.prefix ":" rest else false).
  destruct (Ascii.ascii_dec ":" c) as [E|E]; [|reflexivity].
  subst c. discriminate.
Qed.

Lemma none_of_colon_cons (c : ascii) (s : string) :
  none_of is_colon (String c s) = true -> is_colon c = false /\ none_of is_colon s = true.
Proof.
  simpl. destruct (is_colon c); simpl; [discriminate|auto].
Qed.

Lemma index_first_delimiter (p rest : string) :
  none_of is_colon p = true ->
  String.index 0 "::" (p ++ "::" ++ rest) = Some (String.length p).
Proof.
  induction p as [|c p IH]; intros H.
  - change (EmptyString ++ "::" ++ rest) with (String ":" (String ":" rest)).
    cbn [String.index].
    replace (String.prefix "::" (String ":" (String ":" rest))) with true; [reflexivity|].
    symmetry. apply (prefix_colons_here rest).
  - apply none_of_colon_cons in H as [Hc Hp].
    change ((String c p ++ "::" ++ rest)) with (String c (p ++ "::" ++ rest)).
    cbn [String.index]. rewrite (prefix_colons_not c _ Hc).
    rewrite (IH Hp). reflexivity.
Qed.

Lemma index_skip (a b x : string) (n : nat) :
  String.index (String.length a + n) x (a ++ b)
  = option_map (Nat.add (String.length a)) (String.index n x b).
Proof.
  induction a as [|c a IH]; simpl.
  - destruct (String.index n x b); reflexivity.
  - rewrite IH. destruct (String.index n x b); reflexivity.
Qed.

Lemma take_app (a b : string) : take (String.length a) (a ++ b) = a.
Proof. induction a as [|c a IH]; simpl; [now destruct b|now rewrite IH]. Qed.

Lemma drop_app (a b : string) : drop (String.length a) (a ++ b) = b.
Proof. induction a as [|c a IH]; simpl; [reflexivity|exact IH]. Qed.

Lemma drop_add (n k : nat) (s : string) : drop (n + k) s = drop k (drop n s).
Proof.
  revert s. induction n as [|n IH]; intros s; simpl; [reflexivity|].
  destruct s; [now destruct k|apply IH].
Qed.

Lemma drop_while_end_app (f : ascii -> bool) (a b : string) :
  b <> EmptyString -> drop_while_end f b = b -> drop_while_end f (a ++ b) = (a ++ b).
Proof.
  intros Hb Hdw. induction a as [|c a IH]; simpl; [exact Hdw|].
  rewrite IH. destruct (a ++ b) eqn:E; [|reflexivity].
  destruct a; simpl in E; [congruence|discriminate].
Qed.

Lemma drop_while_app (f : ascii -> bool) (a b : string) :
  a <> EmptyString -> drop_while f a = a -> drop_while f (a ++ b) = (a ++ b).
Proof.
  intros Ha Hdw. destruct a as [|c a]; [congruence|].
  simpl in *. destruct (f c) eqn:Fc; [|reflexivity].
  exfalso. pose proof (drop_while_length f a) as Hlen. rewrite Hdw in Hlen. simpl in Hlen. lia.
Qed.

Lemma append_nonempty_l (a b : string) : a <> EmptyString -> (a ++ b) <> EmptyString.
Proof. destruct a; simpl; [congruence|discriminate]. Qed.

Lemma append_nonempty_r (a b : string) : b <> EmptyString -> (a ++ b) <> EmptyString.
Proof. destruct a; simpl; [auto|discriminate]. Qed.

Lemma trim_between (a mid b : string) :
  a <> EmptyString -> trim a = a -> b <> EmptyString -> trim b = b ->
  trim (a ++ mid ++ b) = (a ++ mid ++ b).
Proof.
  intros Ha Hta Hb Htb.
  apply trimmed_parts in Hta as [Hda _]. apply trimmed_parts in Htb as [_ Hdb].
  unfold trim. rewrite (drop_while_app _ a _ Ha Hda).
  rewrite <- append_assoc. apply (drop_while_end_app _ (a ++ mid) b Hb Hdb).
Qed.

Lemma trim_nonblank (a b : string) (c : ascii) :
  is_whitespace c = false -> trim (a ++ String c b) <> EmptyString.
Proof.
  intros Hc. unfold trim.
  assert (Hdrop : exists a', drop_while is_whitespace (a ++ String c b) = a' ++ String c b).
  { induction a as [|x a IH]; simpl.
    - rewrite Hc. now exists EmptyString.
    - destruct (is_whitespace x); [exact IH|]. now exists (String x a). }
  destruct Hdrop as [a' ->].
  assert (Hend : forall a0, exists b', drop_while_end is_whitespace (a0 ++ String c b)
                                        = a0 ++ String c b').
  { induction a0 as [|x a0 [b' IH]].
    - simpl. destruct (drop_while_end is_whitespace b) as [|d r].
      + rewrite Hc. now exists EmptyString.
      + now exists (String d r).
    - exists b'. simpl. rewrite IH. destruct a0; reflexivity. }
  destruct (Hend a') as [b' ->]. apply append_nonempty_r. discriminate.
Qed.

Lemma toLowerCase_nonempty (s : string) : s <> EmptyString -> toLowerCase s <> EmptyString.
Proof. destruct s; simpl; [congruence|discriminate]. Qed.

End Keys.

(** A key [provider::serverId::name] is read back as its three parts
    when the first two contain no colon and every part is trimmed and
    not empty. *)
Lemma key_parses_back (P : Capture.Props) (p s m : string) :
  Capture.defaultModelKey P = Some (p ++ "::" ++ s ++ "::" ++ m) ->
  none_of is_colon p = true -> none_of is_colon s = true ->
  p <> EmptyString -> trim p = p ->
  s <> EmptyString -> trim s = s ->
  m <> EmptyString -> trim m = m ->
  Capture.parseConfiguredDefaultModelKey P
  = Some {| Capture.key_provider := p; Capture.key_serverId := Some s;
            Capture.key_modelName := m |}.
Proof.
  intros Hkey Hcp Hcs Hp Htp Hs Hts Hm Htm.
  unfold Capture.parseConfiguredDefaultModelKey, Capture.getConfiguredStringValue.
  rewrite Hkey.
  replace (p ++ "::" ++ s ++ "::" ++ m) with (p ++ ("::" ++ s ++ "::") ++ m)
    by (now rewrite !append_assoc).
  rewrite (trim_between p ("::" ++ s ++ "::") m Hp Htp Hm Htm).
  replace (p ++ ("::" ++ s ++ "::") ++ m) with (p ++ "::" ++ s ++ "::" ++ m)
    by (now rewrite !append_assoc).
  assert (Hne : is_empty (p ++ "::" ++ s ++ "::" ++ m) = false)
    by (apply is_empty_false, append_nonempty_l, Hp).
  rewrite Hne. cbn [negb]. cbv zeta.
  assert (Hfirst : indexOf "::" (p ++ "::" ++ s ++ "::" ++ m) 0
                   = Z.of_nat (String.length p)).
  { unfold indexOf. simpl Z.to_nat. now rewrite index_first_delimiter. }
  rewrite Hfirst.
  assert (Hsecond : indexOf "::" (p ++ "::" ++ s ++ "::" ++ m) (Z.of_nat (String.length p) + 2)
                    = Z.of_nat (String.length p + 2 + String.length s)).
  { unfold indexOf.
    replace (Z.to_nat (Z.of_nat (String.length p) + 2)) with (String.length p + 2) by lia.
    rewrite index_skip.
    change ("::" ++ s ++ "::" ++ m) with (String ":" (String ":" (s ++ "::" ++ m))).
    cbn [String.index Nat.add].
    rewrite (index_first_delimiter s m Hcs). cbv beta iota delta [option_map].
    apply f_equal. lia. }
  rewrite Hsecond.
  assert (Hlp : 0 < String.length p) by (destruct p; simpl; [congruence|lia]).
  assert (Hls : 0 < String.length s) by (destruct s; simpl; [congruence|lia]).
  replace ((0 <? Z.of_nat (String.length p))%Z) with true by (symmetry; apply Z.ltb_lt; lia).
  replace ((Z.of_nat (String.length p) + 2
            <? Z.of_nat (String.length p + 2 + String.length s))%Z)
    with true by (symmetry; apply Z.ltb_lt; lia).
  cbn [andb].
  assert (Hprov : slice 0 (Z.of_nat (String.length p)) (p ++ "::" ++ s ++ "::" ++ m) = p).
  { unfold slice. simpl Z.to_nat. rewrite Nat2Z.id, Nat.sub_0_r. simpl drop. apply take_app. }
  assert (Hserv : slice (Z.of_nat (String.length p) + 2)
                        (Z.of_nat (String.length p + 2 + String.length s))
                        (p ++ "::" ++ s ++ "::" ++ m) = s).
  { unfold slice.
    replace (Z.to_nat (Z.of_nat (String.length p) + 2)) with (String.length p + 2) by lia.
    rewrite Nat2Z.id.
    replace (String.length p + 2 + String.length s - (String.length p + 2))
      with (String.length s) by lia.
    rewrite drop_add, drop_app. simpl drop. apply take_app. }
  assert (Hname : drop (Z.to_nat (Z.of_nat (String.length p + 2 + String.length s) + 2))
                       (p ++ "::" ++ s ++ "::" ++ m) = m).
  { replace (Z.to_nat (Z.of_nat (String.length p + 2 + String.length s) + 2))
      with (String.length p + (2 + (String.length s + 2))) by lia.
    rewrite drop_add, drop_app.
    change ("::" ++ s ++ "::" ++ m) with (String ":" (String ":" (s ++ "::" ++ m))).
    rewrite drop_add. simpl drop at 2. rewrite drop_add, drop_app. reflexivity. }
  rewrite Hprov, Hserv, Hname, Htp, Hts, Htm.
  apply is_empty_false in Hp, Hs, Hm. rewrite Hp, Hs, Hm, Hne. reflexivity.
Qed.

Lemma find_present {A : Type} (f : A -> bool) (l : list A) (x : A) :
  In x l -> f x = true -> exists y, find f l = Some y /\ f y = true.
Proof.
  induction l as [|z l IH]; simpl; [tauto|].
  intros Hin Hx. destruct (f z) eqn:Fz; [now exists z|].
  destruct Hin as [->|Hin]; [congruence|]. now apply IH.
Qed.

(** X17.  The page default that [saveCaptureDefaultModelForPage]
    writes is the one the capture component reads.  When the props carry
    the key built for a model whose provider and server id contain no
    colon, the configured default parses to the trimmed provider, server
    id and name of that model; the model is reported as the page
    default; and once a catalogue that lists it is loaded, the model
    selected has the same provider, server id and name, up to case and
    surrounding white space. *)
Theorem saved_default_is_read_back
        (model : ModelInfo) (config : list (string * json)) (P : Capture.Props) :
  PageDefaults.buildDefaultModelConfig model = Resolved config ->
  assoc "default_model_key" config = option_map JString (Capture.defaultModelKey P) ->
  none_of is_colon (trim (provider model)) = true ->
  none_of is_colon (trim (serverId model)) = true ->
  let key := {| Capture.key_provider := trim (provider model);
                Capture.key_serverId := Some (trim (serverId model));
                Capture.key_modelName := trim (name model) |} in
  Capture.parseConfiguredDefaultModelKey P = Some key
  /\ (forall saved, Capture.isModelConfiguredAsPageDefault P saved (Some model) = true)
  /\ (forall st, In model (Capture.models st) ->
                 exists chosen,
                   Capture.selectedModel (Capture.applyConfiguredModelDefault P st)
                   = Some chosen
                   /\ Capture.answers key chosen).
Proof.
  intros Hconfig Hprops Hcp Hcs key.
  unfold PageDefaults.buildDefaultModelConfig in Hconfig. cbv zeta in Hconfig.
  destruct (is_empty (trim (provider model))) eqn:Ep; [discriminate|].
  destruct (is_empty (trim (serverId model))) eqn:Es; [discriminate|].
  destruct (is_empty (trim (name model))) eqn:En; [discriminate|].
  simpl in Hconfig. inversion Hconfig; subst config; clear Hconfig.
  simpl in Hprops.
  destruct (Capture.defaultModelKey P) as [k|] eqn:Hkey; [|discriminate].
  simpl in Hprops. inversion Hprops; subst k; clear Hprops.
  assert (Hparse : Capture.parseConfiguredDefaultModelKey P = Some key).
  { apply key_parses_back; try assumption; try apply trim_idem; now apply is_empty_false. }
  assert (Hmatch : Capture.model_matches key model = true).
  { unfold Capture.model_matches, Capture.normalize. subst key. simpl.
    rewrite !trim_idem, !String.eqb_refl, Es. reflexivity. }
  split; [exact Hparse|]. split.
  - intros saved. unfold Capture.isModelConfiguredAsPageDefault. cbv zeta.
    assert (Hk : is_empty (toLowerCase (trim (Capture.getModelOptionValue model))) = false).
    { apply is_empty_false, toLowerCase_nonempty. unfold Capture.getModelOptionValue.
      change (provider model ++ "::" ++ serverId model ++ "::" ++ name model)
        with (provider model ++ String ":" (":" ++ serverId model ++ "::" ++ name model)).
      now apply trim_nonblank. }
    rewrite Hk.
    match goal with |- (if ?c then true else _) = true => destruct c; [reflexivity|] end.
    rewrite Hparse. exact Hmatch.
  - intros st Hin. unfold Capture.applyConfiguredModelDefault.
    destruct (Capture.models st) as [|first rest] eqn:Hmodels; [contradiction|].
    rewrite Hparse. cbv zeta.
    destruct (find_present (Capture.model_matches key) (first :: rest) model Hin Hmatch)
      as (chosen & Hfind & Hchosen).
    rewrite Hfind. exists chosen. split; [reflexivity|].
    now apply model_matches_answers.
Qed.

(** X17, witness: the first sample model saved as the page default. *)
Lemma saved_default_is_read_back_witness :
  Capture.isModelConfiguredAsPageDefault
    (Samples.props (Some "ollama::s1::llama3") None) None (Some Samples.llama3) = true.
Proof.
  refine (proj1 (proj2
    (saved_default_is_read_back Samples.llama3
       [ ("default_model_key", JString "ollama::s1::llama3");
         ("default_model_provider", JString "ollama");
         ("default_model_server_id", JString "s1");
         ("default_model_name", JString "llama3");
         ("default_model_provider_id", JString "ollama_servers_settings");
         ("default_model_server_name", JString "Local") ]
       (Samples.props (Some "ollama::s1::llama3") None) _ _ _ _)) None);
    vm_compute; reflexivity.
Defined.

(** ** The file service *)

Section Fallback.

Import Editor.

Lemma trimmed_text_clean (v : option json) (m : string) :
  trimmed_text v = Some m -> m <> EmptyString /\ trim m = m.
Proof.
  unfold trimmed_text. destruct (as_string v) as [text|]; [|discriminate].
  destruct (is_empty (trim text)) eqn:E; [discriminate|].
  intros H. inversion H; subst m. split; [now apply is_empty_false|apply trim_idem].
Qed.

Lemma first_some_clean (a b : option string) (m : string) :
  (forall x, a = Some x -> x <> EmptyString /\ trim x = x) ->
  (forall x, b = Some x -> x <> EmptyString /\ trim x = x) ->
  first_some a b = Some m -> m <> EmptyString /\ trim m = m.
Proof. destruct a; simpl; intros Ha Hb H; auto. Qed.

Lemma extractErrorMessage_clean (payload : option json) (m : string) :
  extractErrorMessage payload = Some m -> m <> EmptyString /\ trim m = m.
Proof.
  unfold extractErrorMessage.
  destruct (negb (truthy payload) || negb (typeof_object payload)); [discriminate|].
  apply first_some_clean; [intros x; apply trimmed_text_clean|intros x].
  apply first_some_clean; [intros y; apply trimmed_text_clean|intros y].
  apply first_some_clean;
    [intros z; destruct (is_objectlike _); [apply trimmed_text_clean|discriminate]|intros z].
  apply first_some_clean; [intros w; apply trimmed_text_clean|intros w].
  destruct (is_objectlike _); [apply trimmed_text_clean|discriminate].
Qed.

Lemma extractErrorMessageFromException_clean (error : option json) (m : string) :
  extractErrorMessageFromException error = Some m -> m <> EmptyString /\ trim m = m.
Proof.
  unfold extractErrorMessageFromException.
  destruct (negb (truthy error) || negb (typeof_object error)); [discriminate|]. cbv zeta.
  apply first_some_clean; [intros x; apply extractErrorMessage_clean|intros x].
  apply first_some_clean; [intros y; apply extractErrorMessage_clean|intros y].
  destruct (trimmed_text (get error "message")) as [normalized|] eqn:E; [|discriminate].
  destruct (is_status_code_message normalized); [discriminate|].
  intros H. inversion H; subst y. now apply (trimmed_text_clean _ _ E).
Qed.

Lemma final_error_clean (lastError : option exn) (extracted : option string) :
  (forall x, extracted = Some x -> x <> EmptyString /\ trim x = x) ->
  exists m, final_error lastError extracted = ErrorObj m /\ m <> EmptyString /\ trim m = m.
Proof.
  intros Hext. unfold final_error.
  destruct extracted as [message|]; [exists message; split; [reflexivity|now apply Hext]|].
  assert (Hfallback : exists m, ErrorObj "Library API request failed." = ErrorObj m
                                /\ m <> EmptyString /\ trim m = m).
  { eexists. split; [reflexivity|]. split; [discriminate|reflexivity]. }
  destruct lastError as [e|]; [|exact Hfallback].
  destruct (truthy (caught e) && typeof_object (caught e)); [|exact Hfallback].
  destruct (trimmed_text _) as [message|] eqn:E; [|exact Hfallback].
  exists message. split; [reflexivity|now apply (trimmed_text_clean _ _ E)].
Qed.

Variables (api : ApiService) (method : Method) (endpoint : string) (payload : json).

Lemma try_bases_first_success (before : list string) (e : string) (after : list string)
      (response : option json) (lastError : option exn) (extracted : option string) :
  (forall b, In b before ->
             exists err, snd (attempt api method (b ++ endpoint) payload) = Rejected err) ->
  snd (attempt api method (e ++ endpoint) payload) = Resolved response ->
  try_bases api method endpoint payload (before ++ e :: after) lastError extracted
  = (flat_map (fun b => fst (attempt api method (b ++ endpoint) payload)) (before ++ [e]),
     Resolved (normalizeResponse response)).
Proof.
  intros Hbefore He. revert lastError extracted.
  induction before as [|b before IH]; intros lastError extracted; simpl.
  - destruct (attempt api method (e ++ endpoint) payload) as [reqs settled].
    simpl in He. subst settled. simpl. now rewrite app_nil_r.
  - destruct (Hbefore b (or_introl eq_refl)) as [err Hb].
    destruct (attempt api method (b ++ endpoint) payload) as [reqs settled].
    simpl in Hb. subst settled.
    rewrite IH by (intros x Hx; apply Hbefore; now right). reflexivity.
Qed.

Lemma try_bases_failure (bases : list string) (lastError : option exn)
      (extracted : option string) (e : exn) :
  (forall x, extracted = Some x -> x <> EmptyString /\ trim x = x) ->
  snd (try_bases api method endpoint payload bases lastError extracted) = Rejected e ->
  fst (try_bases api method endpoint payload bases lastError extracted)
  = flat_map (fun b => fst (attempt api method (b ++ endpoint) payload)) bases
  /\ exists m, e = ErrorObj m /\ m <> EmptyString /\ trim m = m.
Proof.
  revert lastError extracted.
  induction bases as [|b bases IH]; intros lastError extracted Hext; simpl.
  - intros H. inversion H. split; [reflexivity|]. now apply final_error_clean.
  - destruct (attempt api method (b ++ endpoint) payload) as [reqs [response|err]];
      [discriminate|].
    specialize (IH (Some err)
                   (first_some (extractErrorMessageFromException (caught err)) extracted)).
    destruct (try_bases api method endpoint payload bases (Some err) _) as [more outcome].
    simpl. intros H. destruct IH as [Hreqs Hm]; [|exact H|].
    + intros x. apply first_some_clean; [|exact Hext].
      intros y. apply extractErrorMessageFromException_clean.
    + simpl in Hreqs. now rewrite Hreqs.
Qed.

End Fallback.

Lemma fallback_failure
      (api : ApiService) (method : Editor.Method) (endpoint : string) (payload : json)
      (e : exn) :
  snd (Editor.requestWithFallback (Some api) method endpoint payload) = Rejected e ->
  exists m, e = ErrorObj m /\ m <> EmptyString /\ trim m = m.
Proof.
  unfold Editor.requestWithFallback. intros H.
  apply (try_bases_failure api method endpoint payload Editor.API_BASE_CANDIDATES
           None None e); [discriminate|exact H].
Qed.

(** X18.  The file service tries its candidate prefixes in order and
    stops at the first that succeeds: when the requests under the
    prefixes before it fail and the request under one prefix succeeds,
    the requests issued are those under the prefixes up to and including
    that one, and the result is the [data] of its answer when that is an
    object and the answer itself otherwise. *)
Theorem fallback_stops_at_first_success
        (api : ApiService) (method : Editor.Method) (endpoint : string) (payload : json)
        (before : list string) (e : string) (after : list string) (response : option json) :
  Editor.API_BASE_CANDIDATES = (before ++ e :: after)%list ->
  (forall b, In b before ->
             exists err,
               snd (Editor.attempt api method (b ++ endpoint) payload) = Rejected err) ->
  snd (Editor.attempt api method (e ++ endpoint) payload) = Resolved response ->
  Editor.requestWithFallback (Some api) method endpoint payload
  = (flat_map (fun b => fst (Editor.attempt api method (b ++ endpoint) payload))
              (before ++ [e]),
     Resolved (Editor.normalizeResponse response)).
Proof.
  intros Hsplit Hbefore He. unfold Editor.requestWithFallback. rewrite Hsplit.
  now apply try_bases_first_success.
Qed.

(** X18, witness: a service that answers under the second prefix. *)
Lemma fallback_stops_at_first_success_witness :
  Editor.requestWithFallback (Some Samples.editor_service) Editor.get_method "/tree?path=" JNull
  = ([ Get "/api/v1/plugin-api/braindrive-library/library/editor/tree?path=";
       Get "/api/v1/plugin-api/BrainDriveLibraryPlugin/library/editor/tree?path=" ],
     Resolved (Some (JObject [("success", JBool true); ("items", JArray [])]))).
Proof.
  refine (fallback_stops_at_first_success Samples.editor_service Editor.get_method
            "/tree?path=" JNull
            ["/api/v1/plugin-api/braindrive-library/library/editor"]
            "/api/v1/plugin-api/BrainDriveLibraryPlugin/library/editor"
            ["/api/v1/plugin-api/BrainDriveLibraryService/library/editor"]
            (Some (JObject [("data", JObject [("success", JBool true);
                                              ("items", JArray [])])])) _ _ _).
  - reflexivity.
  - intros b [<-|[]]. eexists. vm_compute. reflexivity.
  - vm_compute. reflexivity.
Defined.

(** X19.  A request of the file service that fails has tried every
    candidate prefix, in order, and fails with an [Error] whose message
    is trimmed and not empty, whatever the transport threw. *)
Theorem fallback_failure_has_message
        (api : ApiService) (method : Editor.Method) (endpoint : string) (payload : json)
        (e : exn) :
  snd (Editor.requestWithFallback (Some api) method endpoint payload) = Rejected e ->
  fst (Editor.requestWithFallback (Some api) method endpoint payload)
  = flat_map (fun b => fst (Editor.attempt api method (b ++ endpoint) payload))
             Editor.API_BASE_CANDIDATES
  /\ exists m, e = ErrorObj m /\ m <> EmptyString /\ trim m = m.
Proof.
  unfold Editor.requestWithFallback. intros H.
  apply (try_bases_failure api method endpoint payload Editor.API_BASE_CANDIDATES
           None None e); [discriminate|exact H].
Qed.

(** X19, witness: a service whose every [get] fails. *)
Lemma fallback_failure_has_message_witness :
  exists m,
    ErrorObj "Unauthorized" = ErrorObj m /\ m <> EmptyString /\ trim m = m.
Proof.
  refine (proj2 (fallback_failure_has_message Samples.anonymous_service Editor.get_method
                   "/tree?path=" JNull (ErrorObj "Unauthorized") _)).
  vm_compute. reflexivity.
Defined.

(** X20.  [saveFile] resolves only with an answer that reports
    success; every other outcome is an [Error] with a message that is
    not empty. *)
Theorem saveFile_resolves_only_on_success
        (api : option ApiService) (path content : string) :
  match snd (Editor.saveFile api path content) with
  | Resolved answer => truthy (get (Some answer) "success") = true
  | Rejected e => exists m, e = ErrorObj m /\ m <> EmptyString
  end.
Proof.
  unfold Editor.saveFile.
  destruct (Editor.requestWithFallback api Editor.put_method "/file" _)
    as [reqs settled] eqn:Hreq.
  cbn [snd]. unfold bind. destruct settled as [answer|e].
  - destruct answer as [answer|]; [|eexists; split; [reflexivity|discriminate]].
    destruct (truthy (get (Some answer) "success")) eqn:Hok; [exact Hok|].
    destruct (Editor.extractErrorMessage (Some answer)) as [m|] eqn:Hm.
    + exists m. split; [reflexivity|]. now apply (extractErrorMessage_clean _ _ Hm).
    + eexists. split; [reflexivity|discriminate].
  - destruct api as [api|].
    + pose proof (fallback_failure api Editor.put_method "/file"
                    (JObject [("path", JString path); ("content", JString content)]) e)
        as H.
      rewrite Hreq in H. destruct (H eq_refl) as (m & -> & Hne & _). now exists m.
    + simpl in Hreq. inversion Hreq. eexists. split; [reflexivity|discriminate].
Qed.

Lemma lower_char_backslash (c : ascii) :
  is_backslash c = false -> is_backslash (lower_char c) = false.
Proof.
  destruct c as [[] [] [] [] [] [] [] []]; vm_compute; congruence.
Qed.

Lemma none_of_backslash_lower (s : string) :
  none_of is_backslash s = true -> none_of is_backslash (toLowerCase s) = true.
Proof.
  induction s as [|c s IH]; simpl; [reflexivity|].
  intros H. apply andb_true_iff in H as [Hc Hs]. apply negb_true_iff in Hc.
  now rewrite (lower_char_backslash c Hc), IH.
Qed.

Lemma none_of_take (g : ascii -> bool) (n : nat) (s : string) :
  none_of g s = true -> none_of g (take n s) = true.
Proof.
  revert s. induction n as [|n IH]; intros s; [reflexivity|].
  destruct s as [|c s]; simpl; [reflexivity|].
  intros H. apply andb_true_iff in H as [Hc Hs]. now rewrite Hc, IH.
Qed.

Lemma status_code_message_has_backslash (text : string) :
  none_of is_backslash text = true -> Editor.is_status_code_message text = false.
Proof.
  intros H. unfold Editor.is_status_code_message. cbv zeta.
  match goal with
  | |- String.eqb ?a ?b && _ && _ = false => destruct (String.eqb_spec a b) as [E|E]
  end; [|reflexivity].
  exfalso.
  assert (Hlow : none_of is_backslash
                   (toLowerCase (take (String.length "Request failed with status code \")
                                      text)) = true)
    by now apply none_of_backslash_lower, none_of_take.
  rewrite E in Hlow. vm_compute in Hlow. discriminate.
Qed.

(** X21.  An [Error] thrown by the transport is reported with its own
    message, trimmed, whenever that message is not blank and contains
    no backslash: the pattern that withholds status-code messages asks
    for a backslash followed by the letter d, so a message such as
    [Request failed with status code 404] is reported like any other. *)
Theorem error_message_without_backslash_is_reported (message : string) :
  trim message <> EmptyString ->
  none_of is_backslash message = true ->
  Editor.is_status_code_message (trim message) = false
  /\ Editor.extractErrorMessageFromException (Editor.caught (ErrorObj message))
     = Some (trim message).
Proof.
  intros Hne Hnone.
  assert (Hkept : Editor.is_status_code_message (trim message) = false).
  { apply status_code_message_has_backslash. unfold trim.
    now apply none_of_drop_while_end, none_of_drop_while. }
  split; [exact Hkept|].
  unfold Editor.extractErrorMessageFromException. simpl.
  apply is_empty_false in Hne. unfold Editor.trimmed_text. simpl. now rewrite Hne, Hkept.
Qed.

(** X21, witness: the message of a failed request with status 404. *)
Lemma error_message_without_backslash_is_reported_witness :
  Editor.extractErrorMessageFromException
    (Editor.caught (ErrorObj "Request failed with status code 404"))
  = Some "Request failed with status code 404".
Proof.
  refine (proj2 (error_message_without_backslash_is_reported
                   "Request failed with status code 404" _ _)).
  - vm_compute. discriminate.
  - vm_compute. reflexivity.
Defined.

(** ** Paths of the navigator *)

Section Segments.

Variable sep : ascii.

Lemma split_nonempty (s : string) : split sep s <> [].
Proof.
  induction s as [|c s IH]; simpl; [discriminate|].
  destruct (Ascii.eqb c sep); [discriminate|].
  destruct (split sep s); discriminate.
Qed.

Lemma join_split (s : string) : join (String sep EmptyString) (split sep s) = s.
Proof.
  induction s as [|c s IH]; simpl; [reflexivity|].
  pose proof (split_nonempty s) as Hne.
  destruct (Ascii.eqb_spec c sep) as [->|Hc].
  - destruct (split sep s) as [|h t]; [congruence|].
    change (join (String sep EmptyString) (EmptyString :: h :: t))
      with (String sep (join (String sep EmptyString) (h :: t))).
    now rewrite IH.
  - destruct (split sep s) as [|h t]; [congruence|].
    destruct t as [|h' t].
    + simpl in *. now rewrite IH.
    + change (join (String sep EmptyString) (String c h :: h' :: t))
        with (String c (join (String sep EmptyString) (h :: h' :: t))).
      now rewrite IH.
Qed.

Lemma join_last (l : list string) (x : string) :
  l <> [] ->
  join (String sep EmptyString) (l ++ [x])
  = join (String sep EmptyString) l ++ String sep EmptyString ++ x.
Proof.
  induction l as [|h t IH]; [congruence|]. intros _.
  destruct t as [|h' t]; [reflexivity|].
  change (join (String sep EmptyString) ((h :: h' :: t) ++ [x]))
    with (h ++ String sep EmptyString ++ join (String sep EmptyString) ((h' :: t) ++ [x])).
  rewrite IH by discriminate.
  change (join (String sep EmptyString) (h :: h' :: t))
    with (h ++ String sep EmptyString ++ join (String sep EmptyString) (h' :: t)).
  now rewrite !append_assoc.
Qed.

Lemma split_segments (s : string) (part : string) :
  In part (split sep s) -> none_of (fun c => Ascii.eqb c sep) part = true.
Proof.
  revert part. induction s as [|c s IH]; simpl; intros part.
  - intros [<-|[]]. reflexivity.
  - destruct (Ascii.eqb c sep) eqn:Hc.
    + intros [<-|Hin]; [reflexivity|now apply IH].
    + pose proof (split_nonempty s) as Hne.
      destruct (split sep s) as [|h t]; [congruence|].
      intros [<-|Hin].
      * simpl. rewrite Hc. simpl. apply IH. now left.
      * apply IH. now right.
Qed.

End Segments.

Lemma length_append (a b : string) :
  String.length (a ++ b) = String.length a + String.length b.
Proof. induction a as [|c a IH]; simpl; [reflexivity|now rewrite IH]. Qed.

Lemma drop_while_end_last (f : ascii -> bool) (s : string) (c : ascii) :
  f c = true -> drop_while_end f (s ++ String c EmptyString) = drop_while_end f s.
Proof.
  intros Hc. induction s as [|d s IH]; simpl; [now rewrite Hc|]. now rewrite IH.
Qed.

Lemma cleaned_stable (p : string) :
  drop_while_end is_slash (Editor.cleaned p) = Editor.cleaned p.
Proof. unfold Editor.cleaned. apply drop_while_end_idem. Qed.

(** X22.  [relativeParent] cuts the last segment off the cleaned path:
    a cleaned path without a slash has the empty parent, and any other
    cleaned path is its parent, a slash and a last segment that is not
    empty and contains no slash.  The parent of the empty path is
    empty. *)
Theorem relativeParent_cuts_last_segment (path : string) :
  (Editor.cleaned path = EmptyString -> Editor.relativeParent path = EmptyString)
  /\ (Editor.cleaned path <> EmptyString ->
      exists name,
        name <> EmptyString
        /\ none_of is_slash name = true
        /\ ((Editor.relativeParent path = EmptyString /\ Editor.cleaned path = name)
            \/ Editor.cleaned path = Editor.relativeParent path ++ "/" ++ name)).
Proof.
  unfold Editor.relativeParent. split.
  - intros ->. reflexivity.
  - intros Hne. pose proof Hne as Hempty. apply is_empty_false in Hempty. rewrite Hempty.
    pose proof (join_split "/" (Editor.cleaned path)) as Hjoin.
    pose proof (split_nonempty "/" (Editor.cleaned path)) as Hparts.
    pose proof (split_segments "/" (Editor.cleaned path)) as Hsegs.
    destruct (exists_last Hparts) as (front & name & Hsplit).
    rewrite Hsplit in *. rewrite removelast_last.
    assert (Hname : none_of is_slash name = true)
      by (apply Hsegs, in_or_app; right; now left).
    assert (Hlast : name <> EmptyString).
    { intros ->. destruct front as [|h t].
      - simpl in Hjoin. congruence.
      - rewrite join_last in Hjoin by discriminate.
        pose proof (cleaned_stable path) as Hstable.
        rewrite <- Hjoin in Hstable.
        change (join "/" (h :: t) ++ "/" ++ EmptyString)
          with (join "/" (h :: t) ++ String "/" EmptyString) in Hstable.
        rewrite drop_while_end_last in Hstable by reflexivity.
        pose proof (drop_while_end_length is_slash (join "/" (h :: t))) as Hlen.
        rewrite Hstable in Hlen. rewrite length_append in Hlen. simpl in Hlen. lia. }
    exists name. split; [exact Hlast|]. split; [exact Hname|].
    destruct front as [|h t].
    + left. split; [reflexivity|]. simpl in Hjoin. congruence.
    + right. rewrite <- Hjoin. now apply join_last.
Qed.

(** X22, witness: a path given with backslashes and a final slash. *)
Lemma relativeParent_cuts_last_segment_witness :
  exists name,
    name <> EmptyString
    /\ none_of is_slash name = true
    /\ ((Editor.relativeParent "docs\notes/a.md/" = EmptyString
         /\ Editor.cleaned "docs\notes/a.md/" = name)
        \/ Editor.cleaned "docs\notes/a.md/"
           = Editor.relativeParent "docs\notes/a.md/" ++ "/" ++ name).
Proof.
  apply (proj2 (relativeParent_cuts_last_segment "docs\notes/a.md/")).
  vm_compute. discriminate.
Defined.

(** ** What the defaults writer changes *)

Lemma assoc_fold_set_fresh (k : string) (e : list (string * json)) :
  NoDup (map fst e) ->
  assoc k (fold_left (fun acc kv => set_field (fst kv) (snd kv) acc) e []) = assoc k e.
Proof.
  intros Hnd. destruct (assoc k e) as [v|] eqn:E.
  - now apply assoc_fold_set_present.
  - now rewrite assoc_fold_set_absent.
Qed.

(** X23.  Writing the default model into a module's [config] (or a
    layout item's [args]) keeps everything else: the other properties of
    the module are as they were, the properties of the model are the
    ones written, and every other property of the existing
    configuration keeps its value. *)
Theorem merge_keeps_other_settings
        (key : string) (modelConfig : list (string * json)) (fs : list (string * json)) :
  NoDup (map fst modelConfig) ->
  NoDup (map fst (entries (PageDefaults.object_or_empty (assoc key fs)))) ->
  let merged := Some (PageDefaults.merge_into key modelConfig (JObject fs)) in
  (forall k, k <> key -> get merged k = assoc k fs)
  /\ (forall k v, assoc k modelConfig = Some v -> get (get merged key) k = Some v)
  /\ (forall k, assoc k modelConfig = None ->
                get (get merged key) k
                = assoc k (entries (PageDefaults.object_or_empty (assoc key fs)))).
Proof.
  intros Hnew Hold merged. subst merged. unfold PageDefaults.merge_into. cbv zeta.
  unfold get at 1 3 5. rewrite !assoc_set_field_same.
  split; [intros k Hk; now apply assoc_set_field_other|].
  unfold get, spread. split.
  - intros k v Hk. now apply assoc_fold_set_present.
  - intros k Hk. rewrite assoc_fold_set_absent by exact Hk.
    now apply assoc_fold_set_fresh.
Qed.

(** X23, witness: the model written over a configuration that has a
    setting of its own. *)
Lemma merge_keeps_other_settings_witness :
  get (get (Some (PageDefaults.merge_into "config"
                    [("default_model_name", JString "llama3")]
                    (JObject [("moduleName", JString "LibraryCapture");
                              ("config", JObject [("a", JNumber "1")])])))
           "config") "a"
  = Some (JNumber "1").
Proof.
  refine (proj2 (proj2
    (merge_keeps_other_settings "config" [("default_model_name", JString "llama3")]
       [("moduleName", JString "LibraryCapture"); ("config", JObject [("a", JNumber "1")])]
       _ _)) "a" _).
  - repeat constructor; simpl; intuition discriminate.
  - repeat constructor; simpl; intuition discriminate.
  - reflexivity.
Defined.

Lemma combine_updates {A B : Type} (f : A * B -> B) (l : list (A * B)) :
  combine (map fst l) (map f l) = map (fun kv => (fst kv, f kv)) l.
Proof. induction l as [|[a b] l IH]; simpl; [reflexivity|now rewrite IH]. Qed.

Lemma total_counts {A : Type} (hit : A -> bool) (l : list A) :
  PageDefaults.total (map (fun x => if hit x then 1 else 0) l) = length (filter hit l).
Proof.
  induction l as [|x l IH]; simpl; [reflexivity|].
  destruct (hit x); simpl; now rewrite IH.
Qed.

(** X24.  The scan of the modules of a page is local: the modules keep
    their keys and their order, a module that is not an object or does
    not match the capture target is written back as it was, a module
    that matches gets the model merged into its [config], the other
    properties of the page content are untouched, and the number
    reported is the number of modules that matched. *)
Theorem modules_scan_is_local
        (fs mods : list (string * json)) (modelConfig : list (string * json))
        (requestedModuleId : string) :
  assoc "modules" fs = Some (JObject mods) ->
  let hit := fun entry : string * json =>
               is_objectlike (Some (snd entry))
               && PageDefaults.moduleDefinitionMatchesCaptureTarget
                    (fst entry) (Some (snd entry)) requestedModuleId in
  let scanned :=
    PageDefaults.applyDefaultModelToModules (JObject fs) modelConfig requestedModuleId in
  get (Some (fst scanned)) "modules"
  = Some (JObject
            (map (fun entry =>
                    (fst entry,
                     if hit entry
                     then PageDefaults.merge_into "config" modelConfig (snd entry)
                     else snd entry)) mods))
  /\ (forall k, k <> "modules" -> get (Some (fst scanned)) k = assoc k fs)
  /\ snd scanned = length (filter hit mods).
Proof.
  intros Hmods hit scanned. subst scanned.
  unfold PageDefaults.applyDefaultModelToModules. cbv zeta.
  unfold get. rewrite !Hmods.
  cbn [is_objectlike negb entries PageDefaults.rebuild fst snd].
  rewrite assoc_set_field_same.
  assert (Hupd : forall entry,
             PageDefaults.update_module modelConfig requestedModuleId entry
             = (if hit entry
                then PageDefaults.merge_into "config" modelConfig (snd entry)
                else snd entry,
                if hit entry then 1 else 0)).
  { intros [k def]. unfold PageDefaults.update_module, hit. cbn [fst snd].
    destruct (is_objectlike (Some def)); [|reflexivity].
    destruct (PageDefaults.moduleDefinitionMatchesCaptureTarget k (Some def) _); reflexivity. }
  split; [|split].
  - f_equal. f_equal. rewrite map_map, combine_updates.
    apply map_ext. intros entry. now rewrite Hupd.
  - intros k Hk. now apply assoc_set_field_other.
  - rewrite map_map. rewrite <- (total_counts hit mods). f_equal.
    apply map_ext. intros entry. now rewrite Hupd.
Qed.

(** X24, witness: a page with the capture module and a chat module. *)
Lemma modules_scan_is_local_witness :
  snd (PageDefaults.applyDefaultModelToModules
         (JObject [("modules",
                    JObject [("m1", JObject [("moduleName", JString "LibraryCapture")]);
                             ("m2", JObject [("moduleName", JString "Chat")])])])
         [("default_model_name", JString "llama3")] EmptyString)
  = 1.
Proof.
  refine (eq_trans (proj2 (proj2
    (modules_scan_is_local
       [("modules",
         JObject [("m1", JObject [("moduleName", JString "LibraryCapture")]);
                  ("m2", JObject [("moduleName", JString "Chat")])])]
       [("m1", JObject [("moduleName", JString "LibraryCapture")]);
        ("m2", JObject [("moduleName", JString "Chat")])]
       [("default_model_name", JString "llama3")] EmptyString _))) _).
  - reflexivity.
  - vm_compute. reflexivity.
Defined.

(** ** Transcripts that cannot be used *)

(** X25.  A transcript that cannot be prepared sends nothing to the
    model: when the upload fails or yields no text, the only requests
    are those of the upload, the failure is recorded as the transcript
    error and announced by one system message marked as an error, the
    earlier messages and the selected model stay as they were, and the
    component is no longer processing a transcript. *)
Theorem failed_transcript_sends_nothing
        (JSON_parse : string -> option json) (P : Capture.Props) (file : File)
        (dateIso : string) (st : Capture.LibraryCaptureState)
        (reqs : list request) (e : exn) :
  Capture.prepare_transcript P file dateIso st = (reqs, Rejected e) ->
  let after := Capture.handleTranscriptSelected JSON_parse P (Some file) dateIso st in
  let message := Capture.message_of e "Transcript processing failed." in
  snd after = reqs
  /\ (forall r, In r reqs -> r = Post "/api/v1/documents/process" (BodyForm file))
  /\ Capture.transcriptError (fst after) = Some message
  /\ Capture.isProcessingTranscript (fst after) = false
  /\ Capture.selectedModel (fst after) = Capture.selectedModel st
  /\ exists notice,
       Capture.messages (fst after) = (Capture.messages st ++ [notice])%list
       /\ Capture.sender notice = Capture.system
       /\ Capture.isError notice = true
       /\ Capture.content notice = "Transcript upload failed: " ++ message.
Proof.
  intros Hprep after message. subst after message.
  unfold Capture.handleTranscriptSelected.
  change (Capture.prepare_transcript P file dateIso
            (Capture.set_transcriptError None (Capture.set_isProcessingTranscript true st)))
    with (Capture.prepare_transcript P file dateIso st).
  rewrite Hprep. cbn [fst snd].
  split; [apply app_nil_r|].
  split.
  { intros r Hin. unfold Capture.prepare_transcript in Hprep.
    destruct (CaptureService.processDocument (Capture.api P) file) as [reqs0 processed] eqn:Hdoc.
    inversion Hprep; subst reqs0. clear Hprep.
    unfold CaptureService.processDocument in Hdoc.
    destruct (Capture.api P) as [api|]; [|inversion Hdoc; subst; contradiction].
    destruct (api_post api) as [post|]; [|inversion Hdoc; subst; contradiction].
    assert (Hreqs : reqs = [Post "/api/v1/documents/process" (BodyForm file)]).
    { destruct (post _ _) as [response|err]; [|now inversion Hdoc].
      repeat match type of Hdoc with
             | context [match ?x with _ => _ end] => destruct x
             end; now inversion Hdoc. }
    rewrite Hreqs in Hin. destruct Hin as [<-|[]]. reflexivity. }
  repeat split. eexists. repeat split.
Qed.

(** X25, witness: an upload from which only blanks were extracted. *)
Lemma failed_transcript_sends_nothing_witness :
  Capture.transcriptError
    (fst (Capture.handleTranscriptSelected parse
            (Samples.props None (Some (Samples.plain_service (Samples.extraction "  "))))
            (Some Samples.minutes) "2024-05-01"
            (Samples.ready (Samples.props None None))))
  = Some "No transcript text was extracted from the uploaded file.".
Proof.
  refine (proj1 (proj2 (proj2
    (failed_transcript_sends_nothing parse
       (Samples.props None (Some (Samples.plain_service (Samples.extraction "  "))))
       Samples.minutes "2024-05-01" (Samples.ready (Samples.props None None))
       [Post "/api/v1/documents/process" (BodyForm Samples.minutes)]
       (ErrorObj "No transcript text was extracted from the uploaded file.") _)))).
  vm_compute. reflexivity.
Defined.

(** ** A scope chosen by the backend *)

Lemma toLowerCase_empty (s : string) : toLowerCase s = EmptyString -> s = EmptyString.
Proof. destruct s; simpl; [reflexivity|discriminate]. Qed.

(** X26.  A [project_scope_selected] event adopts a listed scope and
    nothing else: when its path, once normalized, is not empty and is
    the path of a listed scope (up to case), the scope is enabled, the
    path becomes the selected one, the scope is the selected option and
    the next request is in scope mode [project]; when no listed scope
    has that path the state is left as it is. *)
Theorem scope_event_adopts_listed_scope
        (event : json) (text : string) (st : Capture.LibraryCaptureState) :
  get (Some event) "type" = Some (JString "project_scope_selected") ->
  get (Some event) "scope_path" = Some (JString text) ->
  Capture.normalizePath text <> EmptyString ->
  (forall matched,
      find (Capture.path_is (Capture.normalizePath text)) (Capture.scopeOptions st)
      = Some matched ->
      exists st',
        Capture.handleMetadataEvent event st = Resolved st'
        /\ Capture.scopeEnabled st' = true
        /\ Capture.selectedScopePath st' = Some (Capture.normalizePath text)
        /\ Capture.getSelectedScopeOption st' = Some matched
        /\ assoc "mcp_scope_mode" (Capture.buildMcpParams None st')
           = Some (JString "project"))
  /\ (find (Capture.path_is (Capture.normalizePath text)) (Capture.scopeOptions st) = None ->
      Capture.handleMetadataEvent event st = Resolved st).
Proof.
  intros Htype Hpath Hne. pose proof Hne as Hempty. apply is_empty_false in Hempty.
  split.
  - intros matched Hfind. eexists. split.
    + unfold Capture.handleMetadataEvent. rewrite Htype, Hpath. cbn -[Capture.normalizePath find].
      rewrite Hempty, Hfind. reflexivity.
    + assert (Hsel : Capture.getSelectedScopeOption
                       (Capture.set_activityStatus
                          (Some ("Using scope: " ++ scope_name matched ++ "."))
                          (Capture.set_selectedScopePath (Some (Capture.normalizePath text))
                             (Capture.set_scopeEnabled true st)))
                     = Some matched).
      { unfold Capture.getSelectedScopeOption. cbn [Capture.selectedScopePath
          Capture.set_activityStatus Capture.set_selectedScopePath Capture.set_scopeEnabled
          Capture.scopeOptions].
        now rewrite Hempty. }
      split; [reflexivity|]. split; [reflexivity|]. split; [exact Hsel|].
      destruct (scope_mode_is_project None
                  (Capture.set_activityStatus
                     (Some ("Using scope: " ++ scope_name matched ++ "."))
                     (Capture.set_selectedScopePath (Some (Capture.normalizePath text))
                        (Capture.set_scopeEnabled true st)))) as [_ Hmode].
      apply Hmode. exists matched. split; [reflexivity|]. split; [exact Hsel|].
      apply find_in in Hfind as [_ Hpathis]. unfold Capture.path_is in Hpathis.
      apply String.eqb_eq in Hpathis. intros Hblank. rewrite Hblank in Hpathis.
      symmetry in Hpathis. apply toLowerCase_empty in Hpathis. contradiction.
  - intros Hfind. unfold Capture.handleMetadataEvent. rewrite Htype, Hpath.
    cbn -[Capture.normalizePath find]. now rewrite Hempty, Hfind.
Qed.

(** X26, witness: the backend selects the one listed life scope. *)
Lemma scope_event_adopts_listed_scope_witness :
  exists st',
    Capture.handleMetadataEvent
      (JObject [("type", JString "project_scope_selected");
                ("scope_path", JString "/Life/My-Topic/")])
      Samples.scoped = Resolved st'
    /\ Capture.scopeEnabled st' = true
    /\ Capture.selectedScopePath st' = Some "Life/My-Topic"
    /\ Capture.getSelectedScopeOption st' = Some Samples.my_topic
    /\ assoc "mcp_scope_mode" (Capture.buildMcpParams None st') = Some (JString "project").
Proof.
  refine (proj1 (scope_event_adopts_listed_scope
                   (JObject [("type", JString "project_scope_selected");
                             ("scope_path", JString "/Life/My-Topic/")])
                   "/Life/My-Topic/" Samples.scoped _ _ _) Samples.my_topic _).
  - reflexivity.
  - reflexivity.
  - vm_compute. discriminate.
  - vm_compute. reflexivity.
Defined.

(** ** The scope default *)

(** X27.  The scope default never selects a path that is not listed:
    after [applyConfiguredScopeDefault] the list of scopes is as it was,
    and either the scope is disabled and no path is selected, or the
    props enable the scope, the scope is enabled and the selected path is
    the normalized path of a listed scope. *)
Theorem scope_default_selects_listed_scope
        (P : Capture.Props) (st : Capture.LibraryCaptureState) :
  let st' := Capture.applyConfiguredScopeDefault P st in
  Capture.scopeOptions st' = Capture.scopeOptions st
  /\ ((Capture.scopeEnabled st' = false /\ Capture.selectedScopePath st' = None)
      \/ (Capture.getConfiguredBooleanValue (Capture.defaultLibraryScopeEnabled P)
                                            (Capture.default_library_scope_enabled P)
          = Some true
          /\ Capture.scopeEnabled st' = true
          /\ exists scope,
               In scope (Capture.scopeOptions st)
               /\ Capture.selectedScopePath st'
                  = Some (Capture.normalizePath (path scope)))).
Proof.
  unfold Capture.applyConfiguredScopeDefault. cbv zeta.
  destruct (Capture.getConfiguredBooleanValue _ _) as [[|]|];
    try (split; [reflexivity|left; split; reflexivity]).
  destruct (Capture.scopeOptions st) as [|first rest] eqn:Hoptions;
    [split; [simpl; now rewrite Hoptions|left; split; reflexivity]|].
  match goal with
  | |- context [match ?m with Some _ => _ | None => Capture.set_selectedScopePath None _ end] =>
      destruct m as [matched|] eqn:Hmatched
  end.
  - split; [simpl; now rewrite Hoptions|].
    right. split; [reflexivity|]. split; [reflexivity|].
    exists matched. split; [|reflexivity].
    destruct (match Capture.getNormalizedDefaultScopePath P with
              | Some configuredPath =>
                  find (Capture.path_is configuredPath) (first :: rest)
              | None => None
              end) as [byPath|] eqn:Hpath.
    + inversion Hmatched; subst byPath.
      destruct (Capture.getNormalizedDefaultScopePath P); [|discriminate].
      now apply find_in in Hpath.
    + destruct (Capture.getNormalizedDefaultProjectSlug P); [|discriminate].
      now apply find_in in Hmatched.
  - split; [simpl; now rewrite Hoptions|left; split; reflexivity].
Qed.

(** ** The document upload *)

(** X28.  [processDocument] resolves only with an answer whose
    [processing_success] is the boolean [true] and whose
    [extracted_text] is a string, after exactly one upload of the file
    to [/api/v1/documents/process]. *)
Theorem processDocument_resolves_only_on_success
        (api : option ApiService) (file : File) (answer : json) :
  snd (CaptureService.processDocument api file) = Resolved answer ->
  get (Some answer) "processing_success" = Some (JBool true)
  /\ (exists text, get (Some answer) "extracted_text" = Some (JString text))
  /\ fst (CaptureService.processDocument api file)
     = [Post "/api/v1/documents/process" (BodyForm file)].
Proof.
  unfold CaptureService.processDocument.
  destruct api as [api|]; [|discriminate].
  destruct (api_post api) as [post|]; [|discriminate].
  destruct (post _ _) as [response|e]; [|discriminate].
  destruct (CaptureService.normalizeApiPayload response) as [p|] eqn:Hp; [|discriminate].
  destruct (get (Some p) "processing_success") as [[| [|] | | | |]|] eqn:Hok;
    try discriminate.
  destruct (get (Some p) "extracted_text") as [[| | |text| |]|] eqn:Htext;
    try discriminate.
  cbn [as_string snd fst]. intros H. inversion H; subst answer.
  split; [exact Hok|]. split; [|reflexivity].
  exists text. exact Htext.
Qed.

(** X28, witness: an upload answered with the extracted text. *)
Lemma processDocument_resolves_only_on_success_witness :
  fst (CaptureService.processDocument
         (Some (Samples.plain_service (Samples.extraction "notes"))) Samples.minutes)
  = [Post "/api/v1/documents/process" (BodyForm Samples.minutes)].
Proof.
  refine (proj2 (proj2
    (processDocument_resolves_only_on_success
       (Some (Samples.plain_service (Samples.extraction "notes"))) Samples.minutes
       (JObject [("processing_success", JBool true); ("extracted_text", JString "notes")])
       _))).
  vm_compute. reflexivity.
Defined.

(** ** The layouts of a page *)

Lemma total_counts_by {A : Type} (count : A -> nat) (f : A -> json * nat) (l : list A) :
  (forall x, snd (f x) = count x) ->
  PageDefaults.total (map snd (map f l)) = PageDefaults.total (map count l).
Proof.
  intros H. rewrite map_map. f_equal. apply map_ext. exact H.
Qed.

(** X29.  The scan of the layouts of a page is local: the layouts keep
    their names and their order, a layout that is not an array is
    written back as it was, in an array the items that are not objects
    or do not match the capture target are written back as they were
    and the matching items get the model merged into their [args], the
    other properties of the page content are untouched, and the number
    reported is the number of matching items. *)
Theorem layouts_scan_is_local
        (fs lays : list (string * json)) (modelConfig : list (string * json))
        (requestedModuleId : string) :
  assoc "layouts" fs = Some (JObject lays) ->
  let hit := fun item : json =>
               is_objectlike (Some item)
               && PageDefaults.layoutItemMatchesCaptureTarget (Some item) requestedModuleId in
  let scanned :=
    PageDefaults.applyDefaultModelToLayouts (JObject fs) modelConfig requestedModuleId in
  get (Some (fst scanned)) "layouts"
  = Some (JObject
            (map (fun entry =>
                    (fst entry,
                     match snd entry with
                     | JArray items =>
                         JArray (map (fun item =>
                                        if hit item
                                        then PageDefaults.merge_into "args" modelConfig item
                                        else item) items)
                     | other => other
                     end)) lays))
  /\ (forall k, k <> "layouts" -> get (Some (fst scanned)) k = assoc k fs)
  /\ snd scanned
     = PageDefaults.total
         (map (fun entry => match snd entry with
                            | JArray items => length (filter hit items)
                            | _ => 0
                            end) lays).
Proof.
  intros Hlays hit scanned. subst scanned.
  unfold PageDefaults.applyDefaultModelToLayouts. cbv zeta.
  unfold get. rewrite !Hlays.
  cbn [is_objectlike negb entries PageDefaults.rebuild fst snd].
  rewrite assoc_set_field_same.
  assert (Hitem : forall item,
             PageDefaults.update_item modelConfig requestedModuleId item
             = (if hit item then PageDefaults.merge_into "args" modelConfig item else item,
                if hit item then 1 else 0)).
  { intros item. unfold PageDefaults.update_item, hit.
    destruct (is_objectlike (Some item)); [|reflexivity].
    destruct (PageDefaults.layoutItemMatchesCaptureTarget (Some item) _); reflexivity. }
  assert (Hlayout : forall layout,
             PageDefaults.update_layout modelConfig requestedModuleId layout
             = (match layout with
                | JArray items =>
                    JArray (map (fun item =>
                                   if hit item
                                   then PageDefaults.merge_into "args" modelConfig item
                                   else item) items)
                | other => other
                end,
                match layout with
                | JArray items => length (filter hit items)
                | _ => 0
                end)).
  { intros layout. unfold PageDefaults.update_layout.
    destruct layout as [| | | |items|]; try reflexivity.
    f_equal.
    - f_equal. rewrite map_map. apply map_ext. intros item. now rewrite Hitem.
    - rewrite map_map. rewrite <- (total_counts hit items). f_equal.
      apply map_ext. intros item. now rewrite Hitem. }
  split; [|split].
  - f_equal. f_equal. rewrite map_map.
    rewrite (combine_updates
               (fun kv => fst (PageDefaults.update_layout modelConfig requestedModuleId
                                 (snd kv))) lays).
    apply map_ext. intros entry. rewrite Hlayout. now destruct (snd entry).
  - intros k Hk. now apply assoc_set_field_other.
  - rewrite map_map. f_equal. apply map_ext. intros entry. rewrite Hlayout.
    now destruct (snd entry).
Qed.

(** X29, witness: a layout with the capture item and another item. *)
Lemma layouts_scan_is_local_witness :
  snd (PageDefaults.applyDefaultModelToLayouts
         (JObject [("layouts",
                    JObject [("desktop",
                              JArray [JObject [("i", JString "LibraryCapture_1")];
                                      JObject [("i", JString "y")]])])])
         [("default_model_name", JString "llama3")] EmptyString)
  = 1.
Proof.
  refine (eq_trans (proj2 (proj2
    (layouts_scan_is_local
       [("layouts",
         JObject [("desktop",
                   JArray [JObject [("i", JString "LibraryCapture_1")];
                           JObject [("i", JString "y")]])])]
       [("desktop",
         JArray [JObject [("i", JString "LibraryCapture_1")]; JObject [("i", JString "y")]])]
       [("default_model_name", JString "llama3")] EmptyString _))) _).
  - reflexivity.
  - vm_compute. reflexivity.
Defined.

(** X30.  Saving the default touches nothing but the modules and the
    layouts: every other property of the page content is written back as
    it was read. *)
Theorem scan_touches_only_modules_and_layouts
        (content : json) (modelConfig : list (string * json)) (requestedModuleId : string)
        (k : string) :
  k <> "modules" -> k <> "layouts" ->
  get (Some (fst (PageDefaults.apply_defaults content modelConfig requestedModuleId))) k
  = get (Some content) k.
Proof.
  intros Hmodules Hlayouts. unfold PageDefaults.apply_defaults.
  assert (H1 : get (Some (fst (PageDefaults.applyDefaultModelToModules
                                 content modelConfig requestedModuleId))) k
               = get (Some content) k).
  { unfold PageDefaults.applyDefaultModelToModules. cbv zeta.
    destruct (get (Some content) "modules") as [m|]; [|reflexivity].
    destruct (negb (is_objectlike (Some m))); [reflexivity|].
    destruct content; try reflexivity.
    cbn [fst get]. now apply assoc_set_field_other. }
  destruct (PageDefaults.applyDefaultModelToModules content modelConfig requestedModuleId)
    as [c1 n1].
  cbn [fst] in H1. rewrite <- H1.
  assert (H2 : get (Some (fst (PageDefaults.applyDefaultModelToLayouts
                                 c1 modelConfig requestedModuleId))) k
               = get (Some c1) k).
  { unfold PageDefaults.applyDefaultModelToLayouts. cbv zeta.
    destruct (get (Some c1) "layouts") as [l|]; [|reflexivity].
    destruct (negb (is_objectlike (Some l))); [reflexivity|].
    destruct c1; try reflexivity.
    cbn [fst get]. now apply assoc_set_field_other. }
  destruct (PageDefaults.applyDefaultModelToLayouts c1 modelConfig requestedModuleId)
    as [c2 n2].
  exact H2.
Qed.

(** X30, witness: the title of a page whose capture module is updated. *)
Lemma scan_touches_only_modules_and_layouts_witness :
  get (Some (fst (PageDefaults.apply_defaults
                    (JObject [("title", JString "Notes");
                              ("modules",
                               JObject [("m1", JObject [("moduleName",
                                                         JString "LibraryCapture")])])])
                    [("default_model_name", JString "llama3")] EmptyString)))
      "title"
  = Some (JString "Notes").
Proof.
  refine (eq_trans
            (scan_touches_only_modules_and_layouts
               (JObject [("title", JString "Notes");
                         ("modules",
                          JObject [("m1", JObject [("moduleName",
                                                    JString "LibraryCapture")])])])
               [("default_model_name", JString "llama3")] EmptyString "title" _ _) _).
  - discriminate.
  - discriminate.
  - reflexivity.
Defined.
